(** * TimeEval algorithms of ESA-ADB: std, subsequence_if and dae

    A shallow embedding of

      - [TimeEval-algorithms/std/algorithm.py]            (module [Std]),
      - [TimeEval-algorithms/subsequence_if/algorithm.py] (module [SubsequenceIF]),
      - [TimeEval-algorithms/dae/model.py]                (module [DAE]),

    together with the parts of Python, numpy, pandas and shutil they call
    (modules [Py], [Np], [Pd], [Os]).  Python floats are IEEE binary64
    numbers and are modelled by the Standard Library's [spec_float] with
    [prec = 53] and [emax = 1024]; exceptions are values of [Py.exn];
    files live in a finite map from paths to contents. *)

From Stdlib Require Import ZArith Lia Ascii String.
From Stdlib Require Import Floats.SpecFloat.
From stdpp Require Import gmap strings list.

Local Open Scope Z_scope.
Local Open Scope nat_scope.

(* ===================================================================== *)
(** ** Python: exceptions, results, slices *)
(* ===================================================================== *)

Module Py.

(** The exceptions the three programs can raise. *)
Inductive exn : Set :=
| AssertionError
| KeyError
| ValueError
| IndexError
| FileNotFoundError
| NotADirectoryError
| IsADirectoryError
| ShutilError
| UnboundLocalError.

Inductive result (A : Type) : Type :=
| Ok (a : A)
| Raise (e : exn).
Arguments Ok {A} a.
Arguments Raise {A} e.

#[export] Instance result_ret : MRet result := λ A a, Ok a.
#[export] Instance result_bind : MBind result := λ A B f m,
  match m with
  | Ok a => f a
  | Raise e => Raise e
  end.

#[export] Instance result_fmap : FMap result := λ A B f m,
  match m with
  | Ok a => Ok (f a)
  | Raise e => Raise e
  end.

(** [xs[:-n]] for [n = len(...)] (so [n >= 0]).  Python reads [-0] as [0]:
    [xs[:-0]] is [xs[:0]], the empty list. *)
Definition slice_to_neg {A} (xs : list A) (n : nat) : list A :=
  match n with
  | 0 => []
  | S _ => take (length xs - n) xs
  end.

(** [xs.index(x)]: position of the first occurrence, [ValueError] if none. *)
Fixpoint index `{EqDecision A} (xs : list A) (x : A) : result nat :=
  match xs with
  | [] => Raise ValueError
  | y :: ys => if decide (y = x) then Ok 0 else S <$> index ys x
  end.

End Py.
Export Py.

(* ===================================================================== *)
(** ** numpy: binary64 scalars, 2-D arrays, broadcasting *)
(* ===================================================================== *)

Module Np.

(** A Python/numpy float: an IEEE binary64 number.  A float32 value read
    from the table is one of these (widening float32 to float64 is
    exact). *)
Definition float : Set := spec_float.

Definition prec : Z := 53.
Definition emax : Z := 1024.

Definition nan : float := S754_nan.
Definition zero : float := S754_zero false.

Definition add : float → float → float := SFadd prec emax.
Definition sub : float → float → float := SFsub prec emax.
Definition mul : float → float → float := SFmul prec emax.
Definition div : float → float → float := SFdiv prec emax.

(** [x == y], [x < y], [x > y], [x <= y] on floats; all false on [nan]. *)
Definition eqb (x y : float) : bool := SFeqb x y.
Definition ltb (x y : float) : bool := SFltb x y.
Definition gtb (x y : float) : bool := SFltb y x.
Definition leb (x y : float) : bool := SFleb x y.

(** Conversion of an integer to binary64 (round to nearest even). *)
Definition of_int (z : Z) : float := binary_normalize prec emax z 0 false.

Definition one : float := of_int 1.

(** [np.nextafter(0, 1)]: the successor of zero, the smallest positive
    (subnormal) binary64 number. *)
Definition nextafter_0_1 : float := SFsucc prec emax zero.


(** A 2-D array, stored by column; [shape0] is the number of rows (it is
    not recoverable from the columns when there are none). *)
Record ndarray (A : Type) : Type := mk_ndarray {
  shape0 : nat;
  cols : list (list A)
}.
Arguments mk_ndarray {A} shape0 cols.
Arguments shape0 {A} n.
Arguments cols {A} n.

(** [a.shape[1]] *)
Definition shape1 {A} (a : ndarray A) : nat := length (cols a).

(** [a[:, i]] for an integer [i >= 0] *)
Definition column {A} (a : ndarray A) (i : nat) : result (list A) :=
  match cols a !! i with
  | Some c => Ok c
  | None => Raise IndexError
  end.

(** [a[:, idx]] for a list of integer indices *)
Definition take_columns {A} (a : ndarray A) (idx : list nat) : result (ndarray A) :=
  cs ← mapM (column a) idx;
  Ok (mk_ndarray (shape0 a) cs).

(** [a[r, :]]: row [r] of the array. *)
Definition row {A} (a : ndarray A) (r : nat) : list A :=
  omap (λ c : list A, c !! r) (cols a).

(** [x[mask]] for a 1-D array and a boolean mask of the same length. *)
Definition masked {A} (x : list A) (mask : list bool) : list A :=
  (filter (λ p : A * bool, p.2 = true) (zip x mask)).*1.

(** numpy broadcasting of two 1-D operands (also used along the column
    axis of a 2-D operand): equal lengths pair up, a length-one operand
    is stretched, anything else is a [ValueError]. *)
Definition broadcast {A B C} (f : A → B → C) (xs : list A) (ys : list B)
  : result (list C) :=
  if decide (length xs = length ys) then Ok (zip_with f xs ys)
  else match xs, ys with
       | [x], _ => Ok (f x <$> ys)
       | _, [y] => Ok ((λ x, f x y) <$> xs)
       | _, _ => Raise ValueError
       end.

(** [a OP v] for a 2-D array [a] of shape (T, C) and a 1-D [v]: [v] runs
    along the columns. *)
Definition broadcast_2d_1d {A B C} (f : A → B → C) (a : ndarray A) (v : list B)
  : result (ndarray C) :=
  cs ← broadcast (λ (c : list A) (y : B), (λ x, f x y) <$> c) (cols a) v;
  Ok (mk_ndarray (shape0 a) cs).

(** [a OP b] for two 2-D arrays with the same number of rows. *)
Definition broadcast_2d_2d {A B C} (f : A → B → C) (a : ndarray A) (b : ndarray B)
  : result (ndarray C) :=
  cs ← broadcast (zip_with f) (cols a) (cols b);
  Ok (mk_ndarray (shape0 a) cs).

(** [np.where(v == 0, 1, v)] on a 1-D float array *)
Definition where_eq0_1 (v : list float) : list float :=
  (λ x, if eqb x zero then one else x) <$> v.

End Np.

(* ===================================================================== *)
(** ** pandas: data frames *)
(* ===================================================================== *)

Module Pd.

(** A cell of the table.  [read_csv] is called with a dtype per column:
    [np.float32] for the data columns and [np.uint8] for every column
    whose name starts with [is_anomaly] (lines 37-39 of std, 54-56 of
    subsequence_if).  [float_of] is the number a cell holds when numpy
    sees it as a float, [uint8_of] the number an [is_anomaly] cell holds
    as uint8. *)
Class Scalar (V : Type) : Type := {
  float_of : V → Np.float;
  uint8_of : V → Z
}.

(** A frame indexed by timestamp: the number of rows and the named
    columns in their order.  [read_csv] renames repeated column names, so a
    frame it returns has no two columns of the same name; a name is looked
    up from the left. *)
Record DataFrame (V : Type) : Type := mk_DataFrame {
  index : nat;
  series : list (string * list V)
}.
Arguments mk_DataFrame {V} index series.
Arguments index {V} d.
Arguments series {V} d.

Section Frames.
Context {V : Type}.

(** [df.columns.tolist()] *)
Definition columns (df : DataFrame V) : list string := (series df).*1.

Fixpoint lookup_series (s : list (string * list V)) (name : string)
  : option (list V) :=
  match s with
  | [] => None
  | (n, c) :: s' => if decide (n = name) then Some c else lookup_series s' name
  end.

(** [df[name]] *)
Definition getitem (df : DataFrame V) (name : string) : result (list V) :=
  match lookup_series (series df) name with
  | Some c => Ok c
  | None => Raise KeyError
  end.

Fixpoint assign_series (s : list (string * list V)) (name : string) (c : list V)
  : list (string * list V) :=
  match s with
  | [] => [(name, c)]
  | (n, c0) :: s' =>
      if decide (n = name) then (n, c) :: s'
      else (n, c0) :: assign_series s' name c
  end.

(** [df[name] = c]: replaces the column when it exists, appends it
    otherwise. *)
Definition setitem (df : DataFrame V) (name : string) (c : list V) : DataFrame V :=
  mk_DataFrame (index df) (assign_series (series df) name c).

(** [df.drop(columns=name)] *)
Definition drop (df : DataFrame V) (name : string) : result (DataFrame V) :=
  if decide (name ∈ columns df)
  then Ok (mk_DataFrame (index df)
             (filter (λ p : string * list V, p.1 ≠ name) (series df)))
  else Raise KeyError.

(** [df.loc[:, names]] and [df[names]]: the named columns in the order
    asked for; [KeyError] when a name is missing. *)
Definition loc (df : DataFrame V) (names : list string) : result (DataFrame V) :=
  cs ← mapM (λ n, c ← getitem df n; Ok (n, c)) names;
  Ok (mk_DataFrame (index df) cs).

Context `{!Scalar V}.

(** [df.to_numpy()] of a frame whose columns are floats (or a mix of
    float32 and uint8, which numpy widens to float). *)
Definition to_numpy (df : DataFrame V) : Np.ndarray Np.float :=
  Np.mk_ndarray (index df) ((λ p : string * list V, float_of <$> p.2) <$> series df).

(** [df.to_numpy()] of a frame of uint8 label columns. *)
Definition to_numpy_uint8 (df : DataFrame V) : Np.ndarray Z :=
  Np.mk_ndarray (index df) ((λ p : string * list V, uint8_of <$> p.2) <$> series df).
End Frames.

End Pd.

(* ===================================================================== *)
(** ** The file system the programs read and write *)
(* ===================================================================== *)

Module Os.

(** What a path can hold: the input table, a text file written by
    [np.savetxt] (a column of floats, a column of integers, an integer
    matrix), or a pickled model of type [M]. *)
Inductive file (V M : Type) : Type :=
| Csv (df : Pd.DataFrame V)
| FloatText (v : list Np.float)
| IntText (v : list Z)
| IntMatrixText (a : Np.ndarray Z)
| Pickle (m : M).
Arguments Csv {V M} df.
Arguments FloatText {V M} v.
Arguments IntText {V M} v.
Arguments IntMatrixText {V M} a.
Arguments Pickle {V M} m.

Inductive event : Set :=
| Read (path : string)
| Write (path : string).

(** The files and the accesses made so far, latest first. *)
Record World (V M : Type) : Type := mk_World {
  fs : gmap string (file V M);
  events : list event
}.
Arguments mk_World {V M} fs events.
Arguments fs {V M} w.
Arguments events {V M} w.

Section IO.
Context {V M : Type}.

(** A computation that may raise and that reads and writes files. *)
Definition io (A : Type) : Type := World V M → result A * World V M.

Definition ret {A} (a : A) : io A := λ w, (Ok a, w).

Definition bind {A B} (m : io A) (f : A → io B) : io B := λ w,
  match m w with
  | (Ok a, w') => f a w'
  | (Raise e, w') => (Raise e, w')
  end.

Definition lift {A} (r : result A) : io A := λ w, (r, w).

(** Opening a path for reading. *)
Definition open_r (path : string) : io (file V M) := λ w,
  let w' := mk_World (fs w) (Read path :: events w) in
  match fs w !! path with
  | Some f => (Ok f, w')
  | None => (Raise FileNotFoundError, w')
  end.

(** Writing a whole file. *)
Definition write (path : string) (f : file V M) : io unit := λ w,
  (Ok tt, mk_World (<[path := f]> (fs w)) (Write path :: events w)).

(** [pd.read_csv(path, index_col="timestamp", ...)] *)
Definition read_csv (path : string) : io (Pd.DataFrame V) :=
  bind (open_r path) (λ f,
    match f with
    | Csv df => ret df
    | _ => lift (Raise ValueError)
    end).

(** [np.atleast_1d(np.loadtxt(path))] of a file holding one float per
    line. *)
Definition loadtxt (path : string) : io (list Np.float) :=
  bind (open_r path) (λ f,
    match f with
    | FloatText v => ret v
    | IntText v => ret (Np.of_int <$> v)
    | _ => lift (Raise ValueError)
    end).

(** [pickle.load(open(path, "rb"))] *)
Definition pickle_load (path : string) : io M :=
  bind (open_r path) (λ f,
    match f with
    | Pickle m => ret m
    | _ => lift (Raise ValueError)
    end).
End IO.

End Os.

#[export] Instance io_ret {V M} : MRet (@Os.io V M) := @Os.ret V M.
#[export] Instance io_bind {V M} : MBind (@Os.io V M) := λ A B f m, Os.bind m f.

(* ===================================================================== *)
(** ** Channel and label resolution (shared by std and subsequence_if) *)
(* ===================================================================== *)

Module Resolver.
Import Pd.

(** What [load_data] has in hand once the channels are resolved: the
    updated [config.customParameters.target_channels] and
    [target_channel_indices], the locals [all_used_channels] and
    [all_used_anomaly_columns], the label matrix and the data matrix. *)
Record resolved : Type := mk_resolved {
  target_channels : list string;
  target_channel_indices : list nat;
  all_used_channels : list string;
  all_used_anomaly_columns : list string;
  labels : Np.ndarray Z;
  dataset : Np.ndarray Np.float
}.

Section Resolve.
Context {V : Type} `{!Scalar V}.

(** [x.startswith("is_anomaly")] *)
Definition is_anomaly_column (x : string) : bool := String.prefix "is_anomaly" x.

(** [f"is_anomaly_{channel}"] *)
Definition anomaly_column_of (channel : string) : string :=
  String.append "is_anomaly_" channel.

(** [len(set(target_channels).intersection(data_columns)) == 0] *)
Definition no_common_channel (target_channels data_columns : list string) : bool :=
  bool_decide
    (size ((list_to_set target_channels : gset string) ∩ list_to_set data_columns) = 0).

(** [[x for x in data_columns if x in set(target_channels)]] *)
Definition used_channels (data_columns target_channels : list string) : list string :=
  filter (λ x, x ∈ (list_to_set target_channels : gset string)) data_columns.

(** The loop of lines 55-56 (std) / 72-73 (subsequence_if):
    [for c in all_used_anomaly_columns: dataset[c] = dataset["is_anomaly"]] *)
Definition broadcast_global_label (df : DataFrame V) (names : list string)
  : result (DataFrame V) :=
  foldl (λ (acc : result (DataFrame V)) (c : string),
           d ← acc; g ← getitem d "is_anomaly"; Ok (setitem d c g))
        (Ok df) names.

(** Lines 33-65 of std/algorithm.py, which are lines 50-82 of
    subsequence_if/algorithm.py: [columns] is the header read first, [df]
    the frame [read_csv] returned and [requested] is
    [config.customParameters.target_channels]. *)
Definition resolve (columns : list string) (df : DataFrame V)
    (requested : option (list string)) : result resolved :=
  let anomaly_columns := filter (λ x, is_anomaly_column x) columns in
  let data_columns := slice_to_neg columns (length anomaly_columns) in
  '(target_channels, all_used_channels, all_used_anomaly_columns, df, data_columns) ←
    (if match requested with
        | None => true
        | Some tc => no_common_channel tc data_columns
        end
     then
       let target_channels := data_columns in
       let all_used_channels := used_channels data_columns target_channels in
       let all_used_anomaly_columns := anomaly_column_of <$> all_used_channels in
       Ok (target_channels, all_used_channels, all_used_anomaly_columns,
           df, data_columns)
     else
       let target_channels := filter (λ x, x ∈ data_columns) (default [] requested) in
       let all_used_channels := used_channels data_columns target_channels in
       let all_used_anomaly_columns := anomaly_column_of <$> all_used_channels in
       df ← (if bool_decide (length anomaly_columns = 1
                              ∧ anomaly_columns !! 0 = Some "is_anomaly")
             then d ← broadcast_global_label df all_used_anomaly_columns;
                  drop d "is_anomaly"
             else Ok df);
       df ← loc df (all_used_channels ++ all_used_anomaly_columns);
       let data_columns := take (length all_used_channels) (Pd.columns df) in
       Ok (target_channels, all_used_channels, all_used_anomaly_columns,
           df, data_columns));
  target_channel_indices ← mapM (Py.index data_columns) target_channels;
  lab ← loc df all_used_anomaly_columns;
  let labels := to_numpy_uint8 lab in
  dataset ← Np.take_columns (to_numpy df) target_channel_indices;
  Ok (mk_resolved target_channels target_channel_indices
        all_used_channels all_used_anomaly_columns labels dataset).
End Resolve.

End Resolver.

(* ===================================================================== *)
(** ** std/algorithm.py: the statistical baseline detector *)
(* ===================================================================== *)

Module Std.
Import Pd Os.

Record CustomParameters : Type := mk_CustomParameters {
  tol : Np.float;
  random_state : Z;
  target_channels : option (list string);
  target_channel_indices : option (list nat)
}.

(** The defaults of the dataclass: [tol = 3.0], [random_state = 42],
    [target_channels = None], [target_channel_indices = None]. *)
Definition default_CustomParameters : CustomParameters :=
  mk_CustomParameters (Np.of_int 3) 42 None None.

Record AlgorithmArgs : Type := mk_AlgorithmArgs {
  executionType : string;
  dataInput : string;
  dataOutput : string;
  modelInput : string;
  modelOutput : string;
  customParameters : CustomParameters
}.

(** The JSON object of [sys.argv[1]]: [customParameters] holds the keys
    that were given. *)
Record JsonCustomParameters : Type := mk_JsonCustomParameters {
  json_tol : option Np.float;
  json_random_state : option Z;
  json_target_channels : option (list string);
  json_target_channel_indices : option (list nat)
}.

Record JsonArgs : Type := mk_JsonArgs {
  json_executionType : string;
  json_dataInput : string;
  json_dataOutput : string;
  json_modelInput : string;
  json_modelOutput : string;
  json_customParameters : option JsonCustomParameters
}.

(** The dataclass built from the filtered keys: a key that is absent
    takes the dataclass default. *)
Definition make_CustomParameters (j : option JsonCustomParameters) : CustomParameters :=
  match j with
  | None => default_CustomParameters
  | Some j =>
      mk_CustomParameters
        (default (tol default_CustomParameters) (json_tol j))
        (default (random_state default_CustomParameters) (json_random_state j))
        (json_target_channels j)
        (json_target_channel_indices j)
  end.

Definition from_sys_args (args : JsonArgs) : result AlgorithmArgs :=
  Ok (mk_AlgorithmArgs (json_executionType args) (json_dataInput args)
        (json_dataOutput args) (json_modelInput args) (json_modelOutput args)
        (make_CustomParameters (json_customParameters args))).

Section Detector.
Context {V M : Type} `{!Scalar V}.

(** [np.mean] and [np.std] of a 1-D array: numpy's reductions, whose
    summation order and accumulator are the library's own. *)
Variable np_mean : list Np.float → Np.float.
Variable np_std : list Np.float → Np.float.

(** [[f(dataset[:, i][labels[:, i] == 0]) for i in range(dataset.shape[-1])]] *)
Definition per_channel (f : list Np.float → Np.float)
    (dataset : Np.ndarray Np.float) (labels : Np.ndarray Z)
  : result (list Np.float) :=
  mapM (λ i, d ← Np.column dataset i;
             l ← Np.column labels i;
             Ok (f (Np.masked d ((λ x, Z.eqb x 0) <$> l))))
       (seq 0 (Np.shape1 dataset)).

(** Lines 66-81: the part of [load_data] after the resolution. *)
Definition baseline (config : AlgorithmArgs)
    (dataset : Np.ndarray Np.float) (labels : Np.ndarray Z)
  : io (V:=V) (M:=M) (list Np.float * list Np.float) :=
  let meansOutput := String.append (modelOutput config) ".means.txt" in
  let stdsOutput := String.append (modelOutput config) ".stds.txt" in
  if decide (executionType config = "train") then
    train_means ← lift (per_channel np_mean dataset labels);
    _ ← write meansOutput (FloatText train_means);
    train_stds ← lift (per_channel np_std dataset labels);
    let train_stds := Np.where_eq0_1 train_stds in
    _ ← write stdsOutput (FloatText train_stds);
    mret (train_means, train_stds)
  else if decide (executionType config = "execute") then
    train_means ← loadtxt meansOutput;
    train_stds ← loadtxt stdsOutput;
    mret (train_means, train_stds)
  else lift (Raise UnboundLocalError).

Definition load_data (config : AlgorithmArgs)
  : io (V:=V) (M:=M)
       (AlgorithmArgs * (Np.ndarray Np.float * list Np.float * list Np.float)) :=
  header ← read_csv (dataInput config);
  df ← read_csv (dataInput config);
  r ← lift (Resolver.resolve (columns header) df
              (target_channels (customParameters config)));
  let config :=
    mk_AlgorithmArgs (executionType config) (dataInput config) (dataOutput config)
      (modelInput config) (modelOutput config)
      (mk_CustomParameters (tol (customParameters config))
         (random_state (customParameters config))
         (Some (Resolver.target_channels r))
         (Some (Resolver.target_channel_indices r))) in
  '(train_means, train_stds) ←
    baseline config (Resolver.dataset r) (Resolver.labels r);
  mret (config, (Resolver.dataset r, train_means, train_stds)).

Definition train (config : AlgorithmArgs) : io (V:=V) (M:=M) unit :=
  _ ← load_data config;
  mret tt.

(** [((data > train_means + tol * train_stds) |
      (data < train_means - tol * train_stds)).astype(np.uint8)] *)
Definition scores (tol : Np.float) (data : Np.ndarray Np.float)
    (train_means train_stds : list Np.float) : result (Np.ndarray Z) :=
  upper ← Np.broadcast Np.add train_means (Np.mul tol <$> train_stds);
  above ← Np.broadcast_2d_1d Np.gtb data upper;
  lower ← Np.broadcast Np.sub train_means (Np.mul tol <$> train_stds);
  below ← Np.broadcast_2d_1d Np.ltb data lower;
  flags ← Np.broadcast_2d_2d orb above below;
  Ok (Np.mk_ndarray (Np.shape0 flags)
        ((λ c : list bool, (λ b : bool, if b then 1%Z else 0%Z) <$> c)
           <$> Np.cols flags)).

Definition execute (config : AlgorithmArgs) : io (V:=V) (M:=M) unit :=
  '(config, (data, train_means, train_stds)) ← load_data config;
  s ← lift (scores (tol (customParameters config)) data train_means train_stds);
  write (dataOutput config) (IntMatrixText s).

Definition main (args : JsonArgs) : io (V:=V) (M:=M) unit :=
  config ← lift (from_sys_args args);
  if decide (executionType config = "train") then train config
  else if decide (executionType config = "execute") then execute config
  else lift (Raise ValueError).
End Detector.

End Std.

(* ===================================================================== *)
(** ** subsequence_if/algorithm.py: the windowed isolation forest *)
(* ===================================================================== *)

Module SubsequenceIF.
Import Pd Os.

Record CustomParameters : Type := mk_CustomParameters {
  window_size : Z;
  n_trees : Z;
  max_samples : option Np.float;
  max_features : Np.float;
  bootstrap : bool;
  random_state : Z;
  verbose : Z;
  n_jobs : Z;
  target_channels : option (list string);
  target_channel_indices : option (list nat)
}.

(** The defaults of the dataclass. *)
Definition default_CustomParameters : CustomParameters :=
  mk_CustomParameters 100 100 None Np.one false 42 0 1 None None.

Record AlgorithmArgs : Type := mk_AlgorithmArgs {
  executionType : string;
  dataInput : string;
  dataOutput : string;
  modelInput : string;
  modelOutput : string;
  customParameters : CustomParameters
}.

Record JsonCustomParameters : Type := mk_JsonCustomParameters {
  json_window_size : option Z;
  json_n_trees : option Z;
  json_max_samples : option Np.float;
  json_max_features : option Np.float;
  json_bootstrap : option bool;
  json_random_state : option Z;
  json_verbose : option Z;
  json_n_jobs : option Z;
  json_target_channels : option (list string);
  json_target_channel_indices : option (list nat)
}.

Record JsonArgs : Type := mk_JsonArgs {
  json_executionType : string;
  json_dataInput : string;
  json_dataOutput : string;
  json_modelInput : string;
  json_modelOutput : string;
  json_customParameters : option JsonCustomParameters
}.

Definition make_CustomParameters (j : option JsonCustomParameters) : CustomParameters :=
  match j with
  | None => default_CustomParameters
  | Some j =>
      let d := default_CustomParameters in
      mk_CustomParameters
        (default (window_size d) (json_window_size j))
        (default (n_trees d) (json_n_trees j))
        (json_max_samples j)
        (default (max_features d) (json_max_features j))
        (default (bootstrap d) (json_bootstrap j))
        (default (random_state d) (json_random_state j))
        (default (verbose d) (json_verbose j))
        (default (n_jobs d) (json_n_jobs j))
        (json_target_channels j)
        (json_target_channel_indices j)
  end.

(** Line 37 is [assert args["customParameters"].window_size % 2 == 1];
    Python's [%] with a positive divisor is [Z.modulo]. *)
Definition from_sys_args (args : JsonArgs) : result AlgorithmArgs :=
  let customParameters := make_CustomParameters (json_customParameters args) in
  if decide ((window_size customParameters mod 2)%Z = 1%Z) then
    Ok (mk_AlgorithmArgs (json_executionType args) (json_dataInput args)
          (json_dataOutput args) (json_modelInput args) (json_modelOutput args)
          customParameters)
  else Raise AssertionError.

(** The keyword arguments of [IForest(...)], lines 101-110;
    [if_max_samples = None] stands for ["auto"]. *)
Record IForestArgs : Type := mk_IForestArgs {
  if_contamination : Np.float;
  if_n_estimators : Z;
  if_max_samples : option Np.float;
  if_max_features : Np.float;
  if_bootstrap : bool;
  if_random_state : Z;
  if_verbose : Z;
  if_n_jobs : Z
}.

(** [labels.max(axis=1)]: the maximum of every row; numpy refuses to
    reduce over an axis of length zero. *)
Definition max_axis1 (labels : Np.ndarray Z) : result (list Z) :=
  match Np.cols labels with
  | [] => Raise ValueError
  | _ :: _ =>
      Ok ((λ r, match Np.row labels r with
                | [] => 0%Z
                | x :: xs => foldl Z.max x xs
                end) <$> seq 0 (Np.shape0 labels))
  end.

(** [labels[labels > 0] = 1] *)
Definition clamp (labels : list Z) : list Z :=
  (λ x, if (0 <? x)%Z then 1%Z else x) <$> labels.

(** [labels.sum()] of a uint8 array: numpy accumulates in uint64. *)
Definition sum_uint64 (labels : list Z) : Z :=
  (foldl Z.add 0 labels mod 2 ^ 64)%Z.

(** Lines 83-87. *)
Definition contamination_of (labels : Np.ndarray Z) : result Np.float :=
  labels ← max_axis1 labels;
  let labels := clamp labels in
  let contamination :=
    Np.div (Np.of_int (sum_uint64 labels)) (Np.of_int (Z.of_nat (length labels))) in
  Ok (if Np.eqb contamination Np.zero then Np.nextafter_0_1 else contamination).

(** [sliding_window_view(data, window_shape=W, axis=0).reshape(-1, W*data.shape[1])]:
    one row per window start [i], holding for every channel its [W] values
    from row [i] on.  numpy raises [ValueError] for a negative window, for
    a window longer than the array, and for a reshape to rows of width
    zero. *)
Definition windows (data : Np.ndarray Np.float) (W : Z) : result (list (list Np.float)) :=
  if decide (W < 0)%Z then Raise ValueError
  else if decide (Z.of_nat (Np.shape0 data) < W)%Z then Raise ValueError
  else if decide (W * Z.of_nat (Np.shape1 data) = 0)%Z then Raise ValueError
  else
    let w := Z.to_nat W in
    Ok ((λ i, mjoin ((λ c : list Np.float, take w (skipn i c)) <$> Np.cols data))
          <$> seq 0 (Np.shape0 data - w + 1)).

(** [np.pad(result, width, constant_values=0)] on a 1-D array *)
Definition pad (result : list Z) (width : Z) : Py.result (list Z) :=
  if decide (width < 0)%Z then Raise ValueError
  else Ok (replicate (Z.to_nat width) 0%Z ++ result ++ replicate (Z.to_nat width) 0%Z).

Section Detector.
Context {V M : Type} `{!Scalar V}.

(** pyod's isolation forest: building [IForest] from its keyword
    arguments and fitting it to the samples, and [clf.predict(data)].
    [set_random_state] only seeds the generators these calls use. *)
Variable IForest_fit : IForestArgs → list (list Np.float) → result M.
Variable predict : M → list (list Np.float) → list Z.

Definition load_data (config : AlgorithmArgs)
  : io (V:=V) (M:=M) (AlgorithmArgs * (Np.ndarray Np.float * Np.float)) :=
  header ← read_csv (dataInput config);
  df ← read_csv (dataInput config);
  r ← lift (Resolver.resolve (columns header) df
              (target_channels (customParameters config)));
  let p := customParameters config in
  let config :=
    mk_AlgorithmArgs (executionType config) (dataInput config) (dataOutput config)
      (modelInput config) (modelOutput config)
      (mk_CustomParameters (window_size p) (n_trees p) (max_samples p)
         (max_features p) (bootstrap p) (random_state p) (verbose p) (n_jobs p)
         (Some (Resolver.target_channels r))
         (Some (Resolver.target_channel_indices r))) in
  contamination ← lift (contamination_of (Resolver.labels r));
  mret (config, (Resolver.dataset r, contamination)).

(** [config.customParameters.max_samples or "auto"] *)
Definition max_samples_or_auto (m : option Np.float) : option Np.float :=
  match m with
  | Some x => if Np.eqb x Np.zero then None else Some x
  | None => None
  end.

Definition train (config : AlgorithmArgs) : io (V:=V) (M:=M) unit :=
  '(config, (data, contamination)) ← load_data config;
  let p := customParameters config in
  data ← lift (windows data (window_size p));
  clf ← lift (IForest_fit
                (mk_IForestArgs contamination (n_trees p)
                   (max_samples_or_auto (max_samples p)) (max_features p)
                   (bootstrap p) (random_state p) (verbose p) (n_jobs p))
                data);
  write (modelOutput config) (Pickle clf).

Definition execute (config : AlgorithmArgs) : io (V:=V) (M:=M) unit :=
  '(config, (data, _)) ← load_data config;
  let p := customParameters config in
  data ← lift (windows data (window_size p));
  clf ← pickle_load (modelInput config);
  let result := predict clf data in
  result ← lift (pad result (window_size p / 2)%Z);
  write (dataOutput config) (IntText result).

(** The body of [if __name__ == "__main__"], once [sys.argv] holds the one
    JSON argument. *)
Definition main (args : JsonArgs) : io (V:=V) (M:=M) unit :=
  config ← lift (from_sys_args args);
  if decide (executionType config = "train") then train config
  else if decide (executionType config = "execute") then execute config
  else lift (Raise ValueError).
End Detector.

End SubsequenceIF.

(* ===================================================================== *)
(** ** dae/model.py: archiving the best checkpoint after every epoch *)
(* ===================================================================== *)

Module DAE.

(** What a path holds on disk: a directory with contents [c] (the
    checkpoint Keras saves is one), a complete zip archive of [c], a zip
    archive of [c] of which only [n] chunks are written yet, or some other
    regular file. *)
Inductive node (C : Type) : Type :=
| Dir (c : C)
| Zip (c : C)
| PartialZip (c : C) (n : nat)
| File.
Arguments Dir {C} c.
Arguments Zip {C} c.
Arguments PartialZip {C} c n.
Arguments File {C}.

Definition is_dir {C} (n : option (node C)) : bool :=
  match n with Some (Dir _) => true | _ => false end.

(** The disk now and every state it went through before, latest first. *)
Record Disk (C : Type) : Type := mk_Disk {
  now : gmap string (node C);
  past : list (gmap string (node C))
}.
Arguments mk_Disk {C} now past.
Arguments now {C} d.
Arguments past {C} d.

(** Every state of the disk so far, latest first. *)
Definition states {C} (d : Disk C) : list (gmap string (node C)) := now d :: past d.

(** [os.path.basename] *)
Fixpoint basename (path : string) : string :=
  match path with
  | EmptyString => EmptyString
  | String a rest =>
      if decide (a = "/"%char) then basename rest
      else if bool_decide ("/"%char ∈ list_ascii_of_string rest) then basename rest
      else path
  end.

Section Archive.
Context {C : Type}.

Definition dio (A : Type) : Type := Disk C → result A * Disk C.

Definition dret {A} (a : A) : dio A := λ d, (Ok a, d).

Definition dbind {A B} (m : dio A) (f : A → dio B) : dio B := λ d,
  match m d with
  | (Ok a, d') => f a d'
  | (Raise e, d') => (Raise e, d')
  end.

Definition raise {A} (e : exn) : dio A := λ d, (Raise e, d).

(** One atomic change of the disk. *)
Definition update (f : gmap string (node C) → gmap string (node C)) : dio unit :=
  λ d, (Ok tt, mk_Disk (f (now d)) (now d :: past d)).

Definition stat (path : string) : dio (option (node C)) :=
  λ d, (Ok (now d !! path), d).

(** [os.path.exists(path)] *)
Definition exists_ (path : string) : dio bool :=
  λ d, (Ok (bool_decide (is_Some (now d !! path))), d).

(** The zip writer puts the archive on disk chunk by chunk; how many
    chunks it takes depends on the contents. *)
Variable zip_chunks : C → nat.

Fixpoint write_chunks (path : string) (c : C) (written : nat) (todo : nat) : dio unit :=
  match todo with
  | 0 => update (<[path := Zip c]>)
  | S todo' =>
      dbind (update (<[path := PartialZip c written]>))
            (λ _, write_chunks path c (S written) todo')
  end.

(** [shutil.make_archive(base_name, root_dir=root_dir, format="zip")]:
    writes [base_name + ".zip"] from the directory [root_dir]. *)
Definition make_archive (base_name root_dir : string) : dio unit :=
  dbind (stat root_dir) (λ r,
    match r with
    | None => raise FileNotFoundError
    | Some (Dir c) =>
        let zip_name := String.append base_name ".zip" in
        dbind (stat zip_name) (λ z,
          if is_dir z then raise IsADirectoryError
          else write_chunks zip_name c 0 (zip_chunks c))
    | Some _ => raise NotADirectoryError
    end).

(** [os.rename(src, dst)] on a POSIX system: one atomic step that replaces
    [dst]. *)
Definition rename (src dst : string) : dio unit :=
  dbind (stat src) (λ s,
    match s with
    | None => raise FileNotFoundError
    | Some n => update (λ fs, <[dst := n]> (delete src fs))
    end).

(** [shutil.move(src, dst)]: into [dst] when [dst] is an existing
    directory (an error when the name is taken there), a rename
    otherwise. *)
Definition move (src dst : string) : dio unit :=
  dbind (stat dst) (λ t,
    if is_dir t then
      let real_dst := String.append dst (String.append "/" (basename src)) in
      dbind (exists_ real_dst) (λ taken,
        if taken then raise ShutilError else rename src real_dst)
    else rename src dst).

(** Lines 50-52. *)
Definition _create_archive (tmp_path model_path : string) : dio unit :=
  dbind (make_archive model_path tmp_path) (λ _,
    move (String.append model_path ".zip") model_path).

(** One epoch as the callbacks see it: [checkpoint] is what
    [ModelCheckpoint("check", save_best_only=True)] saves at the end of
    the epoch, [Some c] when the validation loss improved. *)
Record epoch : Type := mk_epoch { checkpoint : option C }.

(** The callbacks of lines 40-43 at the end of one epoch, in the order of
    the list: the checkpoint, then the lambda. *)
Definition on_epoch_end (model_path : string) (e : epoch) : dio unit :=
  dbind (match checkpoint e with
         | Some c => update (<["check"%string := Dir c]>)
         | None => dret tt
         end) (λ _,
  dbind (exists_ "check") (λ present,
    if present then _create_archive "check" model_path else dret tt)).

(** [fit], lines 37-44, over the epochs Keras runs (the epoch budget,
    cut short by early stopping). *)
Fixpoint fit (model_path : string) (epochs : list epoch) : dio unit :=
  match epochs with
  | [] => dret tt
  | e :: rest => dbind (on_epoch_end model_path e) (λ _, fit model_path rest)
  end.

(** What a reader of [model_path] can see from one state of the disk to
    the next: either the same contents, or the complete archive that was
    at [model_path + ".zip"], put there by one rename. *)
Definition replaced_or_kept (model_path : string)
    (before after : gmap string (node C)) : Prop :=
  after !! model_path = before !! model_path
  ∨ ∃ c, before !! String.append model_path ".zip" = Some (Zip c)
         ∧ after = <[model_path := Zip c]> (delete (String.append model_path ".zip") before).

(** [replaced_or_kept] between every two successive states of a history
    (latest first). *)
Fixpoint atomic_history (model_path : string) (h : list (gmap string (node C))) : Prop :=
  match h with
  | after :: (before :: _) as rest =>
      replaced_or_kept model_path before after ∧ atomic_history model_path rest
  | _ => True
  end.

(** The invariant of the callbacks: the history is atomic and started at
    [fs0]; neither the model path nor the temporary path is a directory;
    the checkpoint, when there is one, is a directory. *)
Definition loop_invariant (model_path : string) (fs0 : gmap string (node C))
    (d : Disk C) : Prop :=
  atomic_history model_path (states d)
  ∧ last (states d) = Some fs0
  ∧ is_dir (now d !! model_path) = false
  ∧ is_dir (now d !! String.append model_path ".zip") = false
  ∧ (now d !! "check"%string = None ∨ ∃ c, now d !! "check"%string = Some (Dir c)).
End Archive.

End DAE.

(* ===================================================================== *)
(** ** Concrete tables and a concrete numpy to run the model on *)
(* ===================================================================== *)

Module Example.
Import Pd Os.

(** Tables with integer entries: a data cell [z] holds the float [z], a
    label cell holds [z] as uint8. *)
#[export] Instance Z_scalar : Scalar Z :=
  {| float_of := Np.of_int; uint8_of := λ z, (z mod 256)%Z |}.

(** Left-to-right binary64 reductions standing in for [np.mean] and
    [np.std] on concrete inputs. *)
Definition sum (xs : list Np.float) : Np.float := foldl Np.add Np.zero xs.

Definition mean (xs : list Np.float) : Np.float :=
  Np.div (sum xs) (Np.of_int (Z.of_nat (length xs))).

Definition std (xs : list Np.float) : Np.float :=
  let m := mean xs in
  SFsqrt Np.prec Np.emax (mean ((λ x, Np.mul (Np.sub x m) (Np.sub x m)) <$> xs)).




(** Two channels with one label column each. *)
Definition per_channel_table : DataFrame Z :=
  mk_DataFrame 3
    [("a", [1; 2; 3]%Z); ("b", [5; 5; 8]%Z);
     ("is_anomaly_a", [0; 1; 0]%Z); ("is_anomaly_b", [0; 0; 0]%Z)].

(** Two channels and the single global label column. *)
Definition global_label_table : DataFrame Z :=
  mk_DataFrame 3
    [("a", [1; 2; 3]%Z); ("b", [5; 5; 8]%Z); ("is_anomaly", [0; 1; 0]%Z)].

(** A table with a label column and no channel. *)
Definition no_channel_table : DataFrame Z :=
  mk_DataFrame 3 [("is_anomaly", [0; 1; 0]%Z)].

(** One constant channel, seven rows, no anomaly. *)
Definition constant_table : DataFrame Z :=
  mk_DataFrame 7
    [("a", [4; 4; 4; 4; 4; 4; 4]%Z); ("is_anomaly_a", [0; 0; 0; 0; 0; 0; 0]%Z)].

(** One channel, five rows, no anomaly. *)
Definition series_table : DataFrame Z :=
  mk_DataFrame 5 [("a", [1; 2; 3; 4; 5]%Z); ("is_anomaly_a", [0; 0; 0; 0; 0]%Z)].

Definition world_of {M} (df : DataFrame Z) : World Z M :=
  mk_World {["in.csv" := Csv df]} [].

Definition world_with_model {M} (df : DataFrame Z) (m : M) : World Z M :=
  mk_World (<["model" := Pickle m]> {["in.csv" := Csv df]}) [].

Definition std_args (mode : string) (requested : option (list string)) : Std.JsonArgs :=
  Std.mk_JsonArgs mode "in.csv" "out.csv" "model" "model"
    (Some (Std.mk_JsonCustomParameters None None requested None)).

Definition sif_args (mode : string) (W : Z) : SubsequenceIF.JsonArgs :=
  SubsequenceIF.mk_JsonArgs mode "in.csv" "out.csv" "model" "model"
    (Some (SubsequenceIF.mk_JsonCustomParameters (Some W) None None None None
             None None None None None)).

(** A stand-in for a fitted forest: it remembers its contamination and
    labels a window 1 when its first value exceeds 2. *)
Definition toy_fit (a : SubsequenceIF.IForestArgs) (X : list (list Np.float))
  : result Np.float := Ok (SubsequenceIF.if_contamination a).

Definition toy_predict (m : Np.float) (X : list (list Np.float)) : list Z :=
  (λ x : list Np.float,
     match x with
     | v :: _ => if Np.gtb v (Np.of_int 2) then 1%Z else 0%Z
     | [] => 0%Z
     end) <$> X.

End Example.

(* ===================================================================== *)
(** ** Properties *)
(* ===================================================================== *)

Import Pd Os Resolver Example.

(** *** The result and io monads *)

Section ResultLemmas.
Context {A B : Type}.
Implicit Types (f : A → result B) (l : list A) (k : list B).

Lemma bind_ok (r : result A) (g : A → result B) b :
  r ≫= g = Ok b ↔ ∃ a, r = Ok a ∧ g a = Ok b.
Proof.
  destruct r as [a|e]; simpl.
  - split; [intros H; by exists a | by intros (a' & [= <-] & H)].
  - split; [done | by intros (a' & [=] & _)].
Qed.

Lemma mapM_ok_Forall2 f l k :
  mapM f l = Ok k ↔ Forall2 (λ x y, f x = Ok y) l k.
Proof.
  revert k. induction l as [|x l IH]; intros k; simpl.
  - split; [intros [= <-]; constructor | by inversion 1].
  - split.
    + destruct (f x) as [y|] eqn:Hx; simpl; [|done].
      destruct (mapM f l) as [k'|] eqn:Hl; simpl; [|done].
      intros [= <-]. constructor; [done | by apply IH].
    + inversion 1 as [|? y ? k' Hx Hl]; subst. rewrite Hx. simpl.
      apply IH in Hl. rewrite Hl. done.
Qed.

Lemma mapM_ok_length f l k : mapM f l = Ok k → length k = length l.
Proof. rewrite mapM_ok_Forall2. intros H. symmetry. by eapply Forall2_length. Qed.

End ResultLemmas.

(** *** Frames and name lists *)

Section ResolverLemmas.
Context {V : Type} `{!Scalar V}.
Implicit Types (df : DataFrame V) (s : list (string * list V)).

Lemma lookup_series_None s name : lookup_series s name = None ↔ name ∉ s.*1.
Proof.
  induction s as [|[n c] s IH]; simpl.
  - split; [intros _; apply not_elem_of_nil | done].
  - destruct (decide (n = name)) as [->|Hne].
    + split; [done | intros H; exfalso; apply H; left].
    + rewrite IH, not_elem_of_cons. split; [done | by intros [_ H]].
Qed.

Lemma getitem_missing df name : name ∉ columns df → getitem df name = Raise KeyError.
Proof.
  intros H. unfold getitem. apply lookup_series_None in H. by rewrite H.
Qed.

Lemma loc_head_missing df name names :
  name ∉ columns df → loc df (name :: names) = Raise KeyError.
Proof. intros H. unfold loc. simpl. by rewrite getitem_missing. Qed.

Lemma index_elem_of (l : list string) x : x ∈ l → ∃ i, Py.index l x = Ok i.
Proof.
  induction l as [|y l IH]; [by intros ?%elem_of_nil|].
  intros Hx. simpl. destruct (decide (y = x)); [eauto|].
  apply elem_of_cons in Hx as [->|Hx]; [done|].
  destruct (IH Hx) as [i ->]. simpl. eauto.
Qed.

Lemma mapM_index_ok (l k : list string) :
  k ⊆ l → ∃ idx, mapM (Py.index l) k = Ok idx.
Proof.
  induction k as [|x k IH]; intros Hsub; simpl; [by eexists|].
  destruct (index_elem_of l x) as [i ->]; [apply Hsub; left|].
  destruct IH as [idx ->]; [intros y Hy; apply Hsub; by right|].
  simpl. eauto.
Qed.

Lemma used_channels_subseteq l t : l ⊆ t → Resolver.used_channels l t = l.
Proof.
  unfold Resolver.used_channels.
  induction l as [|x l IH]; intros Hsub; [done|].
  rewrite filter_cons_True.
  - f_equal. apply IH. intros y Hy. apply Hsub. by right.
  - apply elem_of_list_to_set, Hsub. left.
Qed.

Lemma used_channels_self l : Resolver.used_channels l l = l.
Proof. by apply used_channels_subseteq. Qed.

Lemma no_common_channel_nil tc : Resolver.no_common_channel tc [] = true.
Proof.
  unfold Resolver.no_common_channel. apply bool_decide_eq_true.
  rewrite list_to_set_nil. apply size_empty_iff.
  intros x. rewrite elem_of_intersection, elem_of_empty. by split; [intros [_ ?]|].
Qed.

Lemma no_common_channel_false tc dc :
  Resolver.no_common_channel tc dc = false → ∃ x, x ∈ tc ∧ x ∈ dc.
Proof.
  unfold Resolver.no_common_channel. intros H%bool_decide_eq_false.
  destruct (size_pos_elem_of (list_to_set tc ∩ list_to_set dc : gset string))
    as [x Hx]; [lia|].
  exists x. set_solver.
Qed.

Lemma anomaly_column_of_is_anomaly c :
  Resolver.is_anomaly_column (Resolver.anomaly_column_of c) = true.
Proof. reflexivity. Qed.

Lemma anomaly_column_of_not_global c : Resolver.anomaly_column_of c ≠ "is_anomaly"%string.
Proof. unfold Resolver.anomaly_column_of. simpl. discriminate. Qed.
End ResolverLemmas.



(** *** Channel and label resolution *)

(** C1 (the code departs from it).  With no requested channel, or none that
    names a channel column, the resolution keeps every channel column and
    names one label column [is_anomaly_<channel>] per channel, but it does
    not create those columns from a single global [is_anomaly] column: that
    is done on the other branch only (lines 54-57 of std, 71-74 of
    subsequence_if).  So on every table whose only label column is the
    global [is_anomaly] and that has at least one channel, selecting the
    label columns raises [KeyError]. *)
Theorem C1_default_selection_raises_on_global_label :
  ∀ (V : Type) (S : Scalar V) (df : DataFrame V) (requested : option (list string)),
    let data_columns :=
      slice_to_neg (columns df)
        (length (filter (λ x, is_anomaly_column x) (columns df))) in
    filter (λ x, is_anomaly_column x) (columns df) = ["is_anomaly"%string] →
    data_columns ≠ [] →
    match requested with
    | None => True
    | Some tc => no_common_channel tc data_columns = true
    end →
    resolve (columns df) df requested = Raise KeyError.
Proof.
  intros V S df requested data_columns Hglobal Hne Hreq.
  unfold resolve. fold data_columns.
  replace (match requested with
           | Some tc => no_common_channel tc data_columns
           | None => true
           end) with true by (destruct requested; done).
  cbn [mbind result_bind]. rewrite used_channels_self.
  destruct (mapM_index_ok data_columns data_columns) as [idx ->]; [done|].
  cbn [mbind result_bind].
  destruct data_columns as [|c0 dc] eqn:Hdc; [done|].
  rewrite fmap_cons, loc_head_missing; [done|].
  intros Hin.
  assert (anomaly_column_of c0 ∈ filter (λ x, is_anomaly_column x) (columns df)) as Hf.
  { apply list_elem_of_filter. split; [|done]. by rewrite anomaly_column_of_is_anomaly. }
  rewrite Hglobal in Hf. apply list_elem_of_singleton in Hf.
  by apply anomaly_column_of_not_global in Hf.
Qed.

(** C1 at the table with channels [a], [b] and the global label column. *)
Lemma C1_global_label_witness :
  resolve (columns Example.global_label_table) Example.global_label_table None
  = Raise KeyError.
Proof.
  apply C1_default_selection_raises_on_global_label.
  - reflexivity.
  - vm_compute. discriminate.
  - exact I.
Defined.

(** What the default selection does get right. *)

Section DefaultSelection.
Context {V : Type} `{!Scalar V}.
Implicit Types (df : DataFrame V).

Lemma index_lookup_NoDup (l : list string) i x :
  NoDup l → l !! i = Some x → Py.index l x = Ok i.
Proof.
  intros Hnd. revert i. induction Hnd as [|y l Hy Hnd IH]; intros i Hi; [done|].
  simpl. destruct i as [|i]; simpl in Hi.
  - injection Hi as ->. by rewrite decide_True.
  - rewrite decide_False.
    + by rewrite (IH i Hi).
    + intros ->. apply Hy. by eapply list_elem_of_lookup_2.
Qed.

Lemma mapM_index_self (l : list string) :
  NoDup l → mapM (Py.index l) l = Ok (seq 0 (length l)).
Proof.
  intros Hnd. apply mapM_ok_Forall2. apply Forall2_same_length_lookup_2.
  - by rewrite length_seq.
  - intros i x j Hx Hj. apply lookup_seq in Hj as [-> _]. by apply index_lookup_NoDup.
Qed.

Lemma take_columns_seq {A} (a : Np.ndarray A) k :
  k ≤ Np.shape1 a →
  Np.take_columns a (seq 0 k) = Ok (Np.mk_ndarray (Np.shape0 a) (take k (Np.cols a))).
Proof.
  intros Hk. unfold Np.take_columns.
  assert (mapM (Np.column a) (seq 0 k) = Ok (take k (Np.cols a))) as ->; [|done].
  apply mapM_ok_Forall2. apply Forall2_same_length_lookup_2.
  - rewrite length_seq, length_take. unfold Np.shape1 in Hk. lia.
  - intros i j c Hj Hc. apply lookup_seq in Hj as [-> _].
    apply lookup_take_Some in Hc as [Hc _]. unfold Np.column. simpl. by rewrite Hc.
Qed.

Lemma loc_present df (names : list string) :
  names ⊆ columns df →
  ∃ cs, loc df names = Ok (mk_DataFrame (index df) cs)
        ∧ cs.*1 = names
        ∧ Forall (λ p : string * list V, lookup_series (series df) p.1 = Some p.2) cs.
Proof.
  intros Hsub. unfold loc.
  assert (∃ cs, mapM (λ n, c ← getitem df n; Ok (n, c)) names = Ok cs
                ∧ cs.*1 = names
                ∧ Forall (λ p : string * list V,
                            lookup_series (series df) p.1 = Some p.2) cs)
    as (cs & -> & Hn & Hl); [|by exists cs].
  induction names as [|n names IH].
  - exists []. by repeat split.
  - destruct IH as (cs & Hm & Hnames & Hcs); [intros x Hx; apply Hsub; by right|].
    cbn [mapM]. rewrite Hm. unfold getitem.
    destruct (lookup_series (series df) n) as [c|] eqn:Hn.
    + exists ((n, c) :: cs). cbn. split; [done|]. split; [by rewrite Hnames|].
      by constructor.
    + apply lookup_series_None in Hn. exfalso. apply Hn, Hsub. left.
Qed.

Lemma slice_to_neg_prefix {A} (xs : list A) n : slice_to_neg xs n `prefix_of` xs.
Proof.
  destruct n; simpl; [apply prefix_nil|]. apply prefix_take.
Qed.

(** With no requested channel (or none that names a channel column) and one
    label column [is_anomaly_<channel>] per channel in the table, the
    resolution keeps every channel column in the order of the table and
    returns one label column per channel, in the same order. *)
Lemma resolve_default_per_channel df requested :
  let data_columns :=
    slice_to_neg (columns df)
      (length (filter (λ x, is_anomaly_column x) (columns df))) in
  NoDup (columns df) →
  match requested with
  | None => True
  | Some tc => no_common_channel tc data_columns = true
  end →
  (∀ c, c ∈ data_columns → anomaly_column_of c ∈ columns df) →
  ∃ r lab, resolve (columns df) df requested = Ok r
       ∧ target_channels r = data_columns
       ∧ all_used_channels r = data_columns
       ∧ target_channel_indices r = seq 0 (length data_columns)
       ∧ Np.cols (dataset r) = take (length data_columns) (Np.cols (to_numpy df))
       ∧ labels r = to_numpy_uint8 (mk_DataFrame (index df) lab)
       ∧ lab.*1 = anomaly_column_of <$> data_columns
       ∧ Forall (λ p : string * list V, lookup_series (series df) p.1 = Some p.2) lab.
Proof.
  intros data_columns Hnd Hreq Hlabels.
  assert (data_columns `prefix_of` columns df) as Hpre by apply slice_to_neg_prefix.
  assert (NoDup data_columns) as Hnd'.
  { destruct Hpre as [rest Hrest]. rewrite Hrest in Hnd. by apply NoDup_app in Hnd as [? _]. }
  destruct (loc_present df (anomaly_column_of <$> data_columns)) as (lab & Hloc & Hn & Hl).
  { intros x (c & -> & Hc)%list_elem_of_fmap. by apply Hlabels. }
  eexists _, lab. unfold resolve. fold data_columns.
  replace (match requested with
           | Some tc => no_common_channel tc data_columns
           | None => true
           end) with true by (destruct requested; done).
  cbn [mbind result_bind]. rewrite used_channels_self, mapM_index_self by done.
  cbn [mbind result_bind]. rewrite Hloc. cbn [mbind result_bind].
  rewrite take_columns_seq.
  - cbn [mbind result_bind]. split; [reflexivity|]. cbn. done.
  - unfold Np.shape1, to_numpy. cbn. rewrite length_fmap.
    apply prefix_length in Hpre. unfold columns in Hpre. by rewrite length_fmap in Hpre.
Qed.
End DefaultSelection.

(** The default selection on the table with one label column per channel. *)
Example resolve_default_per_channel_table :
  ∃ r, resolve (columns per_channel_table) per_channel_table None = Ok r
       ∧ target_channels r = ["a"; "b"]%string
       ∧ Np.cols (dataset r) = [Np.of_int <$> [1; 2; 3]%Z; Np.of_int <$> [5; 5; 8]%Z]
       ∧ Np.cols (labels r) = [[0; 1; 0]%Z; [0; 0; 0]%Z].
Proof. eexists. split; [vm_compute; reflexivity|]. vm_compute. done. Qed.

(** A request in the order of the table keeps data and labels aligned. *)
Example resolve_request_in_table_order :
  ∃ r, resolve (columns per_channel_table) per_channel_table (Some ["a"; "b"]%string) = Ok r
       ∧ target_channels r = ["a"; "b"]%string
       ∧ Np.cols (dataset r) = [Np.of_int <$> [1; 2; 3]%Z; Np.of_int <$> [5; 5; 8]%Z]
       ∧ Np.cols (labels r) = [[0; 1; 0]%Z; [0; 0; 0]%Z].
Proof. eexists. split; [vm_compute; reflexivity|]. vm_compute. done. Qed.

(** The global label column is broadcast when a requested channel exists. *)
Example resolve_global_label_requested :
  ∃ r, resolve (columns global_label_table) global_label_table (Some ["b"]%string) = Ok r
       ∧ target_channels r = ["b"]%string
       ∧ all_used_anomaly_columns r = ["is_anomaly_b"]%string
       ∧ Np.cols (labels r) = [[0; 1; 0]%Z].
Proof. eexists. split; [vm_compute; reflexivity|]. vm_compute. done. Qed.

(** C2 (the code departs from it).  Requested channels [b, a] on the table
    with columns [a, b, is_anomaly_a, is_anomaly_b]: the data matrix follows
    the requested order (column 0 is [b]) while the label matrix follows the
    table order (column 0 is [is_anomaly_a]), so data column [i] and label
    column [i] are not about the same channel.  The baseline of [b] is then
    computed over the rows in which [a] is normal: its mean is 6.5, the mean
    of rows 0 and 2, and not 6. *)
Theorem C2_requested_order_misaligns_labels :
  ∃ r, resolve (columns per_channel_table) per_channel_table (Some ["b"; "a"]%string) = Ok r
       ∧ target_channels r = ["b"; "a"]%string
       ∧ all_used_anomaly_columns r = ["is_anomaly_a"; "is_anomaly_b"]%string
       ∧ Np.cols (dataset r) = [Np.of_int <$> [5; 5; 8]%Z; Np.of_int <$> [1; 2; 3]%Z]
       ∧ Np.cols (labels r) = [[0; 1; 0]%Z; [0; 0; 0]%Z]
       ∧ Std.per_channel mean (dataset r) (labels r)
         = Ok [Np.div (Np.of_int 13) (Np.of_int 2); Np.of_int 2].
Proof. eexists. split; [vm_compute; reflexivity|]. vm_compute. done. Qed.

(** *** Configuration of the windowed detector *)

(** C7.  An even [window_size] makes [from_sys_args] fail on its assertion
    (the failure the specification files under configuration errors), in
    every execution mode, and [main] stops there: the file system and the
    list of file accesses are the ones it started with. *)
Theorem C7_even_window_fails_before_any_io :
  ∀ (V M : Type) (S : Scalar V)
    (IForest_fit : SubsequenceIF.IForestArgs → list (list Np.float) → result M)
    (predict : M → list (list Np.float) → list Z)
    (args : SubsequenceIF.JsonArgs) (w : World V M),
    Z.even (SubsequenceIF.window_size
              (SubsequenceIF.make_CustomParameters
                 (SubsequenceIF.json_customParameters args))) = true →
    SubsequenceIF.from_sys_args args = Raise AssertionError
    ∧ SubsequenceIF.main IForest_fit predict args w = (Raise AssertionError, w).
Proof.
  intros V M S fit predict args w Heven.
  assert (SubsequenceIF.from_sys_args args = Raise AssertionError) as Hargs.
  { unfold SubsequenceIF.from_sys_args. case_decide as Hodd; [|done].
    apply Zeven_bool_iff, Zeven_ex_iff in Heven as [k Hk]. rewrite Hk in Hodd.
    rewrite Z.mul_comm, Z_mod_mult in Hodd. discriminate. }
  split; [done|]. unfold SubsequenceIF.main. by rewrite Hargs.
Qed.

(** C7 at [window_size = 4]. *)
Lemma C7_window_4_witness :
  SubsequenceIF.from_sys_args (sif_args "train" 4) = Raise AssertionError
  ∧ SubsequenceIF.main toy_fit toy_predict (sif_args "train" 4)
      (world_of per_channel_table)
    = (Raise AssertionError, world_of per_channel_table).
Proof. apply C7_even_window_fails_before_any_io. reflexivity. Defined.

(** C9 fails: on a table with a label column and no channel the resolution
    returns an empty selection and the training run of the statistical
    detector ends normally. *)
Lemma C9_counterexample :
  ∃ r, resolve (columns no_channel_table) no_channel_table None = Ok r
       ∧ target_channels r = []
       ∧ (Std.main (M:=unit) mean std (std_args "train" None)
            (world_of no_channel_table)).1 = Ok tt.
Proof. eexists. split; [vm_compute; reflexivity|]. vm_compute. done. Qed.

Section IOLemmas.
Context {V M : Type}.

Lemma io_bind_ok {A B} (m : io (V:=V) (M:=M) A) (f : A → io B) w a w1 :
  m w = (Ok a, w1) → (m ≫= f) w = f a w1.
Proof. intros H. unfold mbind, io_bind, bind. by rewrite H. Qed.

Lemma read_csv_ok path (df : DataFrame V) (w : World V M) :
  fs w !! path = Some (Csv df) →
  read_csv path w = (Ok df, mk_World (fs w) (Read path :: events w)).
Proof. intros H. unfold read_csv, bind, open_r. by rewrite H. Qed.
End IOLemmas.

Section C9.
Context {V M : Type} `{!Scalar V}.

Lemma resolve_target_channels (cols : list string) (df : DataFrame V) requested r :
  resolve cols df requested = Ok r →
  let data_columns :=
    slice_to_neg cols (length (filter (λ x, is_anomaly_column x) cols)) in
  target_channels r =
    if match requested with
       | None => true
       | Some tc => no_common_channel tc data_columns
       end
    then data_columns
    else filter (λ x, x ∈ data_columns) (default [] requested).
Proof.
  intros Hr data_columns. unfold resolve in Hr. fold data_columns in Hr.
  destruct (match requested with
            | Some tc => no_common_channel tc data_columns
            | None => true
            end).
  - cbn [mbind result_bind] in Hr.
    repeat (apply bind_ok in Hr as [? [? Hr]]). by injection Hr as <-.
  - apply bind_ok in Hr as [[[[[? ?] ?] ?] ?] [Hb Hr]].
    repeat (apply bind_ok in Hb as [? [? Hb]]). injection Hb as <- <- <- <- <-.
    repeat (apply bind_ok in Hr as [? [? Hr]]). by injection Hr as <-.
Qed.

Lemma resolve_without_channels (cols : list string) (df : DataFrame V) requested :
  slice_to_neg cols (length (filter (λ x, is_anomaly_column x) cols)) = [] →
  resolve cols df requested
  = Ok (mk_resolved [] [] [] [] (Np.mk_ndarray (index df) [])
          (Np.mk_ndarray (index df) [])).
Proof.
  intros Hdc. unfold resolve. rewrite Hdc.
  replace (match requested with
           | Some tc => no_common_channel tc []
           | None => true
           end) with true; [done|].
  destruct requested; [|done]. by rewrite no_common_channel_nil.
Qed.
End C9.

(** *** The statistical baseline detector *)

Section Baseline.
Context {V M : Type} `{!Scalar V}.
Variables np_mean np_std : list Np.float → Np.float.

Lemma per_channel_ok f (dataset : Np.ndarray Np.float) (labels : Np.ndarray Z) :
  Np.shape1 dataset ≤ Np.shape1 labels →
  Std.per_channel f dataset labels
  = Ok (zip_with (λ d l, f (Np.masked d ((λ x, Z.eqb x 0) <$> l)))
          (Np.cols dataset) (Np.cols labels)).
Proof.
  intros Hlen. unfold Std.per_channel. apply mapM_ok_Forall2.
  apply Forall2_same_length_lookup_2.
  - rewrite length_seq, length_zip_with. unfold Np.shape1 in *. lia.
  - intros i j y Hi Hy. apply lookup_seq in Hi as [-> _]. rewrite Nat.add_0_l.
    apply lookup_zip_with_Some in Hy as (d & l & -> & Hd & Hl).
    unfold Np.column. by rewrite Hd, Hl.
Qed.

Lemma means_stds_paths_differ (s : string) :
  String.append s ".means.txt" ≠ String.append s ".stds.txt".
Proof. induction s as [|a s IH]; simpl; [discriminate|]. intros [= H]. by apply IH. Qed.






Lemma baseline_train (config : Std.AlgorithmArgs)
    (dataset : Np.ndarray Np.float) (labels : Np.ndarray Z) (w : World V M) :
  Std.executionType config = "train"%string →
  Np.shape1 dataset ≤ Np.shape1 labels →
  let means := zip_with (λ d l, np_mean (Np.masked d ((λ x, Z.eqb x 0) <$> l)))
      (Np.cols dataset) (Np.cols labels) in
  let stds :=
    Np.where_eq0_1
      (zip_with (λ d l, np_std (Np.masked d ((λ x, Z.eqb x 0) <$> l)))
         (Np.cols dataset) (Np.cols labels)) in
  let means_path := String.append (Std.modelOutput config) ".means.txt" in
  let stds_path := String.append (Std.modelOutput config) ".stds.txt" in
  Std.baseline np_mean np_std config dataset labels w
  = (Ok (means, stds),
     mk_World (<[stds_path := FloatText stds]> (<[means_path := FloatText means]> (fs w)))
       (Write stds_path :: Write means_path :: events w)).
Proof.
  intros Htrain Hlen. cbv zeta. unfold Std.baseline.
  rewrite decide_True by done. rewrite !per_channel_ok by done. reflexivity.
Qed.
End Baseline.



(** *** Comparison of binary64 numbers *)

Lemma SFcompare_antisym (x y : spec_float) c :
  SFcompare x y = Some c → SFcompare y x = Some (CompOpp c).
Proof.
  destruct x as [sx|sx| |sx mx ex], y as [sy|sy| |sy my ey]; simpl;
    try discriminate; intros [= <-]; try done.
  all: try (destruct sx; done).
  all: try (destruct sy; done).
  all: try (destruct sx, sy; done).
  destruct sx, sy; try done.
  all: rewrite (Z.compare_antisym ex ey); destruct (ex ?= ey)%Z; simpl; try done.
  - do 2 f_equal. symmetry. exact (Pos.compare_cont_antisym mx my Eq).
  - f_equal. symmetry. exact (Pos.compare_cont_antisym mx my Eq).
Qed.

Lemma SFcompare_Eq_congr (x u l : spec_float) :
  SFcompare x u = Some Eq → SFcompare x l = SFcompare u l.
Proof.
  destruct x as [sx|sx| |sx mx ex], u as [su|su| |su mu eu]; simpl;
    try discriminate.
  all: try (destruct sx; discriminate).
  all: try (destruct su; discriminate).
  - intros _. by destruct l.
  - destruct sx, su; try discriminate; intros _; by destruct l.
  - destruct sx, su; try discriminate.
    all: destruct (ex ?= eu)%Z eqn:He; try discriminate.
    all: apply Z.compare_eq in He as ->.
    all: intros [= Hm].
    all: assert (mx = mu) as ->; [|done].
    all: apply Pos.compare_eq; unfold Pos.compare.
    all: by destruct (PosDef.Pos.compare_cont Eq mx mu).
Qed.

Lemma eqb_not_gtb x t : Np.eqb x t = true → Np.gtb x t = false.
Proof.
  unfold Np.eqb, Np.gtb, SFeqb, SFltb.
  destruct (SFcompare x t) as [[]|] eqn:Hc; try discriminate.
  intros _. by rewrite (SFcompare_antisym _ _ _ Hc).
Qed.

Lemma eqb_not_ltb x t : Np.eqb x t = true → Np.ltb x t = false.
Proof.
  unfold Np.eqb, Np.ltb, SFeqb, SFltb. by destruct (SFcompare x t) as [[]|].
Qed.

Lemma eqb_upper_not_below x lower upper :
  Np.leb lower upper = true → Np.eqb x upper = true → Np.ltb x lower = false.
Proof.
  unfold Np.eqb, Np.ltb, Np.leb, SFeqb, SFltb, SFleb. intros Hle Heq.
  destruct (SFcompare x upper) as [[]|] eqn:Hc; try discriminate.
  rewrite (SFcompare_Eq_congr _ _ lower Hc).
  destruct (SFcompare lower upper) as [c|] eqn:Hlu; [|discriminate].
  rewrite (SFcompare_antisym _ _ _ Hlu). by destruct c.
Qed.

Lemma eqb_lower_not_above x lower upper :
  Np.leb lower upper = true → Np.eqb x lower = true → Np.gtb x upper = false.
Proof.
  unfold Np.eqb, Np.gtb, Np.leb, SFeqb, SFltb, SFleb. intros Hle Heq.
  destruct (SFcompare x lower) as [[]|] eqn:Hc; try discriminate.
  pose proof (SFcompare_Eq_congr _ _ upper Hc) as Hxu.
  destruct (SFcompare lower upper) as [c|] eqn:Hlu; [|discriminate].
  rewrite (SFcompare_antisym _ _ _ Hxu). by destruct c.
Qed.

Lemma broadcast_same_length {A B C} (f : A → B → C) (xs : list A) (ys : list B) :
  length xs = length ys → Np.broadcast f xs ys = Ok (zip_with f xs ys).
Proof. intros H. unfold Np.broadcast. by rewrite decide_True. Qed.

(** *** The windowed isolation forest *)

(** *** Signs of rounded results *)









(** *** Integers below 2^53 convert to finite positive floats *)





(** *** Larger integers: the mantissa is shifted and rounded *)









(** *** Row flags and their count *)








Section Shapes.
Context {V M : Type} `{!Scalar V}.

Lemma io_bind_inv {A B} (m : io (V:=V) (M:=M) A) (f : A → io B) w b w' :
  (m ≫= f) w = (Ok b, w') → ∃ a w1, m w = (Ok a, w1) ∧ f a w1 = (Ok b, w').
Proof.
  unfold mbind, io_bind, bind. destruct (m w) as [[a|e] w1]; [eauto | discriminate].
Qed.

Lemma used_channels_nil dc : used_channels dc [] = [].
Proof.
  unfold used_channels. induction dc as [|x dc IH]; [done|].
  rewrite filter_cons_False; [done|]. rewrite list_to_set_nil. set_solver.
Qed.

(** The shapes of what a successful resolution returns: one data column per
    target channel, one label column per used channel, and used channels
    only when there are target channels. *)
Lemma resolve_shapes (cols : list string) (df : DataFrame V) requested r :
  resolve cols df requested = Ok r →
  Np.shape1 (dataset r) = length (target_channels r)
  ∧ Np.shape1 (labels r) = length (all_used_channels r)
  ∧ (target_channels r = [] → all_used_channels r = []).
Proof.
  intros Hr. unfold resolve in Hr.
  apply bind_ok in Hr as [[[[[tc uc] ac] df'] dc'] [Hb Hr]].
  assert (ac = anomaly_column_of <$> uc ∧ (tc = [] → uc = [])) as [-> Hnil].
  { destruct (match requested with
              | Some tc => no_common_channel tc _
              | None => true
              end).
    - injection Hb as <- <- <- <- <-. split; [done|]. intros ->. apply used_channels_nil.
    - repeat (apply bind_ok in Hb as [? [? Hb]]). injection Hb as <- <- <- <- <-.
      split; [done|]. intros ->. apply used_channels_nil. }
  apply bind_ok in Hr as [idx [Hidx Hr]].
  apply bind_ok in Hr as [lab [Hlab Hr]].
  apply bind_ok in Hr as [ds [Hds Hr]]. injection Hr as <-. cbn.
  split; [|split; [|done]].
  - unfold Np.take_columns in Hds. apply bind_ok in Hds as [cs [Hcs Hds]].
    injection Hds as <-. unfold Np.shape1. cbn.
    by rewrite (mapM_ok_length _ _ _ Hcs), (mapM_ok_length _ _ _ Hidx).
  - unfold loc in Hlab. apply bind_ok in Hlab as [cs [Hcs Hlab]].
    injection Hlab as <-. unfold Np.shape1, to_numpy_uint8. cbn.
    by rewrite length_fmap, (mapM_ok_length _ _ _ Hcs), length_fmap.
Qed.

Lemma contamination_of_ok_columns labels c :
  SubsequenceIF.contamination_of labels = Ok c → Np.shape1 labels ≠ 0.
Proof.
  unfold SubsequenceIF.contamination_of, SubsequenceIF.max_axis1, Np.shape1.
  by destruct (Np.cols labels).
Qed.

Lemma load_data_channels (config config' : SubsequenceIF.AlgorithmArgs)
    (w w1 : World V M) data contamination :
  SubsequenceIF.load_data config w = (Ok (config', (data, contamination)), w1) →
  Np.shape1 data ≠ 0
  ∧ SubsequenceIF.window_size (SubsequenceIF.customParameters config')
    = SubsequenceIF.window_size (SubsequenceIF.customParameters config)
  ∧ SubsequenceIF.modelInput config' = SubsequenceIF.modelInput config
  ∧ SubsequenceIF.dataOutput config' = SubsequenceIF.dataOutput config
  ∧ fs w1 = fs w.
Proof.
  unfold SubsequenceIF.load_data. intros H.
  apply io_bind_inv in H as (header & wa & Hh & H).
  apply io_bind_inv in H as (df & wb & Hdf & H).
  apply io_bind_inv in H as (r & wc & Hr & H).
  apply io_bind_inv in H as (c & wd & Hc & H).
  injection H as <- <- <- <-.
  unfold lift in Hr, Hc. injection Hr as Hr <-. injection Hc as Hc <-.
  split; [|split; [done|split; [done|split; [done|]]]].
  - destruct (resolve_shapes _ _ _ _ Hr) as (Hd & Hl & Hnil).
    apply contamination_of_ok_columns in Hc. rewrite Hd. rewrite Hl in Hc.
    intros Hz. apply Hc. apply length_zero_iff_nil in Hz. by rewrite Hnil.
  - unfold read_csv, bind, open_r in Hh, Hdf.
    destruct (fs w !! _) as [[]|]; try discriminate. injection Hh as _ <-.
    cbn [fs] in Hdf.
    destruct (fs w !! _) as [[]|]; try discriminate. by injection Hdf as _ <-.
Qed.
End Shapes.

Lemma windows_ok (data : Np.ndarray Np.float) (W : Z) :
  (0 < W ≤ Z.of_nat (Np.shape0 data))%Z → Np.shape1 data ≠ 0 →
  SubsequenceIF.windows data W
  = Ok ((λ i, mjoin ((λ c : list Np.float, take (Z.to_nat W) (skipn i c)) <$> Np.cols data))
          <$> seq 0 (Np.shape0 data - Z.to_nat W + 1)).
Proof.
  intros HW HC. unfold SubsequenceIF.windows.
  rewrite decide_False by lia. rewrite decide_False by lia.
  rewrite decide_False by nia. reflexivity.
Qed.

Lemma pickle_load_ok {V M} path (m : M) (w : World V M) :
  fs w !! path = Some (Pickle m) →
  pickle_load path w = (Ok m, mk_World (fs w) (Read path :: events w)).
Proof. intros H. unfold pickle_load, bind, open_r. by rewrite H. Qed.

(** C5.  When [load_data] returns a series of [T] rows, the model file is
    there and the window size [W] is odd with [0 < W <= T], [execute] writes
    [T] scores: [W // 2] zeros, then the
    prediction of the [T - W + 1] windows in the order of their first row,
    then [W // 2] zeros; score [W // 2 + i] is the prediction of the window
    that starts at row [i], whose centre is row [W // 2 + i]. *)
Theorem C5_execute_pads_to_series_length :
  ∀ (V M : Type) (S : Scalar V) (predict : M → list (list Np.float) → list Z)
    (config config' : SubsequenceIF.AlgorithmArgs) (w w1 : World V M)
    (data : Np.ndarray Np.float) (contamination : Np.float) (clf : M),
    (∀ m X, length (predict m X) = length X) →
    SubsequenceIF.load_data config w = (Ok (config', (data, contamination)), w1) →
    fs w !! SubsequenceIF.modelInput config = Some (Pickle clf) →
    let W := SubsequenceIF.window_size (SubsequenceIF.customParameters config) in
    let T := Np.shape0 data in
    (W mod 2 = 1)%Z →
    (0 < W ≤ Z.of_nat T)%Z →
    let h := Z.to_nat (W / 2) in
    let samples :=
      (λ i, mjoin ((λ c : list Np.float, take (Z.to_nat W) (skipn i c)) <$> Np.cols data))
        <$> seq 0 (T - Z.to_nat W + 1) in
    let result := replicate h 0%Z ++ predict clf samples ++ replicate h 0%Z in
    ∃ w', SubsequenceIF.execute predict config w = (Ok tt, w')
          ∧ fs w' !! SubsequenceIF.dataOutput config = Some (IntText result)
          ∧ length result = T
          ∧ length (predict clf samples) = T - Z.to_nat W + 1
          ∧ (∀ t, t < h → result !! t = Some 0%Z)
          ∧ (∀ t, T - h ≤ t < T → result !! t = Some 0%Z)
          ∧ (∀ i, i < T - Z.to_nat W + 1 → result !! (h + i) = predict clf samples !! i).
Proof.
  intros V M S predict config config' w w1 data contamination clf Hpredict Hload Hmodel.
  intros W T Hodd HW h samples result.
  destruct (load_data_channels _ _ _ _ _ _ Hload) as (HC & HW' & Hin & Hout & Hfs).
  assert (length (predict clf samples) = T - Z.to_nat W + 1) as Hlen.
  { rewrite Hpredict. unfold samples. by rewrite length_fmap, length_seq. }
  assert (Z.to_nat W = 2 * h + 1) as HWh.
  { unfold h. rewrite (Z.div_mod W 2) at 1 by lia. rewrite Hodd.
    assert (0 ≤ W / 2)%Z by (apply Z.div_pos; lia). lia. }
  assert (Z.to_nat W ≤ T) as HWT by lia.
  eexists. split; [|split; [|split; [|split; [|split; [|split]]]]].
  - unfold SubsequenceIF.execute.
    erewrite io_bind_ok by exact Hload. cbn beta iota. rewrite HW'. fold W.
    rewrite windows_ok by done. fold T. fold samples.
    erewrite io_bind_ok by reflexivity.
    erewrite io_bind_ok by (apply pickle_load_ok; rewrite Hin, Hfs; exact Hmodel).
    unfold SubsequenceIF.pad. rewrite decide_False by (apply Z.le_ngt, Z.div_pos; lia).
    fold h. fold result.
    erewrite io_bind_ok by reflexivity. rewrite Hout. reflexivity.
  - cbn [fs]. apply lookup_insert_eq.
  - unfold result. rewrite !length_app, !length_replicate, Hlen. lia.
  - done.
  - intros t Ht. unfold result. rewrite lookup_app_l by (rewrite length_replicate; lia).
    by apply lookup_replicate_2.
  - intros t Ht. unfold result.
    rewrite lookup_app_r by (rewrite length_replicate; lia).
    rewrite lookup_app_r by (rewrite length_replicate, Hlen; lia).
    apply lookup_replicate_2. rewrite length_replicate, Hlen. lia.
  - intros i Hi. unfold result.
    rewrite lookup_app_r by (rewrite length_replicate; lia).
    rewrite length_replicate. replace (h + i - h) with i by lia.
    apply lookup_app_l. lia.
Qed.

(** C5 at five rows and [W = 3]. *)
Lemma C5_window_3_witness :
  ∃ w', SubsequenceIF.execute toy_predict
          (SubsequenceIF.mk_AlgorithmArgs "execute" "in.csv" "out.csv" "model" "model"
             (SubsequenceIF.make_CustomParameters
                (SubsequenceIF.json_customParameters (sif_args "execute" 3))))
          (world_with_model series_table Np.nextafter_0_1)
        = (Ok tt, w')
        ∧ fs w' !! "out.csv"%string = Some (IntText [0; 0; 0; 1; 0]%Z).
Proof.
  edestruct (C5_execute_pads_to_series_length Z Np.float _ toy_predict)
    with (config := SubsequenceIF.mk_AlgorithmArgs "execute" "in.csv" "out.csv"
                      "model" "model"
                      (SubsequenceIF.make_CustomParameters
                         (SubsequenceIF.json_customParameters (sif_args "execute" 3))))
         (w := world_with_model series_table Np.nextafter_0_1)
         (clf := Np.nextafter_0_1)
    as (w' & Hrun & Hout & _).
  - intros m X. unfold toy_predict. apply length_fmap.
  - vm_compute. reflexivity.
  - vm_compute. reflexivity.
  - reflexivity.
  - vm_compute. split; [reflexivity | discriminate].
  - exists w'. split; [exact Hrun | exact Hout].
Defined.

(** *** Archiving the checkpoint of the autoencoder *)

Import DAE.

Lemma zip_name_not_self (s : string) : String.append s ".zip" ≠ s.
Proof.
  induction s as [|a s IH]; simpl; [discriminate|]. intros [= H]. by apply IH.
Qed.

Lemma zip_name_not_check (s : string) : String.append s ".zip" ≠ "check"%string.
Proof.
  destruct s as [|a [|b [|c s]]]; simpl; try discriminate.
  intros [= _ _ _ H]. destruct s as [|d [|e s]]; simpl in H; try discriminate.
  destruct s; discriminate.
Qed.

Section Archive.
Context {C : Type}.
Variable zip_chunks : C → nat.
Variable model_path : string.
Hypothesis model_path_not_check : model_path ≠ "check"%string.

Local Abbreviation tmp := (String.append model_path ".zip").
Implicit Types (d : Disk C) (fs : gmap string (node C)).

Lemma dbind_ok {A B} (m : dio A) (f : A → dio B) d a d1 :
  m d = (Ok a, d1) → dbind m f d = f a d1.
Proof. intros H. unfold dbind. by rewrite H. Qed.

Local Abbreviation inv := (loop_invariant model_path).

Lemma update_keeps (f : gmap string (node C) → gmap string (node C)) d :
  f (now d) !! model_path = now d !! model_path →
  atomic_history model_path (states d) →
  atomic_history model_path (states (update f d).2).
Proof. intros Hf Hh. simpl. split; [by left | done]. Qed.

Lemma last_states_update f d fs0 :
  last (states d) = Some fs0 → last (states (update f d).2) = Some fs0.
Proof.
  intros H. unfold states in *. cbn [update snd now past]. by rewrite last_cons, H.
Qed.

Lemma write_chunks_spec c n k d fs0 :
  atomic_history model_path (states d) →
  last (states d) = Some fs0 →
  ∃ d', write_chunks tmp c k n d = (Ok tt, d')
        ∧ atomic_history model_path (states d')
        ∧ last (states d') = Some fs0
        ∧ now d' = <[tmp := Zip c]> (now d).
Proof.
  revert k d. induction n as [|n IH]; intros k d Hh Hl; simpl.
  - eexists. split; [reflexivity|]. split; [|split; [|done]].
    + apply update_keeps; [|done].
      apply lookup_insert_ne, zip_name_not_self.
    + by apply last_states_update.
  - unfold dbind. simpl.
    destruct (IH (S k) (mk_Disk (<[tmp := PartialZip c k]> (now d)) (now d :: past d)))
      as (d' & Hrun & Hh' & Hl' & Hnow).
    + apply (update_keeps (<[tmp := PartialZip c k]>) d); [|done].
      apply lookup_insert_ne, zip_name_not_self.
    + by apply (last_states_update (<[tmp := PartialZip c k]>) d).
    + exists d'. split; [done|]. split; [done|]. split; [done|].
      rewrite Hnow. simpl. apply insert_insert_eq.
Qed.

Lemma create_archive_spec c d fs0 :
  inv fs0 d →
  now d !! "check"%string = Some (Dir c) →
  ∃ d', _create_archive zip_chunks "check" model_path d = (Ok tt, d')
        ∧ inv fs0 d'
        ∧ now d' !! model_path = Some (Zip c)
        ∧ now d' !! "check"%string = Some (Dir c).
Proof.
  intros (Hh & Hl & Hmp & Htmp & Hck) Hc.
  destruct (write_chunks_spec c (zip_chunks c) 0 d fs0 Hh Hl)
    as (d1 & Hrun & Hh1 & Hl1 & Hnow1).
  assert (make_archive zip_chunks model_path "check" d = (Ok tt, d1)) as Hmk.
  { unfold make_archive, dbind, stat. rewrite Hc, Htmp. exact Hrun. }
  assert (now d1 !! tmp = Some (Zip c)) as Hz by (rewrite Hnow1; apply lookup_insert_eq).
  assert (now d1 !! model_path = now d !! model_path) as Hsame.
  { rewrite Hnow1. apply lookup_insert_ne, zip_name_not_self. }
  eexists. split.
  { unfold _create_archive. erewrite dbind_ok by exact Hmk.
    unfold move, dbind, stat, rename. rewrite Hsame, Hmp.
    unfold dbind, stat. rewrite Hz. reflexivity. }
  cbn [snd now past update]. split; [|split].
  - split; [|split; [|split; [|split]]].
    + simpl. split; [|done]. right. exists c. done.
    + unfold states in *. cbn [now past]. by rewrite last_cons, Hl1.
    + cbn [now]. by rewrite lookup_insert_eq.
    + cbn [now]. rewrite lookup_insert_ne by (apply not_eq_sym, zip_name_not_self).
      by rewrite lookup_delete_eq.
    + right. exists c. cbn [now].
      rewrite lookup_insert_ne by done.
      rewrite lookup_delete_ne by apply zip_name_not_check.
      rewrite Hnow1. rewrite lookup_insert_ne by apply zip_name_not_check. done.
  - apply lookup_insert_eq.
  - rewrite lookup_insert_ne by done.
    rewrite lookup_delete_ne by apply zip_name_not_check.
    rewrite Hnow1. rewrite lookup_insert_ne by apply zip_name_not_check. done.
Qed.




End Archive.



(* ===================================================================== *)
(** * Further properties of the code *)
(* ===================================================================== *)

(** *** More on frames: what the column operations keep *)

Section FrameLemmas.
Context {V : Type}.
Implicit Types (df : DataFrame V) (s : list (string * list V)).

Lemma index_ok_lookup (l : list string) x i :
  Py.index l x = Ok i → l !! i = Some x ∧ x ∉ take i l.
Proof.
  revert i. induction l as [|y l IH]; intros i; simpl; [done|].
  destruct (decide (y = x)) as [->|Hne].
  - intros [= <-]. split; [done | apply not_elem_of_nil].
  - destruct (Py.index l x) as [j|] eqn:Hj; simpl; [|done].
    intros [= <-]. destruct (IH j eq_refl) as [Hl Hn]. split; [done|].
    simpl. rewrite not_elem_of_cons. split; [by apply not_eq_sym | done].
Qed.

Lemma lookup_series_first s i x :
  s.*1 !! i = Some x → x ∉ take i (s.*1) →
  ∃ c, s !! i = Some (x, c) ∧ lookup_series s x = Some c.
Proof.
  revert i. induction s as [|[n c] s IH]; intros i Hi Hn; [done|].
  destruct i as [|i]; simpl in *.
  - injection Hi as ->. exists c. by rewrite decide_True.
  - apply not_elem_of_cons in Hn as [Hne Hn].
    destruct (IH i Hi Hn) as (c' & Hs & Hl). exists c'.
    by rewrite decide_False by (by apply not_eq_sym).
Qed.

Lemma lookup_series_assign s name c n :
  lookup_series (assign_series s name c) n
  = if decide (name = n) then Some c else lookup_series s n.
Proof.
  induction s as [|[m c0] s IH]; simpl.
  - by destruct (decide (name = n)).
  - destruct (decide (m = name)) as [->|Hm]; simpl.
    + by destruct (decide (name = n)).
    + destruct (decide (m = n)) as [->|Hn].
      * by rewrite decide_False by (by apply not_eq_sym).
      * exact IH.
Qed.

Lemma lookup_series_drop s name n :
  lookup_series (filter (λ p : string * list V, p.1 ≠ name) s) n
  = if decide (n = name) then None else lookup_series s n.
Proof.
  induction s as [|[m c0] s IH]; simpl.
  - by destruct (decide (n = name)).
  - destruct (decide (m = name)) as [->|Hm].
    + rewrite filter_cons_False by (simpl; by intros ?).
      rewrite IH. destruct (decide (n = name)) as [->|Hn]; [done|].
      by rewrite decide_False by (by apply not_eq_sym).
    + rewrite filter_cons_True by done. simpl.
      destruct (decide (m = n)) as [->|Hn]; [by rewrite decide_False | exact IH].
Qed.

(** What [loc] returns, position by position. *)
Lemma loc_ok_inv df names df' :
  loc df names = Ok df' →
  index df' = index df
  ∧ columns df' = names
  ∧ ∀ j n, names !! j = Some n →
           ∃ c, series df' !! j = Some (n, c) ∧ lookup_series (series df) n = Some c.
Proof.
  unfold loc. intros (cs & Hcs & [= <-])%bind_ok. unfold columns. cbn [index series].
  apply mapM_ok_Forall2 in Hcs. split; [done|]. split.
  - induction Hcs as [|n p names cs Hp _ IH]; [done|]. cbn. rewrite IH. f_equal.
    unfold getitem in Hp. destruct (lookup_series (series df) n); [|done].
    by injection Hp as <-.
  - intros j n Hj. destruct (Forall2_lookup_l _ _ _ _ _ Hcs Hj) as (p & Hp & Hg).
    unfold getitem in Hg. destruct (lookup_series (series df) n) as [c|]; [|done].
    injection Hg as <-. by exists c.
Qed.

Lemma getitem_raises_KeyError df n e : getitem df n = Raise e → e = KeyError.
Proof. unfold getitem. destruct (lookup_series (series df) n); [done | by intros [= <-]]. Qed.

Lemma loc_raises_KeyError df names e : loc df names = Raise e → e = KeyError.
Proof.
  unfold loc.
  assert (∀ e', mapM (λ n, c ← getitem df n; Ok (n, c)) names = Raise e' → e' = KeyError)
    as Hm.
  { induction names as [|n names IH]; intros e'; [done|]. cbn [mapM].
    destruct (getitem df n) as [c|e0] eqn:Hg; cbn.
    - destruct (mapM _ names) as [cs|e''] eqn:Hm; cbn; [done|].
      intros [= <-]. by apply IH.
    - intros [= <-]. by eapply getitem_raises_KeyError. }
  destruct (mapM _ names) as [cs|e'] eqn:Hcs; cbn; [done|].
  intros [= <-]. by apply Hm.
Qed.

End FrameLemmas.

Section ResolveStructure.
Context {V : Type} `{!Scalar V}.
Implicit Types (df : DataFrame V).

Lemma mapM_index_bounds (l k : list string) idx :
  mapM (Py.index l) k = Ok idx →
  Forall2 (λ x i, l !! i = Some x ∧ x ∉ take i l) k idx.
Proof.
  intros H%mapM_ok_Forall2. eapply Forall2_impl; [exact H|].
  intros x i Hi. by apply index_ok_lookup.
Qed.

Lemma take_columns_ok_inv {A} (a : Np.ndarray A) idx a' :
  Np.take_columns a idx = Ok a' →
  Np.shape0 a' = Np.shape0 a
  ∧ Forall2 (λ i c, Np.cols a !! i = Some c) idx (Np.cols a').
Proof.
  unfold Np.take_columns. intros (cs & Hcs & [= <-])%bind_ok. split; [done|].
  cbn. apply mapM_ok_Forall2 in Hcs. eapply Forall2_impl; [exact Hcs|].
  intros i c. unfold Np.column. by destruct (Np.cols a !! i); intros [= ->].
Qed.

Lemma take_columns_in_bounds {A} (a : Np.ndarray A) idx :
  Forall (λ i, i < Np.shape1 a) idx → ∃ a', Np.take_columns a idx = Ok a'.
Proof.
  intros Hall. unfold Np.take_columns.
  assert (∃ cs, mapM (Np.column a) idx = Ok cs) as [cs ->]; [|by eexists].
  induction Hall as [|i idx Hi _ [cs IH]]; [by exists []|].
  cbn [mapM]. destruct (Np.column a i) as [c|e] eqn:Hc.
  - rewrite IH. by eexists.
  - unfold Np.column in Hc. destruct (Np.cols a !! i) eqn:Hl; [done|].
    apply lookup_ge_None in Hl. unfold Np.shape1 in Hi. lia.
Qed.

Lemma broadcast_global_label_cons df c names :
  broadcast_global_label df (c :: names)
  = match getitem df "is_anomaly" with
    | Ok g => broadcast_global_label (setitem df c g) names
    | Raise e => Raise e
    end.
Proof.
  unfold broadcast_global_label. cbn [foldl]. cbn [mbind result_bind].
  destruct (getitem df "is_anomaly") as [g|e]; cbn [mbind result_bind]; [done|].
  induction names as [|c' names IH]; [done|]. cbn [foldl]. exact IH.
Qed.

Lemma broadcast_global_label_raises df names e :
  broadcast_global_label df names = Raise e → e = KeyError.
Proof.
  revert df. induction names as [|c names IH]; intros df; [done|].
  rewrite broadcast_global_label_cons.
  destruct (getitem df "is_anomaly") as [g|e0] eqn:Hg; [apply IH|].
  intros [= <-]. by eapply getitem_raises_KeyError.
Qed.

Lemma broadcast_global_label_ok df names g :
  lookup_series (series df) "is_anomaly" = Some g →
  "is_anomaly"%string ∉ names →
  ∃ d, broadcast_global_label df names = Ok d
       ∧ index d = index df
       ∧ ∀ n, lookup_series (series d) n
              = if decide (n ∈ names) then Some g else lookup_series (series df) n.
Proof.
  revert df. induction names as [|c names IH]; intros df Hg Hn.
  - exists df. split; [done|]. split; [done|]. intros n.
    case_decide as Hin; [by apply elem_of_nil in Hin | done].
  - apply not_elem_of_cons in Hn as [Hc Hn]. rewrite broadcast_global_label_cons.
    unfold getitem. rewrite Hg.
    destruct (IH (setitem df c g)) as (d & Hd & Hi & Hl); [|done|].
    { cbn. rewrite lookup_series_assign. by rewrite decide_False by (by apply not_eq_sym). }
    exists d. split; [exact Hd|]. split; [done|]. intros n. rewrite Hl. cbn.
    rewrite lookup_series_assign.
    destruct (decide (n ∈ names)) as [Hin|Hnin].
    + case_decide as H; [done|]. exfalso. apply H. by right.
    + destruct (decide (c = n)) as [->|Hcn].
      * case_decide as H; [done|]. exfalso. apply H. left.
      * case_decide as H; [|done]. apply elem_of_cons in H as [->|H]; done.
Qed.

Lemma drop_raises df name e : drop df name = Raise e → e = KeyError.
Proof. unfold drop. case_decide; [done | by intros [= <-]]. Qed.
End ResolveStructure.

Section ResolveInversion.
Context {V : Type} `{!Scalar V}.
Implicit Types (df : DataFrame V).

(** Everything a successful resolution went through, with the names the
    source gives to the intermediate values. *)
Lemma resolve_inv (cols : list string) df requested r :
  resolve cols df requested = Ok r →
  let anomaly_columns := filter (λ x, is_anomaly_column x) cols in
  let data_columns := slice_to_neg cols (length anomaly_columns) in
  let use_all := match requested with
                 | None => true
                 | Some tc => no_common_channel tc data_columns
                 end in
  let tc := if use_all then data_columns
            else filter (λ x, x ∈ data_columns) (default [] requested) in
  let used := used_channels data_columns tc in
  let anom := anomaly_column_of <$> used in
  target_channels r = tc
  ∧ all_used_channels r = used
  ∧ all_used_anomaly_columns r = anom
  ∧ ∃ df' dc' lab,
      (if use_all then df' = df ∧ dc' = data_columns
       else ∃ df2,
           (if bool_decide (length anomaly_columns = 1
                            ∧ anomaly_columns !! 0 = Some "is_anomaly"%string)
            then ∃ d, broadcast_global_label df anom = Ok d ∧ drop d "is_anomaly" = Ok df2
            else df2 = df)
           ∧ loc df2 (used ++ anom) = Ok df'
           ∧ dc' = take (length used) (columns df'))
      ∧ mapM (Py.index dc') tc = Ok (target_channel_indices r)
      ∧ loc df' anom = Ok lab
      ∧ labels r = to_numpy_uint8 lab
      ∧ Np.take_columns (to_numpy df') (target_channel_indices r) = Ok (dataset r).
Proof.
  intros Hr anomaly_columns data_columns use_all tc used anom.
  unfold resolve in Hr. fold anomaly_columns data_columns use_all in Hr.
  apply bind_ok in Hr as [[[[[tc0 uc0] ac0] df'] dc'] [Hb Hr]].
  apply bind_ok in Hr as [idx [Hidx Hr]].
  apply bind_ok in Hr as [lab [Hlab Hr]].
  apply bind_ok in Hr as [ds [Hds Hr]]. injection Hr as <-. cbn.
  subst tc used anom. destruct use_all.
  - injection Hb as <- <- <- <- <-. repeat split; try done.
    exists df, data_columns, lab. by repeat split.
  - apply bind_ok in Hb as [df2 [Hdf2 Hb]].
    apply bind_ok in Hb as [df3 [Hdf3 Hb]]. injection Hb as <- <- <- <- <-.
    repeat split; try done.
    exists df3, (take (length (used_channels data_columns
                                 (filter (λ x, x ∈ data_columns) (default [] requested))))
                   (columns df3)), lab.
    split; [|by repeat split].
    exists df2. split; [|by split].
    destruct (bool_decide _); [|by injection Hdf2].
    apply bind_ok in Hdf2 as [d [Hd Hdrop]]. by exists d.
Qed.

(** In both branches the names that are turned into indices are looked up
    among the used channels. *)
Lemma resolve_index_base (cols : list string) df requested r :
  resolve cols df requested = Ok r →
  mapM (Py.index (all_used_channels r)) (target_channels r)
  = Ok (target_channel_indices r).
Proof.
  intros Hr. destruct (resolve_inv _ _ _ _ Hr) as (Htc & Hused & _ & df' & dc' & lab & Hbr & Hidx & _).
  rewrite Htc, Hused. cbv zeta in *.
  destruct (match requested with
            | Some tc => no_common_channel tc _
            | None => true
            end).
  - destruct Hbr as [_ ->]. by rewrite used_channels_self in *.
  - destruct Hbr as (df2 & _ & Hloc & ->).
    destruct (loc_ok_inv _ _ _ Hloc) as (_ & Hcols & _).
    by rewrite Hcols, take_app_length in Hidx.
Qed.
End ResolveInversion.

Lemma no_common_channel_true tc dc :
  no_common_channel tc dc = true ↔ ∀ x, x ∈ tc → x ∉ dc.
Proof.
  unfold no_common_channel. rewrite bool_decide_eq_true, size_empty_iff. split.
  - intros H x Hx Hd. apply (not_elem_of_empty (C:=gset string) x), H.
    rewrite elem_of_intersection, !elem_of_list_to_set. done.
  - intros H x. rewrite elem_of_intersection, !elem_of_list_to_set, elem_of_empty.
    split; [intros [Hx Hd]; by apply (H x) | done].
Qed.

Lemma used_channels_spec dc tc x : x ∈ used_channels dc tc ↔ x ∈ dc ∧ x ∈ tc.
Proof. unfold used_channels. by rewrite list_elem_of_filter, elem_of_list_to_set, (comm and). Qed.

(** X1.  What a successful resolution selects.  With [data_columns] the
    header without its trailing label columns: every target channel is a
    data column; the used channels are data columns in the order of the
    table, and they are the names that occur among the target channels; the
    label column names are [is_anomaly_<channel>], one per used channel.
    When some requested name is a data column, the target channels are the
    requested names that are data columns, in the order of the request and
    with repetitions kept; when nothing is requested or no requested name
    is a data column, they are all the data columns. *)
Theorem X1_resolve_selects_requested_channels :
  ∀ (V : Type) (S : Scalar V) (cols : list string) (df : DataFrame V)
    (requested : option (list string)) (r : resolved),
    resolve cols df requested = Ok r →
    let data_columns :=
      slice_to_neg cols (length (filter (λ x, is_anomaly_column x) cols)) in
    target_channels r ⊆ data_columns
    ∧ all_used_channels r `sublist_of` data_columns
    ∧ (∀ x, x ∈ all_used_channels r ↔ x ∈ target_channels r)
    ∧ all_used_anomaly_columns r = anomaly_column_of <$> all_used_channels r
    ∧ (∀ tc, requested = Some tc → (∃ x, x ∈ tc ∧ x ∈ data_columns) →
             target_channels r = filter (λ x, x ∈ data_columns) tc)
    ∧ (match requested with
       | None => True
       | Some tc => ∀ x, x ∈ tc → x ∉ data_columns
       end → target_channels r = data_columns).
Proof.
  intros V S cols df requested r Hr data_columns.
  destruct (resolve_inv _ _ _ _ Hr) as (Htc & Hused & Hanom & _). cbv zeta in *.
  fold data_columns in Htc, Hused, Hanom.
  assert (target_channels r ⊆ data_columns) as Hsub.
  { rewrite Htc. destruct (match requested with Some _ => _ | None => _ end); [done|].
    intros x Hx. by apply list_elem_of_filter in Hx as [? _]. }
  rewrite <- Htc in Hused. split; [done|]. split; [|split; [|split; [|split]]].
  - rewrite Hused. apply sublist_filter.
  - intros x. rewrite Hused, used_channels_spec. split; [by intros [_ ?]|].
    intros Hx. split; [by apply Hsub | done].
  - by rewrite Hanom, Hused, Htc.
  - intros tc -> (x & Hx & Hd). rewrite Htc.
    destruct (no_common_channel tc data_columns) eqn:Hc; [|done].
    rewrite no_common_channel_true in Hc. by destruct (Hc x Hx).
  - intros Hnone. rewrite Htc. destruct requested as [tc|]; [|done].
    apply no_common_channel_true in Hnone. by rewrite Hnone.
Qed.

(** X1 at the request [b, zz, a, b] on the table with channels [a, b]. *)
Lemma X1_request_b_a_witness :
  ∃ r, resolve (columns per_channel_table) per_channel_table (Some ["b"; "zz"; "a"; "b"]%string)
       = Ok r
       ∧ target_channels r = ["b"; "a"; "b"]%string
       ∧ all_used_channels r `sublist_of` ["a"; "b"]%string.
Proof.
  eexists. split; [vm_compute; reflexivity|].
  edestruct (X1_resolve_selects_requested_channels Z _ (columns per_channel_table)
               per_channel_table (Some ["b"; "zz"; "a"; "b"]%string))
    as (_ & Hsub & _ & _ & Htc & _); [vm_compute; reflexivity|].
  split; [|exact Hsub].
  rewrite (Htc _ eq_refl); [reflexivity|]. exists "b"%string. split; [left|].
  vm_compute. right. left.
Defined.

Section ResolveContents.
Context {V : Type} `{!Scalar V}.
Implicit Types (df : DataFrame V).

Lemma lookup_series_loc df names df' n :
  loc df names = Ok df' → n ∈ names →
  lookup_series (series df') n = lookup_series (series df) n.
Proof.
  intros Hloc Hn. destruct (loc_ok_inv _ _ _ Hloc) as (_ & Hcols & Hpos).
  destruct (index_elem_of names n Hn) as [j Hj].
  apply index_ok_lookup in Hj as [Hj Hfirst].
  destruct (Hpos j n Hj) as (c & Hs & Hl).
  destruct (lookup_series_first (series df') j n) as (c' & Hs' & Hl').
  - fold (columns df'). by rewrite Hcols.
  - fold (columns df'). by rewrite Hcols.
  - rewrite Hl', Hl. congruence.
Qed.

Lemma to_numpy_lookup df i n v :
  series df !! i = Some (n, v) → Np.cols (to_numpy df) !! i = Some (float_of <$> v).
Proof. intros H. unfold to_numpy. cbn. by rewrite list_lookup_fmap, H. Qed.

Lemma global_label_columns (cols : list string) :
  length (filter (λ x, is_anomaly_column x) cols) = 1
  ∧ filter (λ x, is_anomaly_column x) cols !! 0 = Some "is_anomaly"%string →
  filter (λ x, is_anomaly_column x) cols = ["is_anomaly"%string].
Proof. destruct (filter _ cols) as [|a [|b l]]; intros [Hl Hh]; simpl in *; congruence. Qed.

(** The frame the two matrices are cut from holds, for every used channel
    and every label column, the column of the table it is named after (the
    global label column after a broadcast). *)
Lemma resolve_contents df requested r :
  resolve (columns df) df requested = Ok r →
  let anomaly_columns := filter (λ x, is_anomaly_column x) (columns df) in
  let data_columns := slice_to_neg (columns df) (length anomaly_columns) in
  let use_all := match requested with
                 | None => true
                 | Some tc => no_common_channel tc data_columns
                 end in
  let label_source (x : string) : string :=
    if negb use_all && bool_decide (anomaly_columns = ["is_anomaly"%string])
    then "is_anomaly"%string else anomaly_column_of x in
  Np.shape0 (dataset r) = index df
  ∧ Np.shape0 (labels r) = index df
  ∧ Forall2 (λ x c, ∃ v, lookup_series (series df) x = Some v ∧ c = float_of <$> v)
      (target_channels r) (Np.cols (dataset r))
  ∧ Forall2 (λ x c, ∃ v, lookup_series (series df) (label_source x) = Some v
                         ∧ c = uint8_of <$> v)
      (all_used_channels r) (Np.cols (labels r)).
Proof.
  intros Hr anomaly_columns data_columns use_all label_source.
  pose proof (resolve_index_base _ _ _ _ Hr) as Hbase.
  apply mapM_index_bounds in Hbase.
  destruct (resolve_inv _ _ _ _ Hr)
    as (Htc & Hused & Hanom & df' & dc' & lab & Hbr & _ & Hlab & Hlabels & Hds).
  cbv zeta in *. fold anomaly_columns data_columns use_all in Htc, Hused, Hanom, Hbr, Hlab.
  rewrite <- Htc in Hused, Hanom, Hbr, Hlab.
  rewrite <- Hused in Hanom, Hbr, Hlab.
  destruct (take_columns_ok_inv _ _ _ Hds) as [Hrows Hcols].
  destruct (loc_ok_inv _ _ _ Hlab) as (Hlabidx & Hlabcols & Hlabpos).
  assert (data_columns `prefix_of` columns df) as Hpre by apply slice_to_neg_prefix.
  (* what the frame [df'] holds *)
  assert (index df' = index df
          ∧ (∀ i x, all_used_channels r !! i = Some x → x ∉ take i (all_used_channels r) →
                    ∃ v, series df' !! i = Some (x, v)
                         ∧ lookup_series (series df) x = Some v)
          ∧ (∀ x, x ∈ all_used_channels r →
                  lookup_series (series df') (anomaly_column_of x)
                  = lookup_series (series df) (label_source x))) as (Hidx' & Hdata & Hlabel).
  { subst label_source. destruct use_all.
    - destruct Hbr as [-> ->]. simpl. split; [done|].
      rewrite Htc, used_channels_self in Hused. split; [|done].
      intros i x Hi Hfirst. rewrite Hused in Hi, Hfirst.
      destruct Hpre as [rest Hrest]. apply lookup_series_first.
      + fold (columns df). rewrite Hrest. by apply lookup_app_l_Some.
      + fold (columns df). rewrite Hrest.
        rewrite take_app_le by (apply lookup_lt_Some in Hi; lia). done.
    - destruct Hbr as (df2 & Hdf2 & Hloc & _).
      destruct (loc_ok_inv _ _ _ Hloc) as (Hi3 & Hc3 & Hpos3).
      assert (index df2 = index df
              ∧ (∀ x, x ∈ all_used_channels r →
                      lookup_series (series df2) x = lookup_series (series df) x)
              ∧ (∀ x, x ∈ all_used_channels r →
                      lookup_series (series df2) (anomaly_column_of x)
                      = lookup_series (series df)
                          (if bool_decide (anomaly_columns = ["is_anomaly"%string])
                           then "is_anomaly"%string else anomaly_column_of x)))
        as (Hi2 & Hd2 & Hl2).
      { destruct (bool_decide (length anomaly_columns = 1 ∧ _)) eqn:Hg.
        - apply bool_decide_eq_true in Hg. apply global_label_columns in Hg.
          fold anomaly_columns in Hg. rewrite bool_decide_eq_true_2 by done.
          destruct Hdf2 as (d & Hd & Hdrop).
          assert ("is_anomaly"%string ∈ columns df) as Hin.
          { assert ("is_anomaly"%string ∈ anomaly_columns) as H by (rewrite Hg; left).
            by apply list_elem_of_filter in H as [_ ?]. }
          destruct (lookup_series (series df) "is_anomaly") as [g|] eqn:Hglob;
            [|by apply lookup_series_None in Hglob].
          destruct (broadcast_global_label_ok df
                      (anomaly_column_of <$> all_used_channels r) g Hglob)
            as (d' & Hd' & Hid & Hld).
          { intros (x & Hx & _)%list_elem_of_fmap.
            symmetry in Hx. by apply anomaly_column_of_not_global in Hx. }
          rewrite Hd in Hd'. injection Hd' as <-.
          unfold drop in Hdrop. case_decide; [|done]. injection Hdrop as <-. cbn [index series].
          split; [done|]. split.
          + intros x Hx. rewrite lookup_series_drop, Hld.
            assert (x ∈ columns df) as Hxc.
            { pose proof Hx as Hx'. rewrite Hused in Hx'.
              apply used_channels_spec in Hx' as [Hx' _].
              destruct Hpre as [rest Hrest]. rewrite Hrest. apply elem_of_app. by left. }
            assert (x ∉ anomaly_column_of <$> all_used_channels r) as Hxa.
            { intros (y & Hy & _)%list_elem_of_fmap.
              assert (x ∈ anomaly_columns) as Hxf.
              { apply list_elem_of_filter. split; [|done]. rewrite Hy.
                by rewrite anomaly_column_of_is_anomaly. }
              rewrite Hg in Hxf. apply list_elem_of_singleton in Hxf.
              rewrite Hy in Hxf. by apply anomaly_column_of_not_global in Hxf. }
            rewrite (decide_False _ _ Hxa).
            case_decide as Hxg; [|done]. exfalso.
            (* the used channel would have been dropped, and [loc] would fail *)
            destruct (index_elem_of (all_used_channels r) x Hx) as [j Hj].
            apply index_ok_lookup in Hj as [Hj _].
            destruct (Hpos3 j x (lookup_app_l_Some _ _ _ _ Hj)) as (v & _ & Hv).
            cbn [series] in Hv. rewrite lookup_series_drop in Hv.
            by rewrite decide_True in Hv.
          + intros x Hx. rewrite lookup_series_drop, Hld.
            rewrite decide_False by apply anomaly_column_of_not_global.
            rewrite decide_True; [done|]. apply list_elem_of_fmap. by exists x.
        - subst df2. split; [done|]. split; [done|]. intros x _.
          apply bool_decide_eq_false in Hg.
          rewrite bool_decide_eq_false_2; [done|]. intros Hone. apply Hg.
          fold anomaly_columns. by rewrite Hone. }
      split; [congruence|]. split.
      + intros i x Hi _.
        destruct (Hpos3 i x (lookup_app_l_Some _ _ _ _ Hi)) as (v & Hs & Hv).
        exists v. split; [done|]. rewrite <- Hd2; [done|]. by eapply list_elem_of_lookup_2.
      + intros x Hx. simpl. rewrite <- Hl2 by done.
        apply (lookup_series_loc df2 _ df' _ Hloc).
        apply elem_of_app. right. apply list_elem_of_fmap. by exists x. }
  split; [by rewrite Hrows|]. split; [by rewrite Hlabels; cbn; congruence|]. split.
  - apply Forall2_same_length_lookup_2.
    + rewrite (Forall2_length _ _ _ Hbase). by apply Forall2_length in Hcols.
    + intros k x c Hx Hc.
      destruct (Forall2_lookup_l _ _ _ _ _ Hbase Hx) as (i & Hi & Hxi & Hfirst).
      destruct (Forall2_lookup_l _ _ _ _ _ Hcols Hi) as (c' & Hc' & Hci).
      rewrite Hc in Hc'. injection Hc' as <-.
      destruct (Hdata i x Hxi Hfirst) as (v & Hs & Hv). exists v. split; [done|].
      rewrite (to_numpy_lookup _ _ _ _ Hs) in Hci. by injection Hci.
  - rewrite Hlabels. unfold to_numpy_uint8. cbn [Np.cols].
    apply Forall2_same_length_lookup_2.
    + rewrite length_fmap. rewrite <- (length_fmap fst (series lab)).
      fold (columns lab). by rewrite Hlabcols, length_fmap.
    + intros j x c Hx Hc. rewrite list_lookup_fmap in Hc.
      destruct (Hlabpos j (anomaly_column_of x)) as (v & Hs & Hv).
      { by rewrite list_lookup_fmap, Hx. }
      rewrite Hs in Hc. injection Hc as <-. exists v. split; [|done].
      rewrite <- Hlabel; [done|]. by eapply list_elem_of_lookup_2.
Qed.
End ResolveContents.

Section ResultRaise.
Context {A B : Type}.

Lemma bind_raise (r : result A) (g : A → result B) e :
  r ≫= g = Raise e → r = Raise e ∨ ∃ a, r = Ok a ∧ g a = Raise e.
Proof. destruct r as [a|e']; cbn; [right; eauto | intros [= ->]; by left]. Qed.

Lemma mapM_raise (f : A → result B) l e :
  mapM f l = Raise e → ∃ x, x ∈ l ∧ f x = Raise e.
Proof.
  induction l as [|x l IH]; cbn; [done|].
  destruct (f x) as [b|e'] eqn:Hx; cbn.
  - destruct (mapM f l) as [k|e'']; cbn; [done|]. intros [= ->].
    destruct IH as (y & Hy & Hf); [done|]. exists y. split; [by right | done].
  - intros [= ->]. exists x. split; [left | done].
Qed.
End ResultRaise.

(** X2.  The indices a successful resolution stores locate the target
    channels among the used channels: index [k] is the first position of
    target channel [k] in [all_used_channels], and it is a column of the
    label matrix. *)
Theorem X2_target_indices_locate_channels :
  ∀ (V : Type) (S : Scalar V) (cols : list string) (df : DataFrame V)
    (requested : option (list string)) (r : resolved),
    resolve cols df requested = Ok r →
    Forall2 (λ x i, all_used_channels r !! i = Some x
                    ∧ (x ∉ take i (all_used_channels r))
                    ∧ i < Np.shape1 (labels r))
      (target_channels r) (target_channel_indices r).
Proof.
  intros V S cols df requested r Hr.
  pose proof (resolve_index_base _ _ _ _ Hr) as Hbase.
  apply mapM_index_bounds in Hbase.
  destruct (resolve_shapes _ _ _ _ Hr) as (_ & Hl & _).
  eapply Forall2_impl; [exact Hbase|]. intros x i [Hi Hfirst].
  split; [done|]. split; [done|]. rewrite Hl. by eapply lookup_lt_Some.
Qed.

(** X2 at the request [b, a, b]: the indices are [1, 0, 1]. *)
Lemma X2_request_b_a_b_witness :
  ∃ r, resolve (columns per_channel_table) per_channel_table (Some ["b"; "a"; "b"]%string)
       = Ok r
       ∧ target_channel_indices r = [1; 0; 1]
       ∧ Forall2 (λ x i, all_used_channels r !! i = Some x
                         ∧ (x ∉ take i (all_used_channels r))
                         ∧ i < Np.shape1 (labels r))
           (target_channels r) (target_channel_indices r).
Proof.
  eexists. split; [vm_compute; reflexivity|]. split; [vm_compute; reflexivity|].
  apply (X2_target_indices_locate_channels Z _ (columns per_channel_table)
           per_channel_table (Some ["b"; "a"; "b"]%string)).
  vm_compute. reflexivity.
Defined.

(** X3.  The data matrix of a successful resolution has as many rows as
    the table, and its column [k] is the float view of the table column
    named by target channel [k]. *)
Theorem X3_dataset_holds_target_channels :
  ∀ (V : Type) (S : Scalar V) (df : DataFrame V)
    (requested : option (list string)) (r : resolved),
    resolve (columns df) df requested = Ok r →
    Np.shape0 (dataset r) = index df
    ∧ Forall2 (λ x c, ∃ v, lookup_series (series df) x = Some v ∧ c = float_of <$> v)
        (target_channels r) (Np.cols (dataset r)).
Proof.
  intros V S df requested r Hr.
  destruct (resolve_contents df requested r Hr) as (H0 & _ & Hd & _). done.
Qed.

(** X3 at the request [b, a]. *)
Lemma X3_request_b_a_witness :
  ∃ r, resolve (columns per_channel_table) per_channel_table (Some ["b"; "a"]%string) = Ok r
       ∧ Np.shape0 (dataset r) = 3
       ∧ Forall2 (λ x c, ∃ v, lookup_series (series per_channel_table) x = Some v
                              ∧ c = float_of <$> v)
           (target_channels r) (Np.cols (dataset r)).
Proof.
  eexists. split; [vm_compute; reflexivity|].
  apply (X3_dataset_holds_target_channels Z _ per_channel_table (Some ["b"; "a"]%string)).
  vm_compute. reflexivity.
Defined.

(** X4.  The label matrix of a successful resolution has as many rows as
    the table and one column per used channel, in the order of the table:
    the uint8 view of the column [is_anomaly_<channel>], or of the global
    column [is_anomaly] when that is the only label column of the table. *)
Theorem X4_labels_follow_used_channels :
  ∀ (V : Type) (S : Scalar V) (df : DataFrame V)
    (requested : option (list string)) (r : resolved),
    resolve (columns df) df requested = Ok r →
    let anomaly_columns := filter (λ x, is_anomaly_column x) (columns df) in
    let global := bool_decide (anomaly_columns = ["is_anomaly"%string]) in
    Np.shape0 (labels r) = index df
    ∧ Forall2 (λ x c, ∃ v, lookup_series (series df)
                             (if global then "is_anomaly"%string else anomaly_column_of x)
                           = Some v
                           ∧ c = uint8_of <$> v)
        (all_used_channels r) (Np.cols (labels r)).
Proof.
  intros V S df requested r Hr anomaly_columns global.
  destruct (resolve_contents df requested r Hr) as (_ & H0 & _ & Hl).
  split; [done|]. cbv zeta in Hl. fold anomaly_columns in Hl.
  destruct (negb _) eqn:Hall; [exact Hl|].
  (* all channels are used: a table with the global column alone has no
     per-channel label column, so there is no used channel *)
  subst global. destruct (bool_decide (anomaly_columns = _)) eqn:Hg; [|exact Hl].
  apply bool_decide_eq_true in Hg. simpl in Hl.
  eapply Forall2_impl; [exact Hl|]. intros x c (v & Hv & _). exfalso.
  assert (anomaly_column_of x ∈ anomaly_columns) as Hin.
  { apply list_elem_of_filter. split; [by rewrite anomaly_column_of_is_anomaly|].
    destruct (decide (anomaly_column_of x ∈ columns df)) as [|Hn]; [done|].
    apply lookup_series_None in Hn. congruence. }
  rewrite Hg in Hin. apply list_elem_of_singleton in Hin.
  by apply anomaly_column_of_not_global in Hin.
Qed.

(** X4 at the table with the global label column, channels [b, a] requested. *)
Lemma X4_global_label_witness :
  ∃ r, resolve (columns global_label_table) global_label_table (Some ["b"; "a"]%string) = Ok r
       ∧ Np.cols (labels r) = [[0; 1; 0]%Z; [0; 1; 0]%Z]
       ∧ Np.shape0 (labels r) = 3
       ∧ Forall2 (λ x c, ∃ v, lookup_series (series global_label_table) "is_anomaly" = Some v
                              ∧ c = uint8_of <$> v)
           (all_used_channels r) (Np.cols (labels r)).
Proof.
  eexists. split; [vm_compute; reflexivity|]. split; [vm_compute; reflexivity|].
  apply (X4_labels_follow_used_channels Z _ global_label_table (Some ["b"; "a"]%string)).
  vm_compute. reflexivity.
Defined.

(** X5.  On the header of the frame it is given, the resolution raises
    nothing but [KeyError]: looking up the target channels and cutting the
    columns cannot fail, only a column that is missing from the table
    can. *)
Theorem X5_resolve_raises_only_KeyError :
  ∀ (V : Type) (S : Scalar V) (df : DataFrame V)
    (requested : option (list string)) (e : exn),
    resolve (columns df) df requested = Raise e → e = KeyError.
Proof.
  intros V S df requested e Hr. unfold resolve in Hr.
  set (anomaly_columns := filter (λ x, is_anomaly_column x) (columns df)) in *.
  set (data_columns := slice_to_neg (columns df) (length anomaly_columns)) in *.
  assert (data_columns `prefix_of` columns df) as Hpre by apply slice_to_neg_prefix.
  apply bind_raise in Hr as [Hb | ([[[[tc uc] ac] df'] dc'] & Hb & Hr)].
  - destruct (match requested with
              | Some tc => no_common_channel tc _
              | None => true
              end); [done|].
    apply bind_raise in Hb as [Hb | (df2 & _ & Hb)].
    + destruct (bool_decide _); [|done].
      apply bind_raise in Hb as [Hb | (d & _ & Hb)].
      * by eapply broadcast_global_label_raises.
      * by eapply drop_raises.
    + apply bind_raise in Hb as [Hb | (df3 & _ & Hb)]; [|done].
      by eapply loc_raises_KeyError.
  - assert (tc ⊆ dc' ∧ length dc' ≤ Np.shape1 (to_numpy df')) as [Hsub Hlen].
    { destruct (match requested with
                | Some tc => no_common_channel tc _
                | None => true
                end).
      - injection Hb as <- <- <- <- <-. split; [done|].
        unfold Np.shape1, to_numpy. cbn. rewrite length_fmap.
        rewrite <- (length_fmap fst (series df)). fold (columns df).
        by apply prefix_length.
      - apply bind_ok in Hb as (df2 & _ & Hb). apply bind_ok in Hb as (df3 & Hloc & Hb).
        injection Hb as <- <- <- <- <-.
        destruct (loc_ok_inv _ _ _ Hloc) as (_ & Hcols & _).
        rewrite Hcols, take_app_length. split.
        + intros x Hx. apply used_channels_spec. split; [|done].
          by apply list_elem_of_filter in Hx as [? _].
        + unfold Np.shape1, to_numpy. cbn. rewrite length_fmap.
          rewrite <- (length_fmap fst (series df3)). fold (columns df3).
          rewrite Hcols, length_app. lia. }
    apply bind_raise in Hr as [Hidx | (idx & Hidx & Hr)].
    { destruct (mapM_index_ok dc' tc Hsub) as [idx Hok]. congruence. }
    apply bind_raise in Hr as [Hlab | (lab & _ & Hr)]; [by eapply loc_raises_KeyError|].
    apply bind_raise in Hr as [Hds | (ds & _ & Hr)]; [|done].
    destruct (take_columns_in_bounds (to_numpy df') idx) as [a' Ha]; [|congruence].
    apply mapM_index_bounds in Hidx. apply Forall_forall. intros i Hi.
    apply list_elem_of_lookup in Hi as [k Hk].
    destruct (Forall2_lookup_r _ _ _ _ _ Hidx Hk) as (x & _ & Hx & _).
    apply lookup_lt_Some in Hx. lia.
Qed.

(** X5 at a table where channel [a] has no label column. *)
Lemma X5_missing_label_column_witness :
  resolve (columns (mk_DataFrame 1 [("a", [1%Z]); ("b", [2%Z]); ("is_anomaly_b", [0%Z])]))
    (mk_DataFrame 1 [("a", [1%Z]); ("b", [2%Z]); ("is_anomaly_b", [0%Z])])
    (Some ["a"]%string)
  = Raise KeyError.
Proof.
  destruct (resolve _ _ _) as [r|e] eqn:Hr; [vm_compute in Hr; discriminate|].
  f_equal. exact (X5_resolve_raises_only_KeyError Z _ _ _ e Hr).
Defined.

(** *** The baseline detector as a whole: what train and execute do to the files *)

Section IORaise.
Context {V M : Type}.

Lemma io_bind_raise {A B} (m : io (V:=V) (M:=M) A) (f : A → io B) w e w' :
  (m ≫= f) w = (Raise e, w') →
  m w = (Raise e, w') ∨ ∃ a w1, m w = (Ok a, w1) ∧ f a w1 = (Raise e, w').
Proof.
  unfold mbind, io_bind, bind. destruct (m w) as [[a|e0] w1]; [right; eauto|].
  intros [= -> ->]. by left.
Qed.

Lemma io_bind_fail {A B} (m : io (V:=V) (M:=M) A) (f : A → io B) w e w' :
  m w = (Raise e, w') → (m ≫= f) w = (Raise e, w').
Proof. intros H. unfold mbind, io_bind, bind. by rewrite H. Qed.

Lemma read_csv_fs path (w w' : World V M) x : read_csv path w = (x, w') → fs w' = fs w.
Proof.
  unfold read_csv, bind, open_r.
  destruct (fs w !! path) as [[]|]; by intros [= _ <-].
Qed.

Lemma loadtxt_fs path (w w' : World V M) x : loadtxt path w = (x, w') → fs w' = fs w.
Proof.
  unfold loadtxt, bind, open_r.
  destruct (fs w !! path) as [[]|]; by intros [= _ <-].
Qed.

Lemma read_csv_inv path (w w' : World V M) df :
  read_csv path w = (Ok df, w') →
  fs w !! path = Some (Csv df) ∧ w' = mk_World (fs w) (Read path :: events w).
Proof.
  unfold read_csv, bind, open_r.
  destruct (fs w !! path) as [[]|]; try discriminate. by intros [= -> <-].
Qed.

Lemma loadtxt_float path v (w : World V M) :
  fs w !! path = Some (FloatText v) →
  loadtxt path w = (Ok v, mk_World (fs w) (Read path :: events w)).
Proof. intros H. unfold loadtxt, bind, open_r. by rewrite H. Qed.

Lemma loadtxt_missing path (w : World V M) :
  fs w !! path = None →
  loadtxt path w = (Raise FileNotFoundError, mk_World (fs w) (Read path :: events w)).
Proof. intros H. unfold loadtxt, bind, open_r. by rewrite H. Qed.
End IORaise.

Section PerChannel.

Lemma per_channel_ok_inv f (dataset : Np.ndarray Np.float) (labels : Np.ndarray Z) x :
  Std.per_channel f dataset labels = Ok x → Np.shape1 dataset ≤ Np.shape1 labels.
Proof.
  unfold Std.per_channel. intros H%mapM_ok_Forall2.
  destruct (Np.shape1 dataset) as [|n] eqn:Hn; [lia|].
  destruct (Forall2_lookup_l _ _ _ n n H) as (y & _ & Hy).
  { apply lookup_seq. lia. }
  unfold Np.column in Hy.
  destruct (Np.cols dataset !! n); [|done]. cbn in Hy.
  destruct (Np.cols labels !! n) eqn:Hl; [|done].
  apply lookup_lt_Some in Hl. unfold Np.shape1. lia.
Qed.

Lemma per_channel_raise f (dataset : Np.ndarray Np.float) (labels : Np.ndarray Z) e :
  Std.per_channel f dataset labels = Raise e →
  e = IndexError ∧ Np.shape1 labels < Np.shape1 dataset.
Proof.
  intros H. destruct (decide (Np.shape1 dataset ≤ Np.shape1 labels)) as [Hle|Hgt].
  { rewrite (per_channel_ok _ _ _ Hle) in H. done. }
  split; [|lia]. unfold Std.per_channel in H.
  apply mapM_raise in H as (i & _ & Hi).
  apply bind_raise in Hi as [Hi | (d & _ & Hi)].
  - unfold Np.column in Hi. destruct (Np.cols dataset !! i); [done|]. by injection Hi.
  - apply bind_raise in Hi as [Hi | (l & _ & Hi)]; [|done].
    unfold Np.column in Hi. destruct (Np.cols labels !! i); [done|]. by injection Hi.
Qed.

Lemma scores_ok (tol : Np.float) (data : Np.ndarray Np.float)
    (train_means train_stds : list Np.float) :
  length train_means = Np.shape1 data →
  length train_stds = Np.shape1 data →
  ∃ s, Std.scores tol data train_means train_stds = Ok s
       ∧ Np.shape0 s = Np.shape0 data
       ∧ Np.shape1 s = Np.shape1 data
       ∧ ∀ c col m sd,
           Np.cols data !! c = Some col →
           train_means !! c = Some m →
           train_stds !! c = Some sd →
           Np.cols s !! c
           = Some ((λ x, if Np.gtb x (Np.add m (Np.mul tol sd))
                            || Np.ltb x (Np.sub m (Np.mul tol sd))
                         then 1%Z else 0%Z) <$> col).
Proof.
  intros Hm Hs. unfold Std.scores.
  rewrite !broadcast_same_length by (rewrite length_fmap; lia).
  cbn [mbind result_bind]. unfold Np.broadcast_2d_1d.
  rewrite !broadcast_same_length
    by (rewrite length_zip_with, length_fmap; unfold Np.shape1 in *; lia).
  cbn [mbind result_bind]. unfold Np.broadcast_2d_2d. cbn [Np.cols Np.shape0].
  rewrite broadcast_same_length
    by (rewrite !length_zip_with, !length_fmap; unfold Np.shape1 in *; lia).
  cbn [mbind result_bind]. eexists. split; [reflexivity|].
  cbn [Np.cols Np.shape0]. split; [done|]. split.
  { unfold Np.shape1 in *. cbn [Np.cols].
    rewrite length_fmap, !length_zip_with, !length_fmap. lia. }
  intros c col m sd Hc Hmc Hsc.
  rewrite list_lookup_fmap, !lookup_zip_with, Hc. cbn [mbind option_bind].
  rewrite Hmc, list_lookup_fmap, Hsc. simpl. f_equal.
  rewrite zip_with_fmap_l, zip_with_fmap_r, zip_with_diag, <- list_fmap_compose.
  reflexivity.
Qed.
End PerChannel.

Section StdRuns.
Context {V M : Type} `{!Scalar V}.
Variables np_mean np_std : list Np.float → Np.float.

Local Abbreviation means_path c := (String.append (Std.modelOutput c) ".means.txt").
Local Abbreviation stds_path c := (String.append (Std.modelOutput c) ".stds.txt").

(** What a run of [load_data] that returns has done, in either mode. *)
Lemma std_load_data_inv (config config' : Std.AlgorithmArgs) (w w1 : World V M)
    data means stds :
  Std.load_data np_mean np_std config w = (Ok (config', (data, means, stds)), w1) →
  ∃ df r wb,
    fs w !! Std.dataInput config = Some (Csv df)
    ∧ fs wb = fs w
    ∧ resolve (columns df) df (Std.target_channels (Std.customParameters config)) = Ok r
    ∧ data = dataset r
    ∧ Std.tol (Std.customParameters config') = Std.tol (Std.customParameters config)
    ∧ Std.dataOutput config' = Std.dataOutput config
    ∧ Std.baseline np_mean np_std config' (dataset r) (labels r) wb = (Ok (means, stds), w1)
    ∧ Std.executionType config' = Std.executionType config
    ∧ Std.modelOutput config' = Std.modelOutput config.
Proof.
  unfold Std.load_data. intros H.
  apply io_bind_inv in H as (header & wa & Hh & H).
  apply io_bind_inv in H as (df & wb & Hdf & H).
  apply io_bind_inv in H as (r & wc & Hr & H).
  apply io_bind_inv in H as ([ms ss] & wd & Hb & H).
  injection H as <- <- <- <- <-.
  unfold lift in Hr. injection Hr as Hr <-.
  apply read_csv_inv in Hh as [Hh ->]. apply read_csv_inv in Hdf as [Hdf ->].
  cbn [fs] in Hdf. rewrite Hh in Hdf. injection Hdf as <-.
  cbn [fs events] in Hb.
  exists header, r,
    (mk_World (fs w) (Read (Std.dataInput config) :: Read (Std.dataInput config) :: events w)).
  by repeat split.
Qed.
End StdRuns.

Section StdFiles.
Context {V M : Type} `{!Scalar V}.
Variables np_mean np_std : list Np.float → Np.float.

Lemma baseline_execute_fs (config : Std.AlgorithmArgs) dataset labels (w w' : World V M) x :
  Std.executionType config ≠ "train"%string →
  Std.baseline np_mean np_std config dataset labels w = (x, w') → fs w' = fs w.
Proof.
  intros Hmode. unfold Std.baseline. rewrite decide_False by done.
  case_decide; [|by intros [= _ <-]].
  unfold mbind, io_bind, bind.
  destruct (loadtxt _ w) as [[ms|e] wa] eqn:Hm.
  - apply loadtxt_fs in Hm.
    destruct (loadtxt _ wa) as [[ss|e] wb] eqn:Hs; apply loadtxt_fs in Hs.
    + intros [= _ <-]. congruence.
    + intros [= _ <-]. congruence.
  - apply loadtxt_fs in Hm. by intros [= _ <-].
Qed.

Lemma baseline_raise_fs (config : Std.AlgorithmArgs) dataset labels (w w' : World V M) e :
  Std.baseline np_mean np_std config dataset labels w = (Raise e, w') → fs w' = fs w.
Proof.
  destruct (decide (Std.executionType config = "train"%string)) as [Ht|Ht];
    [|by apply baseline_execute_fs].
  unfold Std.baseline. rewrite decide_True by done.
  destruct (Std.per_channel np_mean dataset labels) as [ms|e0] eqn:Hms.
  - pose proof (per_channel_ok_inv _ _ _ _ Hms) as Hle.
    rewrite (per_channel_ok np_std _ _ Hle). discriminate.
  - by intros [= _ <-].
Qed.

Lemma std_load_data_raise_fs (config : Std.AlgorithmArgs) (w w' : World V M) e :
  Std.load_data np_mean np_std config w = (Raise e, w') → fs w' = fs w.
Proof.
  unfold Std.load_data. intros H.
  apply io_bind_raise in H as [H | (header & wa & Hh & H)]; [by eapply read_csv_fs|].
  apply read_csv_fs in Hh.
  apply io_bind_raise in H as [H | (df & wb & Hdf & H)];
    [apply read_csv_fs in H; congruence|].
  apply read_csv_fs in Hdf.
  apply io_bind_raise in H as [H | (r & wc & Hr & H)];
    [unfold lift in H; injection H as _ <-; congruence|].
  unfold lift in Hr. injection Hr as _ <-.
  apply io_bind_raise in H as [H | ([ms ss] & wd & _ & H)]; [|done].
  apply baseline_raise_fs in H. congruence.
Qed.
Lemma std_load_data_execute (config : Std.AlgorithmArgs) (w : World V M) df r ms ss :
  Std.executionType config = "execute"%string →
  fs w !! Std.dataInput config = Some (Csv df) →
  resolve (columns df) df (Std.target_channels (Std.customParameters config)) = Ok r →
  fs w !! String.append (Std.modelOutput config) ".means.txt" = Some (FloatText ms) →
  fs w !! String.append (Std.modelOutput config) ".stds.txt" = Some (FloatText ss) →
  ∃ config' w',
    Std.load_data np_mean np_std config w = (Ok (config', (dataset r, ms, ss)), w')
    ∧ fs w' = fs w
    ∧ Std.tol (Std.customParameters config') = Std.tol (Std.customParameters config)
    ∧ Std.dataOutput config' = Std.dataOutput config.
Proof.
  intros Hexec Hdf Hr Hms Hss. unfold Std.load_data. eexists _, _. split.
  erewrite io_bind_ok; [|exact (read_csv_ok _ _ _ Hdf)].
  erewrite io_bind_ok; [|by apply read_csv_ok].
  erewrite io_bind_ok; [|unfold lift; rewrite Hr; reflexivity].
  unfold Std.baseline. cbn [Std.executionType Std.modelOutput].
  rewrite Hexec, decide_False by done. rewrite decide_True by done.
  erewrite io_bind_ok.
  2:{ erewrite io_bind_ok; [|by apply loadtxt_float].
      erewrite io_bind_ok; [|by apply loadtxt_float]. reflexivity. }
  reflexivity. done.
Qed.
End StdFiles.

(** X6.  Training then scoring.  When [train] has returned, [execute] on
    the same input, model path and parameters returns too: it loads the
    means and standard deviations [train] wrote (the per-channel reductions
    of the resolved data, a zero deviation replaced by one) and writes to
    [dataOutput] the scores of the resolved data against them.  The input
    path is assumed not to be one of the two baseline paths. *)
Theorem X6_execute_scores_against_trained_baseline :
  ∀ (V M : Type) (S : Scalar V) (np_mean np_std : list Np.float → Np.float)
    (config config_e : Std.AlgorithmArgs) (w w1 : World V M),
    let means_path := String.append (Std.modelOutput config) ".means.txt" in
    let stds_path := String.append (Std.modelOutput config) ".stds.txt" in
    Std.executionType config = "train"%string →
    Std.executionType config_e = "execute"%string →
    Std.dataInput config_e = Std.dataInput config →
    Std.modelOutput config_e = Std.modelOutput config →
    Std.customParameters config_e = Std.customParameters config →
    Std.dataInput config ≠ means_path →
    Std.dataInput config ≠ stds_path →
    Std.train np_mean np_std config w = (Ok tt, w1) →
    ∃ df r means stds s w2,
      fs w !! Std.dataInput config = Some (Csv df)
      ∧ resolve (columns df) df (Std.target_channels (Std.customParameters config)) = Ok r
      ∧ Std.per_channel np_mean (dataset r) (labels r) = Ok means
      ∧ Np.where_eq0_1 <$> Std.per_channel np_std (dataset r) (labels r) = Ok stds
      ∧ fs w1 = <[stds_path := FloatText stds]> (<[means_path := FloatText means]> (fs w))
      ∧ Std.scores (Std.tol (Std.customParameters config)) (dataset r) means stds = Ok s
      ∧ Std.execute np_mean np_std config_e w1 = (Ok tt, w2)
      ∧ fs w2 = <[Std.dataOutput config_e := IntMatrixText s]> (fs w1).
Proof.
  intros V M S np_mean np_std config config_e w w1 means_path stds_path
    Htrain Hexec Hin Hout Hcp Hne1 Hne2 Hrun.
  unfold Std.train in Hrun.
  apply io_bind_inv in Hrun as ([config' [[data means] stds]] & w1' & Hload & Hret).
  injection Hret as <-.
  apply std_load_data_inv in Hload
    as (df & r & wb & Hdf & Hwb & Hr & -> & _ & _ & Hb & Hmode & Hmo).
  rewrite Htrain in Hmode.
  assert (Np.shape1 (dataset r) ≤ Np.shape1 (labels r)) as Hle.
  { unfold Std.baseline in Hb. rewrite decide_True in Hb by done.
    apply io_bind_inv in Hb as (ms & wc & Hms & _).
    unfold lift in Hms. injection Hms as Hms _. by eapply per_channel_ok_inv. }
  rewrite (baseline_train np_mean np_std config' _ _ wb Hmode Hle) in Hb.
  cbv zeta in Hb. rewrite Hmo, Hwb in Hb. fold means_path stds_path in Hb.
  injection Hb as <- <- <-.
  set (means := zip_with (λ d l, np_mean _) _ _). set (stds := Np.where_eq0_1 _).
  assert (length means = Np.shape1 (dataset r)) as Hlm.
  { unfold means. rewrite length_zip_with. unfold Np.shape1 in *. lia. }
  assert (length stds = Np.shape1 (dataset r)) as Hls.
  { unfold stds, Np.where_eq0_1. rewrite length_fmap, length_zip_with.
    unfold Np.shape1 in *. lia. }
  destruct (scores_ok (Std.tol (Std.customParameters config)) (dataset r) means stds Hlm Hls)
    as (s & Hs & _).
  assert (means_path ≠ stds_path) as Hpaths by apply means_stds_paths_differ.
  destruct (std_load_data_execute np_mean np_std config_e
              (mk_World (<[stds_path := FloatText stds]>
                           (<[means_path := FloatText means]> (fs w)))
                 (Write stds_path :: Write means_path :: events wb))
              df r means stds Hexec)
    as (c' & w' & Hload & Hfs & Htol & Hdo).
  { cbn [fs]. rewrite Hin, !lookup_insert_ne by done. exact Hdf. }
  { by rewrite Hcp. }
  { cbn [fs]. rewrite Hout. fold means_path.
    rewrite lookup_insert_ne by done. apply lookup_insert_eq. }
  { cbn [fs]. rewrite Hout. fold stds_path. apply lookup_insert_eq. }
  exists df, r, means, stds, s. eexists.
  split; [done|]. split; [done|]. split; [by apply per_channel_ok|].
  split; [by rewrite per_channel_ok|]. cbn [fs]. split; [done|]. split; [done|].
  unfold Std.execute. rewrite (io_bind_ok _ _ _ _ _ Hload). cbn beta iota.
  rewrite Htol, Hcp, Hdo.
  erewrite io_bind_ok; [|unfold lift; rewrite Hs; reflexivity].
  unfold write. split; [reflexivity|]. cbn [fs]. by rewrite Hfs.
Qed.

(** X6 at the constant channel of seven rows. *)
Lemma X6_constant_channel_witness :
  ∃ w1 s w2,
    Std.train (V:=Z) (M:=unit) mean std
      (Std.mk_AlgorithmArgs "train" "in.csv" "out.csv" "model" "model"
         Std.default_CustomParameters) (world_of constant_table) = (Ok tt, w1)
    ∧ Std.execute (V:=Z) (M:=unit) mean std
        (Std.mk_AlgorithmArgs "execute" "in.csv" "out.csv" "model" "model"
           Std.default_CustomParameters) w1 = (Ok tt, w2)
    ∧ fs w2 = <["out.csv"%string := IntMatrixText s]> (fs w1).
Proof.
  destruct (Std.train (V:=Z) (M:=unit) mean std
              (Std.mk_AlgorithmArgs "train" "in.csv" "out.csv" "model" "model"
                 Std.default_CustomParameters) (world_of constant_table))
    as [[[]|e] w1] eqn:Hrun; [|vm_compute in Hrun; discriminate].
  destruct (X6_execute_scores_against_trained_baseline Z unit _ mean std
              (Std.mk_AlgorithmArgs "train" "in.csv" "out.csv" "model" "model"
                 Std.default_CustomParameters)
              (Std.mk_AlgorithmArgs "execute" "in.csv" "out.csv" "model" "model"
                 Std.default_CustomParameters)
              (world_of constant_table) w1)
    as (df & r & means & stds & s & w2 & _ & _ & _ & _ & _ & _ & Hexec & Hfs);
    try reflexivity; try discriminate; [exact Hrun|].
  exists w1, s, w2. split; [reflexivity|]. split; [exact Hexec | exact Hfs].
Defined.

(** X7.  A run of the baseline detector that raises has written nothing:
    the files are the ones it started with, whatever the mode and the
    error.  With an execution type other than [train] and [execute] the
    error is [ValueError] and no file was opened either. *)
Theorem X7_failed_run_writes_nothing :
  ∀ (V M : Type) (S : Scalar V) (np_mean np_std : list Np.float → Np.float)
    (args : Std.JsonArgs) (w w' : World V M) (e : exn),
    Std.main np_mean np_std args w = (Raise e, w') →
    fs w' = fs w
    ∧ (Std.json_executionType args ≠ "train"%string →
       Std.json_executionType args ≠ "execute"%string →
       e = ValueError ∧ w' = w).
Proof.
  intros V M S np_mean np_std args w w' e Hrun. unfold Std.main in Hrun.
  erewrite io_bind_ok in Hrun; [|reflexivity].
  cbn [Std.executionType] in Hrun.
  destruct (decide (Std.json_executionType args = "train"%string)) as [Ht|Ht].
  { split; [|done]. unfold Std.train in Hrun.
    apply io_bind_raise in Hrun as [Hrun | (x & w1 & _ & Hrun)]; [|done].
    by eapply std_load_data_raise_fs. }
  destruct (decide (Std.json_executionType args = "execute"%string)) as [Hx|Hx].
  { split; [|done]. unfold Std.execute in Hrun.
    apply io_bind_raise in Hrun as [Hrun | ([c' [[data ms] ss]] & w1 & Hload & Hrun)];
      [by eapply std_load_data_raise_fs|].
    apply std_load_data_inv in Hload
      as (df & r & wb & _ & Hwb & _ & _ & _ & _ & Hb & Hmode & _).
    cbn [Std.executionType] in Hmode.
    apply baseline_execute_fs in Hb; [|congruence].
    apply io_bind_raise in Hrun as [Hrun | (s & w2 & _ & Hrun)]; [|done].
    unfold lift in Hrun. injection Hrun as _ <-. congruence. }
  unfold lift in Hrun. injection Hrun as <- <-. done.
Qed.

(** X7 at an [execute] run with no baseline on disk. *)
Lemma X7_execute_without_baseline_witness :
  ∃ e w', Std.main (V:=Z) (M:=unit) mean std (std_args "execute" None)
            (world_of per_channel_table) = (Raise e, w')
          ∧ fs w' = fs (world_of (M:=unit) per_channel_table).
Proof.
  destruct (Std.main (V:=Z) (M:=unit) mean std (std_args "execute" None)
              (world_of per_channel_table)) as [[u|e] w'] eqn:Hrun;
    [vm_compute in Hrun; discriminate|].
  exists e, w'. split; [reflexivity|].
  exact (proj1 (X7_failed_run_writes_nothing Z unit _ mean std _ _ _ _ Hrun)).
Defined.

(** X8.  [execute] reads both baseline files of the model path: when the
    input loads and the means file is missing, or the means file is there
    and the deviations file is missing, it raises [FileNotFoundError] and
    writes nothing. *)
Theorem X8_execute_needs_both_baseline_files :
  ∀ (V M : Type) (S : Scalar V) (np_mean np_std : list Np.float → Np.float)
    (config : Std.AlgorithmArgs) (w : World V M) (df : DataFrame V) (r : resolved),
    let means_path := String.append (Std.modelOutput config) ".means.txt" in
    let stds_path := String.append (Std.modelOutput config) ".stds.txt" in
    Std.executionType config = "execute"%string →
    fs w !! Std.dataInput config = Some (Csv df) →
    resolve (columns df) df (Std.target_channels (Std.customParameters config)) = Ok r →
    fs w !! means_path = None
    ∨ (∃ v, fs w !! means_path = Some (FloatText v)) ∧ fs w !! stds_path = None →
    ∃ w', Std.execute np_mean np_std config w = (Raise FileNotFoundError, w')
          ∧ fs w' = fs w.
Proof.
  intros V M S np_mean np_std config w df r means_path stds_path Hexec Hdf Hr Hmiss.
  assert (∃ w', Std.baseline np_mean np_std
                  (Std.mk_AlgorithmArgs (Std.executionType config) (Std.dataInput config)
                     (Std.dataOutput config) (Std.modelInput config)
                     (Std.modelOutput config)
                     (Std.mk_CustomParameters (Std.tol (Std.customParameters config))
                        (Std.random_state (Std.customParameters config))
                        (Some (target_channels r)) (Some (target_channel_indices r))))
                  (dataset r) (labels r)
                  (mk_World (fs w)
                     (Read (Std.dataInput config) :: Read (Std.dataInput config) :: events w))
                = (Raise FileNotFoundError, w') ∧ fs w' = fs w) as (w' & Hb & Hfs).
  { unfold Std.baseline. cbn [Std.executionType Std.modelOutput].
    rewrite Hexec, decide_False by done. rewrite decide_True by done.
    fold means_path stds_path.
    destruct Hmiss as [Hm | [[v Hm] Hs]].
    - eexists. split; [apply io_bind_fail; by apply loadtxt_missing | done].
    - eexists. split; [|shelve].
      erewrite io_bind_ok; [|by apply loadtxt_float].
      apply io_bind_fail. by apply loadtxt_missing.
      Unshelve. done. }
  exists w'. split; [|done]. unfold Std.execute, Std.load_data.
  apply io_bind_fail.
  erewrite io_bind_ok; [|exact (read_csv_ok _ _ _ Hdf)].
  erewrite io_bind_ok; [|by apply read_csv_ok].
  erewrite io_bind_ok; [|unfold lift; rewrite Hr; reflexivity].
  apply io_bind_fail. exact Hb.
Qed.

(** X8 at an [execute] run with no baseline on disk. *)
Lemma X8_untrained_witness :
  ∃ w', Std.execute (V:=Z) (M:=unit) mean std
          (Std.mk_AlgorithmArgs "execute" "in.csv" "out.csv" "model" "model"
             Std.default_CustomParameters) (world_of per_channel_table)
        = (Raise FileNotFoundError, w')
        ∧ fs w' = fs (world_of (M:=unit) per_channel_table).
Proof.
  eapply (X8_execute_needs_both_baseline_files Z unit _ mean std
            (Std.mk_AlgorithmArgs "execute" "in.csv" "out.csv" "model" "model"
               Std.default_CustomParameters) (world_of per_channel_table)
            per_channel_table).
  - reflexivity.
  - reflexivity.
  - vm_compute. reflexivity.
  - left. reflexivity.
Defined.

(** X9.  When the resolved selection has more target channels than used
    channels (a channel requested twice), the data matrix is wider than the
    label matrix and [train] raises [IndexError] at the first channel
    without a label column, before any file is written. *)
Theorem X9_repeated_channel_breaks_training :
  ∀ (V M : Type) (S : Scalar V) (np_mean np_std : list Np.float → Np.float)
    (config : Std.AlgorithmArgs) (w : World V M) (df : DataFrame V) (r : resolved),
    Std.executionType config = "train"%string →
    fs w !! Std.dataInput config = Some (Csv df) →
    resolve (columns df) df (Std.target_channels (Std.customParameters config)) = Ok r →
    length (all_used_channels r) < length (target_channels r) →
    ∃ w', Std.train np_mean np_std config w = (Raise IndexError, w') ∧ fs w' = fs w.
Proof.
  intros V M S np_mean np_std config w df r Htrain Hdf Hr Hlt.
  destruct (resolve_shapes _ _ _ _ Hr) as (Hd & Hl & _).
  destruct (Std.per_channel np_mean (dataset r) (labels r)) as [ms|e] eqn:Hms.
  { apply per_channel_ok_inv in Hms. lia. }
  destruct (per_channel_raise _ _ _ _ Hms) as [-> _].
  unfold Std.train, Std.load_data. eexists. split.
  - apply io_bind_fail.
    erewrite io_bind_ok; [|exact (read_csv_ok _ _ _ Hdf)].
    erewrite io_bind_ok; [|by apply read_csv_ok].
    erewrite io_bind_ok; [|unfold lift; rewrite Hr; reflexivity].
    apply io_bind_fail.
    unfold Std.baseline. cbn [Std.executionType].
    rewrite decide_True by done. apply io_bind_fail.
    unfold lift. rewrite Hms. reflexivity.
  - reflexivity.
Qed.

(** X9 at the request [a, a]. *)
Lemma X9_channel_a_twice_witness :
  ∃ w', Std.train (V:=Z) (M:=unit) mean std
          (Std.mk_AlgorithmArgs "train" "in.csv" "out.csv" "model" "model"
             (Std.mk_CustomParameters (Np.of_int 3) 42 (Some ["a"; "a"]%string) None))
          (world_of per_channel_table)
        = (Raise IndexError, w')
        ∧ fs w' = fs (world_of (M:=unit) per_channel_table).
Proof.
  eapply (X9_repeated_channel_breaks_training Z unit _ mean std
            (Std.mk_AlgorithmArgs "train" "in.csv" "out.csv" "model" "model"
               (Std.mk_CustomParameters (Np.of_int 3) 42 (Some ["a"; "a"]%string) None))
            (world_of per_channel_table) per_channel_table).
  - reflexivity.
  - reflexivity.
  - vm_compute. reflexivity.
  - vm_compute. lia.
Defined.

(** *** Scores against a degenerate baseline *)

Lemma add_nan_r x : Np.add x Np.nan = Np.nan.
Proof. by destruct x. Qed.

Lemma sub_nan_r x : Np.sub x Np.nan = Np.nan.
Proof. by destruct x. Qed.

Lemma mul_nan_r x : Np.mul x Np.nan = Np.nan.
Proof. by destruct x. Qed.

Lemma mul_nan_l x : Np.mul Np.nan x = Np.nan.
Proof. done. Qed.

Lemma gtb_nan x : Np.gtb x Np.nan = false.
Proof. done. Qed.

Lemma ltb_nan x : Np.ltb x Np.nan = false.
Proof. by destruct x as [| | |[] ? ?]. Qed.

(** X10.  A channel whose baseline is not a number, or a tolerance that is
    not a number, flags nothing: every score of that channel is 0. *)
Theorem X10_nan_baseline_never_flags :
  ∀ (tol : Np.float) (data : Np.ndarray Np.float) (train_means train_stds : list Np.float)
    (c : nat) (col : list Np.float) (m sd : Np.float),
    length train_means = Np.shape1 data →
    length train_stds = Np.shape1 data →
    Np.cols data !! c = Some col →
    train_means !! c = Some m →
    train_stds !! c = Some sd →
    m = Np.nan ∨ sd = Np.nan ∨ tol = Np.nan →
    ∃ s, Std.scores tol data train_means train_stds = Ok s
         ∧ Np.cols s !! c = Some (replicate (length col) 0%Z).
Proof.
  intros tol data means stds c col m sd Hm Hs Hc Hmc Hsc Hnan.
  destruct (scores_ok tol data means stds Hm Hs) as (s & Hok & _ & _ & Hcols).
  exists s. split; [done|]. rewrite (Hcols c col m sd Hc Hmc Hsc). f_equal.
  assert (Np.add m (Np.mul tol sd) = Np.nan ∧ Np.sub m (Np.mul tol sd) = Np.nan)
    as [-> ->].
  { destruct Hnan as [->|[->| ->]].
    - done.
    - by rewrite mul_nan_r, add_nan_r, sub_nan_r.
    - by rewrite mul_nan_l, add_nan_r, sub_nan_r. }
  clear. induction col as [|x col IH]; [done|].
  rewrite fmap_cons, IH, gtb_nan, ltb_nan. reflexivity.
Qed.

(** X10 at a second channel whose baseline is not a number. *)
Lemma X10_nan_mean_witness :
  ∃ s, Std.scores (Np.of_int 3)
         (Np.mk_ndarray 3 [Np.of_int <$> [1; 5; 9]%Z; Np.of_int <$> [0; 2; 4]%Z])
         [Np.of_int 2; Np.nan] [Np.of_int 1; Np.nan] = Ok s
       ∧ Np.cols s !! 1 = Some [0; 0; 0]%Z.
Proof.
  exact (X10_nan_baseline_never_flags (Np.of_int 3)
           (Np.mk_ndarray 3 [Np.of_int <$> [1; 5; 9]%Z; Np.of_int <$> [0; 2; 4]%Z])
           [Np.of_int 2; Np.nan] [Np.of_int 1; Np.nan] 1
           (Np.of_int <$> [0; 2; 4]%Z) Np.nan Np.nan
           eq_refl eq_refl eq_refl eq_refl eq_refl (or_introl eq_refl)).
Defined.

(** X11.  A baseline of two or more channels whose width differs from
    that of the data (of two or more channels) does not broadcast: the
    scoring raises [ValueError]. *)
Theorem X11_baseline_of_other_width_is_rejected :
  ∀ (tol : Np.float) (data : Np.ndarray Np.float) (train_means train_stds : list Np.float),
    length train_stds = length train_means →
    length train_means ≠ Np.shape1 data →
    1 < length train_means →
    1 < Np.shape1 data →
    Std.scores tol data train_means train_stds = Raise ValueError.
Proof.
  intros tol data means stds Hs Hne Hm Hd.
  unfold Std.scores, Np.broadcast_2d_1d, Np.shape1 in *.
  destruct (Np.cols data) as [|c1 [|c2 cs]]; simpl in Hd; try lia.
  destruct means as [|m1 [|m2 ms]]; simpl in Hm; try lia.
  destruct stds as [|s1 [|s2 ss]]; simpl in Hs; try lia.
  unfold Np.broadcast.
  rewrite !decide_True by (simpl; rewrite length_fmap; lia).
  cbn [mbind result_bind].
  rewrite !decide_False
    by (simpl in *; rewrite length_zip_with, length_fmap; lia).
  reflexivity.
Qed.

(** X11 at a baseline of two channels against data of three. *)
Lemma X11_two_against_three_witness :
  Std.scores (Np.of_int 3)
    (Np.mk_ndarray 1 [[Np.of_int 1]; [Np.of_int 2]; [Np.of_int 3]])
    [Np.of_int 2; Np.of_int 2] [Np.of_int 1; Np.of_int 1] = Raise ValueError.
Proof.
  apply X11_baseline_of_other_width_is_rejected; vm_compute; lia.
Defined.

(** *** The windowed isolation forest as a whole *)

Section JoinLemmas.
Context {A : Type}.

Lemma length_mjoin_uniform (ls : list (list A)) n :
  Forall (λ x, length x = n) ls → length (mjoin ls) = length ls * n.
Proof.
  induction 1 as [|x ls Hx _ IH]; [done|].
  change (mjoin (x :: ls)) with (x ++ mjoin ls).
  rewrite length_app, IH, Hx. simpl. lia.
Qed.

Lemma lookup_mjoin_uniform (ls : list (list A)) n c k x :
  Forall (λ x, length x = n) ls → ls !! c = Some x → k < n →
  mjoin ls !! (c * n + k) = x !! k.
Proof.
  intros Hall. revert c. induction Hall as [|y ls Hy _ IH]; intros c Hc Hk; [done|].
  change (mjoin (y :: ls)) with (y ++ mjoin ls).
  destruct c as [|c]; simpl in Hc.
  - injection Hc as ->. simpl. apply lookup_app_l. lia.
  - rewrite lookup_app_r by (rewrite Hy; simpl; lia).
    rewrite Hy. replace (S c * n + k - n) with (c * n + k) by (simpl; lia).
    by apply IH.
Qed.
End JoinLemmas.

(** X12.  The windows of a rectangular series of [T] rows and [C]
    channels, for a window size [0 < W <= T]: there are [T - W + 1] of them,
    each of width [C * W], and window [i] is channel-major: its entry
    [c * W + k] is the value of channel [c] at row [i + k]. *)
Theorem X12_window_rows_are_channel_major :
  ∀ (data : Np.ndarray Np.float) (W : Z),
    (0 < W ≤ Z.of_nat (Np.shape0 data))%Z →
    Np.shape1 data ≠ 0 →
    Forall (λ c, length c = Np.shape0 data) (Np.cols data) →
    ∃ ws, SubsequenceIF.windows data W = Ok ws
          ∧ length ws = Np.shape0 data - Z.to_nat W + 1
          ∧ ∀ i win, ws !! i = Some win →
              length win = Np.shape1 data * Z.to_nat W
              ∧ ∀ c col k, Np.cols data !! c = Some col → k < Z.to_nat W →
                  win !! (c * Z.to_nat W + k) = col !! (i + k).
Proof.
  intros data W HW HC Hrect. eexists. split; [by apply windows_ok|].
  split; [by rewrite length_fmap, length_seq|].
  intros i win Hwin. rewrite list_lookup_fmap in Hwin.
  destruct (seq 0 _ !! i) as [i'|] eqn:Hi; [|done]. injection Hwin as <-.
  apply lookup_seq in Hi as [-> Hi]. rewrite Nat.add_0_l.
  assert (Forall (λ x : list Np.float, length x = Z.to_nat W)
            ((λ c : list Np.float, take (Z.to_nat W) (skipn i c)) <$> Np.cols data)) as Hw.
  { apply Forall_fmap. eapply Forall_impl; [exact Hrect|]. intros c Hc. simpl.
    simpl in Hc. rewrite length_take, length_skipn. lia. }
  split.
  - rewrite (length_mjoin_uniform _ _ Hw), length_fmap. done.
  - intros c col k Hc Hk.
    rewrite (lookup_mjoin_uniform _ (Z.to_nat W) c k (take (Z.to_nat W) (skipn i col)) Hw).
    + rewrite lookup_take_lt by done. apply lookup_drop.
    + by rewrite list_lookup_fmap, Hc.
    + done.
Qed.

(** X12 at two channels of four rows and windows of three rows. *)
Lemma X12_two_channels_witness :
  ∃ ws, SubsequenceIF.windows
          (Np.mk_ndarray 4 [Np.of_int <$> [1; 2; 3; 4]%Z; Np.of_int <$> [5; 6; 7; 8]%Z]) 3
        = Ok ws
        ∧ ws = [Np.of_int <$> [1; 2; 3; 5; 6; 7]%Z; Np.of_int <$> [2; 3; 4; 6; 7; 8]%Z].
Proof.
  destruct (X12_window_rows_are_channel_major
              (Np.mk_ndarray 4 [Np.of_int <$> [1; 2; 3; 4]%Z; Np.of_int <$> [5; 6; 7; 8]%Z]) 3)
    as (ws & Hws & _).
  - simpl. lia.
  - discriminate.
  - repeat constructor.
  - exists ws. split; [exact Hws|]. vm_compute in Hws. by injection Hws as <-.
Defined.

Section SifRuns.
Context {V M : Type} `{!Scalar V}.
Variable IForest_fit : SubsequenceIF.IForestArgs → list (list Np.float) → result M.
Variable predict : M → list (list Np.float) → list Z.

(** The configuration [load_data] hands back: the channels are resolved,
    everything else is kept. *)
Local Abbreviation resolved_config config r :=
  (SubsequenceIF.mk_AlgorithmArgs (SubsequenceIF.executionType config)
     (SubsequenceIF.dataInput config) (SubsequenceIF.dataOutput config)
     (SubsequenceIF.modelInput config) (SubsequenceIF.modelOutput config)
     (SubsequenceIF.mk_CustomParameters
        (SubsequenceIF.window_size (SubsequenceIF.customParameters config))
        (SubsequenceIF.n_trees (SubsequenceIF.customParameters config))
        (SubsequenceIF.max_samples (SubsequenceIF.customParameters config))
        (SubsequenceIF.max_features (SubsequenceIF.customParameters config))
        (SubsequenceIF.bootstrap (SubsequenceIF.customParameters config))
        (SubsequenceIF.random_state (SubsequenceIF.customParameters config))
        (SubsequenceIF.verbose (SubsequenceIF.customParameters config))
        (SubsequenceIF.n_jobs (SubsequenceIF.customParameters config))
        (Some (target_channels r)) (Some (target_channel_indices r)))).

Lemma sif_load_data_inv (config config' : SubsequenceIF.AlgorithmArgs) (w w1 : World V M)
    data c :
  SubsequenceIF.load_data config w = (Ok (config', (data, c)), w1) →
  ∃ df r,
    fs w !! SubsequenceIF.dataInput config = Some (Csv df)
    ∧ resolve (columns df) df
        (SubsequenceIF.target_channels (SubsequenceIF.customParameters config)) = Ok r
    ∧ SubsequenceIF.contamination_of (labels r) = Ok c
    ∧ data = dataset r
    ∧ config' = resolved_config config r
    ∧ w1 = mk_World (fs w)
             (Read (SubsequenceIF.dataInput config)
              :: Read (SubsequenceIF.dataInput config) :: events w).
Proof.
  unfold SubsequenceIF.load_data. intros H.
  apply io_bind_inv in H as (header & wa & Hh & H).
  apply io_bind_inv in H as (df & wb & Hdf & H).
  apply io_bind_inv in H as (r & wc & Hr & H).
  apply io_bind_inv in H as (c' & wd & Hc & H).
  injection H as <- <- <- <-.
  unfold lift in Hr, Hc. injection Hr as Hr <-. injection Hc as Hc <-.
  apply read_csv_inv in Hh as [Hh ->]. apply read_csv_inv in Hdf as [Hdf ->].
  cbn [fs] in Hdf. rewrite Hh in Hdf. injection Hdf as <-.
  exists header, r. by repeat split.
Qed.

Lemma sif_load_data_ok (config : SubsequenceIF.AlgorithmArgs) (w : World V M) df r c :
  fs w !! SubsequenceIF.dataInput config = Some (Csv df) →
  resolve (columns df) df
    (SubsequenceIF.target_channels (SubsequenceIF.customParameters config)) = Ok r →
  SubsequenceIF.contamination_of (labels r) = Ok c →
  SubsequenceIF.load_data config w
  = (Ok (resolved_config config r, (dataset r, c)),
     mk_World (fs w)
       (Read (SubsequenceIF.dataInput config)
        :: Read (SubsequenceIF.dataInput config) :: events w)).
Proof.
  intros Hdf Hr Hc. unfold SubsequenceIF.load_data.
  erewrite io_bind_ok; [|exact (read_csv_ok _ _ _ Hdf)].
  erewrite io_bind_ok; [|by apply read_csv_ok].
  erewrite io_bind_ok; [|unfold lift; rewrite Hr; reflexivity].
  erewrite io_bind_ok; [|unfold lift; rewrite Hc; reflexivity].
  reflexivity.
Qed.

Lemma sif_load_data_fs (config : SubsequenceIF.AlgorithmArgs) (w w' : World V M) x :
  SubsequenceIF.load_data config w = (x, w') → fs w' = fs w.
Proof.
  unfold SubsequenceIF.load_data. unfold mbind, io_bind, bind.
  destruct (read_csv _ w) as [[header|e] wa] eqn:Hh; apply read_csv_fs in Hh;
    [|intros [= _ <-]; done].
  destruct (read_csv _ wa) as [[df|e] wb] eqn:Hdf; apply read_csv_fs in Hdf;
    [|intros [= _ <-]; congruence].
  unfold lift. destruct (resolve _ _ _) as [r|e]; [|intros [= _ <-]; congruence].
  destruct (SubsequenceIF.contamination_of _) as [c|e]; intros [= _ <-]; congruence.
Qed.

Lemma pickle_load_fs path (w w' : World V M) x : pickle_load path w = (x, w') → fs w' = fs w.
Proof.
  unfold pickle_load, bind, open_r.
  destruct (fs w !! path) as [[]|]; by intros [= _ <-].
Qed.
End SifRuns.

(** X13.  A run of the windowed detector that raises has written nothing,
    whatever the mode and wherever it failed (arguments, input, windows,
    fitting, model file, padding). *)
Theorem X13_failed_forest_run_writes_nothing :
  ∀ (V M : Type) (S : Scalar V)
    (IForest_fit : SubsequenceIF.IForestArgs → list (list Np.float) → result M)
    (predict : M → list (list Np.float) → list Z)
    (args : SubsequenceIF.JsonArgs) (w w' : World V M) (e : exn),
    SubsequenceIF.main IForest_fit predict args w = (Raise e, w') →
    fs w' = fs w.
Proof.
  intros V M S IForest_fit predict args w w' e Hrun. unfold SubsequenceIF.main in Hrun.
  apply io_bind_raise in Hrun as [Hrun | (config & w0 & Hcfg & Hrun)].
  { unfold lift in Hrun. by injection Hrun as _ <-. }
  unfold lift in Hcfg. injection Hcfg as _ <-.
  destruct (decide (SubsequenceIF.executionType config = "train"%string)) as [Ht|Ht].
  { unfold SubsequenceIF.train in Hrun.
    apply io_bind_raise in Hrun as [Hrun | ([c' [data c]] & w1 & Hload & Hrun)];
      [by eapply sif_load_data_fs|].
    apply sif_load_data_fs in Hload.
    apply io_bind_raise in Hrun as [Hrun | (ws & w2 & Hws & Hrun)].
    { unfold lift in Hrun. injection Hrun as _ <-. done. }
    unfold lift in Hws. injection Hws as _ <-.
    apply io_bind_raise in Hrun as [Hrun | (clf & w3 & _ & Hrun)]; [|done].
    unfold lift in Hrun. injection Hrun as _ <-. done. }
  destruct (decide (SubsequenceIF.executionType config = "execute"%string)) as [Hx|Hx].
  { unfold SubsequenceIF.execute in Hrun.
    apply io_bind_raise in Hrun as [Hrun | ([c' [data c]] & w1 & Hload & Hrun)];
      [by eapply sif_load_data_fs|].
    apply sif_load_data_fs in Hload.
    apply io_bind_raise in Hrun as [Hrun | (ws & w2 & Hws & Hrun)].
    { unfold lift in Hrun. injection Hrun as _ <-. done. }
    unfold lift in Hws. injection Hws as _ <-.
    apply io_bind_raise in Hrun as [Hrun | (clf & w3 & Hclf & Hrun)].
    { apply pickle_load_fs in Hrun. congruence. }
    apply pickle_load_fs in Hclf.
    apply io_bind_raise in Hrun as [Hrun | (res & w4 & _ & Hrun)]; [|done].
    unfold lift in Hrun. injection Hrun as _ <-. congruence. }
  unfold lift in Hrun. by injection Hrun as _ <-.
Qed.

(** X13 at a window of seven rows on a series of five. *)
Lemma X13_window_longer_than_series_witness :
  ∃ e w', SubsequenceIF.main (V:=Z) toy_fit toy_predict (sif_args "train" 7)
            (world_of series_table) = (Raise e, w')
          ∧ fs w' = fs (world_of (M:=Np.float) series_table).
Proof.
  destruct (SubsequenceIF.main (V:=Z) toy_fit toy_predict (sif_args "train" 7)
              (world_of series_table)) as [[u|e] w'] eqn:Hrun;
    [vm_compute in Hrun; discriminate|].
  exists e, w'. split; [reflexivity|].
  exact (X13_failed_forest_run_writes_nothing Z _ _ toy_fit toy_predict _ _ _ _ Hrun).
Defined.

(** X14.  A window size that is negative or larger than the number of
    rows is found only after the input was read (twice): [train] and
    [execute] raise [ValueError], with no file written. *)
Theorem X14_unusable_window_fails_after_loading :
  ∀ (V M : Type) (S : Scalar V)
    (IForest_fit : SubsequenceIF.IForestArgs → list (list Np.float) → result M)
    (predict : M → list (list Np.float) → list Z)
    (config : SubsequenceIF.AlgorithmArgs)
    (w : World V M) (df : DataFrame V) (r : resolved) (c : Np.float),
    let W := SubsequenceIF.window_size (SubsequenceIF.customParameters config) in
    fs w !! SubsequenceIF.dataInput config = Some (Csv df) →
    resolve (columns df) df
      (SubsequenceIF.target_channels (SubsequenceIF.customParameters config)) = Ok r →
    SubsequenceIF.contamination_of (labels r) = Ok c →
    (W < 0 ∨ Z.of_nat (index df) < W)%Z →
    ∃ w', SubsequenceIF.train IForest_fit config w = (Raise ValueError, w')
          ∧ SubsequenceIF.execute predict config w = (Raise ValueError, w')
          ∧ fs w' = fs w
          ∧ events w' = [Read (SubsequenceIF.dataInput config);
                         Read (SubsequenceIF.dataInput config)] ++ events w.
Proof.
  intros V M S IForest_fit predict config w df r c W Hdf Hr Hc Hbad.
  pose proof (sif_load_data_ok config w df r c Hdf Hr Hc) as Hload.
  destruct (resolve_contents df _ r Hr) as (Hrows & _).
  assert (SubsequenceIF.windows (dataset r) W = Raise ValueError) as Hws.
  { unfold SubsequenceIF.windows. case_decide; [done|].
    rewrite decide_True; [done|]. rewrite Hrows. lia. }
  exists (mk_World (fs w)
            (Read (SubsequenceIF.dataInput config)
             :: Read (SubsequenceIF.dataInput config) :: events w)).
  split; [|split; [|by split]].
  - unfold SubsequenceIF.train. erewrite io_bind_ok; [|exact Hload].
    cbn [SubsequenceIF.customParameters SubsequenceIF.window_size].
    apply io_bind_fail. unfold lift. fold W. by rewrite Hws.
  - unfold SubsequenceIF.execute. erewrite io_bind_ok; [|exact Hload].
    cbn [SubsequenceIF.customParameters SubsequenceIF.window_size].
    apply io_bind_fail. unfold lift. fold W. by rewrite Hws.
Qed.

(** X14 at the window size -3, which passes the parity assertion. *)
Lemma X14_window_minus_3_witness :
  ∃ config w',
    SubsequenceIF.from_sys_args (sif_args "train" (-3)) = Ok config
    ∧ SubsequenceIF.train (V:=Z) toy_fit config (world_of series_table)
      = (Raise ValueError, w').
Proof.
  edestruct (X14_unusable_window_fails_after_loading Z Np.float _ toy_fit toy_predict
              (SubsequenceIF.mk_AlgorithmArgs "train" "in.csv" "out.csv" "model" "model"
                 (SubsequenceIF.mk_CustomParameters (-3) 100 None Np.one false 42 0 1
                    None None))
              (world_of series_table) series_table)
    as (w' & Htrain & _).
  - reflexivity.
  - vm_compute. reflexivity.
  - vm_compute. reflexivity.
  - left. vm_compute. reflexivity.
  - eexists _, w'. split; [reflexivity | exact Htrain].
Defined.

(** X15.  Training then scoring.  When [train] has returned, it has
    pickled at [modelOutput] the forest fitted to the windows of the
    resolved data with the contamination of its labels; [execute] on the
    same input and parameters, with that path as [modelInput], returns too
    and writes the forest's prediction for those windows between
    [window_size // 2] zeros on either side.  The input path is assumed not
    to be the model path. *)
Theorem X15_execute_uses_trained_forest :
  ∀ (V M : Type) (S : Scalar V)
    (IForest_fit : SubsequenceIF.IForestArgs → list (list Np.float) → result M)
    (predict : M → list (list Np.float) → list Z)
    (config config_e : SubsequenceIF.AlgorithmArgs) (w w1 : World V M),
    let p := SubsequenceIF.customParameters config in
    let W := SubsequenceIF.window_size p in
    SubsequenceIF.dataInput config_e = SubsequenceIF.dataInput config →
    SubsequenceIF.modelInput config_e = SubsequenceIF.modelOutput config →
    SubsequenceIF.customParameters config_e = p →
    SubsequenceIF.dataInput config ≠ SubsequenceIF.modelOutput config →
    SubsequenceIF.train IForest_fit config w = (Ok tt, w1) →
    ∃ df r c ws clf w2,
      fs w !! SubsequenceIF.dataInput config = Some (Csv df)
      ∧ resolve (columns df) df (SubsequenceIF.target_channels p) = Ok r
      ∧ SubsequenceIF.contamination_of (labels r) = Ok c
      ∧ SubsequenceIF.windows (dataset r) W = Ok ws
      ∧ IForest_fit
          (SubsequenceIF.mk_IForestArgs c (SubsequenceIF.n_trees p)
             (SubsequenceIF.max_samples_or_auto (SubsequenceIF.max_samples p))
             (SubsequenceIF.max_features p) (SubsequenceIF.bootstrap p)
             (SubsequenceIF.random_state p) (SubsequenceIF.verbose p)
             (SubsequenceIF.n_jobs p)) ws = Ok clf
      ∧ fs w1 = <[SubsequenceIF.modelOutput config := Pickle clf]> (fs w)
      ∧ SubsequenceIF.execute predict config_e w1 = (Ok tt, w2)
      ∧ fs w2 = <[SubsequenceIF.dataOutput config_e :=
                    IntText (replicate (Z.to_nat (W / 2)) 0%Z ++ predict clf ws
                             ++ replicate (Z.to_nat (W / 2)) 0%Z)]> (fs w1).
Proof.
  intros V M S IForest_fit predict config config_e w w1 p W Hin Hmodel Hcp Hne Hrun.
  subst W p. unfold SubsequenceIF.train in Hrun.
  apply io_bind_inv in Hrun as ([c' [data c]] & wa & Hload & Hrun).
  apply sif_load_data_inv in Hload as (df & r & Hdf & Hr & Hc & -> & -> & ->).
  cbn [SubsequenceIF.customParameters SubsequenceIF.window_size SubsequenceIF.n_trees
       SubsequenceIF.max_samples SubsequenceIF.max_features SubsequenceIF.bootstrap
       SubsequenceIF.random_state SubsequenceIF.verbose SubsequenceIF.n_jobs
       SubsequenceIF.modelOutput] in Hrun.
  apply io_bind_inv in Hrun as (ws & wb & Hws & Hrun).
  unfold lift in Hws. injection Hws as Hws <-.
  apply io_bind_inv in Hrun as (clf & wc & Hclf & Hrun).
  unfold lift in Hclf. injection Hclf as Hclf <-.
  unfold write in Hrun. injection Hrun as <-. cbn [fs].
  assert (0 ≤ SubsequenceIF.window_size (SubsequenceIF.customParameters config))%Z as HW.
  { unfold SubsequenceIF.windows in Hws. case_decide; [done | lia]. }
  exists df, r, c, ws, clf. eexists.
  split; [done|]. split; [done|]. split; [done|]. split; [done|]. split; [done|].
  split; [done|].
  unfold SubsequenceIF.execute.
  erewrite io_bind_ok.
  2:{ apply (sif_load_data_ok config_e _ df r c).
      - cbn [fs]. rewrite Hin, lookup_insert_ne by done. exact Hdf.
      - by rewrite Hcp.
      - done. }
  cbn [SubsequenceIF.customParameters SubsequenceIF.window_size SubsequenceIF.modelInput
       SubsequenceIF.dataOutput].
  rewrite Hcp.
  erewrite io_bind_ok; [|unfold lift; rewrite Hws; reflexivity].
  erewrite io_bind_ok.
  2:{ apply pickle_load_ok. cbn [fs]. rewrite Hmodel. apply lookup_insert_eq. }
  unfold SubsequenceIF.pad. rewrite decide_False by (apply Z.le_ngt, Z.div_pos; lia).
  erewrite io_bind_ok; [|reflexivity].
  unfold write. cbn [fs]. split; reflexivity.
Qed.

(** X15 at one channel of five rows and windows of three rows. *)
Lemma X15_series_witness :
  ∃ w1 w2,
    SubsequenceIF.train (V:=Z) toy_fit
      (SubsequenceIF.mk_AlgorithmArgs "train" "in.csv" "out.csv" "model" "model"
         (SubsequenceIF.mk_CustomParameters 3 100 None Np.one false 42 0 1 None None))
      (world_of series_table) = (Ok tt, w1)
    ∧ SubsequenceIF.execute (V:=Z) toy_predict
        (SubsequenceIF.mk_AlgorithmArgs "execute" "in.csv" "out.csv" "model" "model"
           (SubsequenceIF.mk_CustomParameters 3 100 None Np.one false 42 0 1 None None))
        w1 = (Ok tt, w2)
    ∧ fs w2 !! "out.csv"%string = Some (IntText [0; 0; 0; 1; 0]%Z).
Proof.
  destruct (SubsequenceIF.train (V:=Z) toy_fit
              (SubsequenceIF.mk_AlgorithmArgs "train" "in.csv" "out.csv" "model" "model"
                 (SubsequenceIF.mk_CustomParameters 3 100 None Np.one false 42 0 1 None None))
              (world_of series_table)) as [[[]|e] w1] eqn:Hrun;
    [|vm_compute in Hrun; discriminate].
  destruct (X15_execute_uses_trained_forest Z Np.float _ toy_fit toy_predict
              (SubsequenceIF.mk_AlgorithmArgs "train" "in.csv" "out.csv" "model" "model"
                 (SubsequenceIF.mk_CustomParameters 3 100 None Np.one false 42 0 1 None None))
              (SubsequenceIF.mk_AlgorithmArgs "execute" "in.csv" "out.csv" "model" "model"
                 (SubsequenceIF.mk_CustomParameters 3 100 None Np.one false 42 0 1 None None))
              (world_of series_table) w1)
    as (df & r & c & ws & clf & w2 & Hdf & Hr & _ & Hws & Hclf & _ & Hexec & Hfs);
    try reflexivity; try discriminate; [exact Hrun|].
  exists w1, w2. split; [reflexivity|]. split; [exact Hexec|].
  rewrite Hfs, lookup_insert_eq. injection Hdf as <-.
  vm_compute in Hr. injection Hr as <-. vm_compute in Hws. injection Hws as <-.
  vm_compute in Hclf. injection Hclf as <-. vm_compute. reflexivity.
Defined.

(** X16.  [execute] with no file at [modelInput] raises
    [FileNotFoundError] once the input has loaded and the windows are cut,
    and writes nothing. *)
Theorem X16_execute_without_model_raises :
  ∀ (V M : Type) (S : Scalar V)
    (predict : M → list (list Np.float) → list Z)
    (config : SubsequenceIF.AlgorithmArgs)
    (w : World V M) (df : DataFrame V) (r : resolved) (c : Np.float)
    (ws : list (list Np.float)),
    fs w !! SubsequenceIF.dataInput config = Some (Csv df) →
    resolve (columns df) df
      (SubsequenceIF.target_channels (SubsequenceIF.customParameters config)) = Ok r →
    SubsequenceIF.contamination_of (labels r) = Ok c →
    SubsequenceIF.windows (dataset r)
      (SubsequenceIF.window_size (SubsequenceIF.customParameters config)) = Ok ws →
    fs w !! SubsequenceIF.modelInput config = None →
    ∃ w', SubsequenceIF.execute predict config w = (Raise FileNotFoundError, w')
          ∧ fs w' = fs w.
Proof.
  intros V M S predict config w df r c ws Hdf Hr Hc Hws Hmodel.
  unfold SubsequenceIF.execute. eexists. split.
  - erewrite io_bind_ok; [|by apply (sif_load_data_ok config w df r c)].
    cbn [SubsequenceIF.customParameters SubsequenceIF.window_size SubsequenceIF.modelInput].
    erewrite io_bind_ok; [|unfold lift; rewrite Hws; reflexivity].
    apply io_bind_fail. unfold pickle_load, bind, open_r. cbn [fs].
    rewrite Hmodel. reflexivity.
  - reflexivity.
Qed.

(** X16 at an [execute] run with no model on disk. *)
Lemma X16_untrained_witness :
  ∃ w', SubsequenceIF.execute (V:=Z) toy_predict
          (SubsequenceIF.mk_AlgorithmArgs "execute" "in.csv" "out.csv" "model" "model"
             (SubsequenceIF.mk_CustomParameters 3 100 None Np.one false 42 0 1 None None))
          (world_of series_table)
        = (Raise FileNotFoundError, w')
        ∧ fs w' = fs (world_of (M:=Np.float) series_table).
Proof.
  eapply (X16_execute_without_model_raises Z Np.float _ toy_predict
            (SubsequenceIF.mk_AlgorithmArgs "execute" "in.csv" "out.csv" "model" "model"
               (SubsequenceIF.mk_CustomParameters 3 100 None Np.one false 42 0 1 None None))
            (world_of series_table) series_table).
  - reflexivity.
  - vm_compute. reflexivity.
  - vm_compute. reflexivity.
  - vm_compute. reflexivity.
  - reflexivity.
Defined.

(** *** The archive callback: what the disk holds after training *)

Section ArchiveStates.
Context {C : Type}.
Variable zip_chunks : C → nat.
Variable model_path : string.
Hypothesis model_path_not_check : model_path ≠ "check"%string.

Local Abbreviation tmp := (String.append model_path ".zip").
Local Abbreviation inv := (loop_invariant model_path).
Implicit Types (d : Disk C) (fs : gmap string (node C)).

(** The disk after the callbacks of one epoch, from the disk before. *)
Local Abbreviation after_epoch e fs :=
  (let fs1 := match checkpoint e with
              | Some c => <["check"%string := Dir c]> fs
              | None => fs
              end in
   match fs1 !! "check"%string with
   | Some (Dir c) => <[model_path := Zip c]> (delete tmp fs1)
   | _ => fs1
   end).

Lemma create_archive_now c d fs0 :
  inv fs0 d →
  now d !! "check"%string = Some (Dir c) →
  ∃ d', _create_archive zip_chunks "check" model_path d = (Ok tt, d')
        ∧ inv fs0 d'
        ∧ now d' = <[model_path := Zip c]> (delete tmp (now d)).
Proof.
  intros Hinv Hc.
  destruct (create_archive_spec zip_chunks model_path model_path_not_check c d fs0 Hinv Hc)
    as (d' & Hrun & Hinv' & _).
  exists d'. split; [done|]. split; [done|].
  destruct Hinv as (Hh & Hl & Hmp & Htmp & _).
  destruct (write_chunks_spec model_path c (zip_chunks c) 0 d fs0 Hh Hl)
    as (d1 & Hrun1 & _ & _ & Hnow1).
  unfold _create_archive, make_archive in Hrun.
  unfold dbind at 1 2 3, stat in Hrun. rewrite Hc, Htmp, Hrun1 in Hrun.
  unfold move, dbind, stat, rename in Hrun.
  rewrite Hnow1 in Hrun.
  rewrite lookup_insert_ne in Hrun by apply zip_name_not_self. rewrite Hmp in Hrun.
  unfold dbind, stat in Hrun. rewrite Hnow1, lookup_insert_eq in Hrun.
  unfold update in Hrun. injection Hrun as <-. cbn [now].
  by rewrite Hnow1, delete_insert_eq.
Qed.

Lemma on_epoch_end_now e d fs0 :
  inv fs0 d →
  ∃ d', on_epoch_end zip_chunks model_path e d = (Ok tt, d')
        ∧ inv fs0 d'
        ∧ now d' = after_epoch e (now d).
Proof.
  intros Hinv. unfold on_epoch_end.
  set (d1 := match checkpoint e with
             | Some c => (update (<["check"%string := Dir c]>) d).2
             | None => d
             end).
  assert ((match checkpoint e with
           | Some c => update (<["check"%string := Dir c]>)
           | None => dret tt
           end) d = (Ok tt, d1)) as Hck by (subst d1; by destruct (checkpoint e)).
  assert (now d1 = match checkpoint e with
                   | Some c => <["check"%string := Dir c]> (now d)
                   | None => now d
                   end) as Hnow1 by (subst d1; by destruct (checkpoint e)).
  assert (inv fs0 d1) as Hinv1.
  { subst d1. destruct (checkpoint e) as [c|]; [|done].
    destruct Hinv as (Hh & Hl & Hmp & Htmp & _).
    split; [|split; [|split; [|split]]].
    - apply update_keeps; [|done]. by apply lookup_insert_ne, not_eq_sym.
    - by apply last_states_update.
    - cbn [update snd now]. by rewrite lookup_insert_ne by (by apply not_eq_sym).
    - cbn [update snd now].
      by rewrite lookup_insert_ne by (apply not_eq_sym, zip_name_not_check).
    - right. exists c. cbn [update snd now]. apply lookup_insert_eq. }
  erewrite (dbind_ok _ _ _ _ _ Hck). unfold dbind at 1, exists_.
  cbv zeta. rewrite <- Hnow1.
  destruct Hinv1 as (? & ? & ? & ? & [Hnone|[c Hc]]).
  - rewrite Hnone. rewrite bool_decide_eq_false_2 by (intros [? ?]; congruence).
    exists d1. split; [done|]. split; [|done]. by repeat split; eauto.
  - rewrite Hc. rewrite bool_decide_eq_true_2 by eauto.
    destruct (create_archive_now c d1 fs0) as (d' & Hrun & Hinv' & Hnow');
      [repeat split; eauto | done |].
    exists d'. split; [done|]. split; [done|]. done.
Qed.

Lemma foldl_checkpoint_none (epochs : list (epoch (C:=C))) (acc : option (node C)) :
  Forall (λ e, checkpoint e = None) epochs →
  foldl (λ acc e, match checkpoint e with
                  | Some c => Some (Dir c)
                  | None => acc
                  end) acc epochs = acc.
Proof.
  intros H. revert acc. induction H as [|e l He _ IH]; intros acc; simpl; [done|].
  by rewrite He, IH.
Qed.

(** The disk at the end of training: the checkpoint directory holds the
    last checkpoint saved (a stale one when none was); once an epoch ran
    while it exists, the model path holds its archive and the temporary
    archive is gone; no other path has changed. *)
Lemma fit_now epochs d fs0 :
  inv fs0 d →
  ∃ d', fit zip_chunks model_path epochs d = (Ok tt, d')
        ∧ inv fs0 d'
        ∧ (∀ p, p ≠ "check"%string → p ≠ model_path → p ≠ tmp →
                now d' !! p = now d !! p)
        ∧ now d' !! "check"%string
          = foldl (λ acc e, match checkpoint e with
                            | Some c => Some (Dir c)
                            | None => acc
                            end) (now d !! "check"%string) epochs
        ∧ (epochs ≠ [] → ∀ c, now d' !! "check"%string = Some (Dir c) →
             now d' !! model_path = Some (Zip c) ∧ now d' !! tmp = None).
Proof.
  revert d. induction epochs as [|e rest IH]; intros d Hinv; simpl.
  - exists d. split; [done|]. split; [done|]. split; [done|]. split; [done|]. by intros ?.
  - destruct (on_epoch_end_now e d fs0 Hinv) as (d1 & Hrun1 & Hinv1 & Hnow1).
    erewrite (dbind_ok _ _ _ _ _ Hrun1).
    destruct (IH d1 Hinv1) as (d' & Hrun & Hinv' & Hframe & Hcheck & Hpost).
    assert (now d1 !! "check"%string
            = match checkpoint e with
              | Some c => Some (Dir c)
              | None => now d !! "check"%string
              end) as Hck1.
    { rewrite Hnow1. cbv zeta.
      destruct (checkpoint e) as [c|].
      - rewrite lookup_insert_eq, lookup_insert_ne by done.
        rewrite lookup_delete_ne by apply zip_name_not_check. apply lookup_insert_eq.
      - destruct (now d !! "check"%string) as [[c| | |]|] eqn:Hc; try done.
        rewrite lookup_insert_ne by done.
        by rewrite lookup_delete_ne by apply zip_name_not_check. }
    exists d'. split; [done|]. split; [done|]. split; [|split].
    + intros p Hp1 Hp2 Hp3. rewrite Hframe by done. rewrite Hnow1. cbv zeta.
      assert (match checkpoint e with
              | Some c => <["check"%string := Dir c]> (now d)
              | None => now d
              end !! p = now d !! p) as Hfs1.
      { destruct (checkpoint e); [by rewrite lookup_insert_ne by done | done]. }
      set (fs1 := match checkpoint e with
                  | Some c => <["check"%string := Dir c]> (now d)
                  | None => now d
                  end) in *.
      destruct (fs1 !! "check"%string) as [[c| | |]|]; try exact Hfs1.
      rewrite lookup_insert_ne by done. rewrite lookup_delete_ne by done. exact Hfs1.
    + by rewrite Hcheck, Hck1.
    + intros _ c Hc. destruct rest as [|e' rest']; [|by apply Hpost].
      simpl in Hrun. injection Hrun as <-.
      rewrite Hnow1. rewrite Hnow1 in Hc. cbv zeta in *.
      set (fs1 := match checkpoint e with
                  | Some c => <["check"%string := Dir c]> (now d)
                  | None => now d
                  end) in *.
      destruct (fs1 !! "check"%string) as [[c'| | |]|] eqn:Hc'.
      * rewrite lookup_insert_ne in Hc by done.
        rewrite lookup_delete_ne in Hc by apply zip_name_not_check.
        rewrite Hc' in Hc. injection Hc as ->. split; [apply lookup_insert_eq|].
        rewrite lookup_insert_ne by (apply not_eq_sym, zip_name_not_self).
        apply lookup_delete_eq.
      * congruence.
      * congruence.
      * congruence.
      * congruence.
Qed.
End ArchiveStates.

(** X17.  Under the conditions of C8, training changes three paths at
    most: the checkpoint [check], the model path and its [.zip] sibling;
    every other path holds at the end what it held before.  Once an epoch
    has run while the checkpoint exists, nothing is left at the [.zip]
    sibling, whatever was there before. *)
Theorem X17_fit_changes_three_paths_only :
  ∀ (C : Type) (zip_chunks : C → nat) (model_path : string) (epochs : list (epoch (C:=C)))
    (fs0 : gmap string (node C)),
    model_path ≠ "check"%string →
    is_dir (fs0 !! model_path) = false →
    is_dir (fs0 !! String.append model_path ".zip") = false →
    (fs0 !! "check"%string = None ∨ ∃ c, fs0 !! "check"%string = Some (Dir c)) →
    ∃ d, fit zip_chunks model_path epochs (mk_Disk fs0 []) = (Ok tt, d)
         ∧ (∀ p, p ≠ "check"%string → p ≠ model_path →
                 p ≠ String.append model_path ".zip" →
                 now d !! p = fs0 !! p)
         ∧ (epochs ≠ [] → is_Some (now d !! "check"%string) →
            now d !! String.append model_path ".zip" = None).
Proof.
  intros C zip_chunks model_path epochs fs0 Hne Hmp Htmp Hck.
  destruct (fit_now zip_chunks model_path Hne epochs (mk_Disk fs0 []) fs0)
    as (d & Hrun & (_ & _ & _ & _ & Hck') & Hframe & _ & Hpost).
  { by repeat split. }
  exists d. split; [done|]. split; [exact Hframe|].
  intros Hnil [n Hn]. destruct Hck' as [Hnone|[c Hc]]; [congruence|].
  by destruct (Hpost Hnil c Hc).
Qed.

(** X17 at a disk that holds a file at the [.zip] sibling and one elsewhere. *)
Lemma X17_stray_zip_witness :
  ∃ d, fit (λ _ : nat, 2) "model" [mk_epoch (Some 7)]
         (mk_Disk {["model.zip"%string := File; "notes"%string := File]} [])
       = (Ok tt, d)
       ∧ now d !! "notes"%string = Some File
       ∧ now d !! "model.zip"%string = None.
Proof.
  destruct (X17_fit_changes_three_paths_only nat (λ _, 2) "model" [mk_epoch (Some 7)]
              {["model.zip"%string := File; "notes"%string := File]})
    as (d & Hrun & Hframe & Hzip).
  - discriminate.
  - reflexivity.
  - reflexivity.
  - by left.
  - exists d. split; [exact Hrun|]. split.
    + rewrite Hframe by discriminate. reflexivity.
    + apply Hzip; [discriminate|].
      vm_compute in Hrun. injection Hrun as <-. eexists. reflexivity.
Defined.

(** X18.  Under the conditions of C8, the model path ends up with the
    archive of the last checkpoint saved; and when no epoch saves one but a
    checkpoint directory was already there before training, it is that
    earlier checkpoint that is archived at the model path. *)
Theorem X18_model_is_archive_of_last_checkpoint :
  ∀ (C : Type) (zip_chunks : C → nat) (model_path : string) (epochs : list (epoch (C:=C)))
    (fs0 : gmap string (node C)),
    model_path ≠ "check"%string →
    is_dir (fs0 !! model_path) = false →
    is_dir (fs0 !! String.append model_path ".zip") = false →
    (fs0 !! "check"%string = None ∨ ∃ c, fs0 !! "check"%string = Some (Dir c)) →
    ∃ d, fit zip_chunks model_path epochs (mk_Disk fs0 []) = (Ok tt, d)
         ∧ (∀ pre e post c,
              epochs = pre ++ e :: post →
              checkpoint e = Some c →
              Forall (λ e', checkpoint e' = None) post →
              now d !! "check"%string = Some (Dir c)
              ∧ now d !! model_path = Some (Zip c))
         ∧ (∀ c0,
              epochs ≠ [] →
              Forall (λ e, checkpoint e = None) epochs →
              fs0 !! "check"%string = Some (Dir c0) →
              now d !! model_path = Some (Zip c0)).
Proof.
  intros C zip_chunks model_path epochs fs0 Hne Hmp Htmp Hck.
  destruct (fit_now zip_chunks model_path Hne epochs (mk_Disk fs0 []) fs0)
    as (d & Hrun & _ & _ & Hcheck & Hpost).
  { by repeat split. }
  exists d. split; [done|]. cbn [now] in Hcheck. split.
  - intros pre e post c -> He Hpost'.
    assert (now d !! "check"%string = Some (Dir c)) as Hc.
    { rewrite Hcheck, foldl_app. cbn [foldl]. rewrite He.
      by apply foldl_checkpoint_none. }
    split; [done|]. apply Hpost; [|done]. by destruct pre.
  - intros c0 Hnil Hall Hc0. apply Hpost; [done|].
    by rewrite Hcheck, foldl_checkpoint_none.
Qed.

(** X18 at two epochs without improvement after an earlier run left a checkpoint. *)
Lemma X18_stale_checkpoint_witness :
  ∃ d, fit (λ _ : nat, 2) "model" [mk_epoch None; mk_epoch None]
         (mk_Disk {["check"%string := Dir 5]} [])
       = (Ok tt, d)
       ∧ now d !! "model"%string = Some (Zip 5).
Proof.
  destruct (X18_model_is_archive_of_last_checkpoint nat (λ _, 2) "model"
              [mk_epoch None; mk_epoch None] {["check"%string := Dir 5]})
    as (d & Hrun & _ & Hstale).
  - discriminate.
  - reflexivity.
  - reflexivity.
  - right. by exists 5.
  - exists d. split; [exact Hrun|]. apply Hstale.
    + discriminate.
    + by repeat constructor.
    + reflexivity.
Defined.

(** *** A model path that is a directory *)

Lemma no_slash_differs (s t u : string) :
  "/"%char ∉ list_ascii_of_string u → String.append s (String "/" t) ≠ u.
Proof.
  revert u. induction s as [|a s IH]; intros u Hu; simpl.
  - intros <-. apply Hu. left.
  - destruct u as [|b u]; [discriminate|]. intros [= -> H].
    apply (IH u); [|done]. intros Hin. apply Hu. by right.
Qed.

Lemma check_has_no_slash : "/"%char ∉ list_ascii_of_string "check".
Proof.
  intros H. repeat (apply elem_of_cons in H as [H|H]; [discriminate|]).
  by apply elem_of_nil in H.
Qed.

Lemma slash_name_not_self (s t : string) : String.append s (String "/" t) ≠ s.
Proof. induction s as [|a s IH]; simpl; [discriminate|]. intros [= H]. by apply IH. Qed.

Lemma slash_name_not_zip (s t : string) :
  String.append s (String "/" t) ≠ String.append s ".zip".
Proof. induction s as [|a s IH]; simpl; [discriminate|]. intros [= H]. by apply IH. Qed.

Section DirectoryModelPath.
Context {C : Type}.
Variable zip_chunks : C → nat.
Variable model_path : string.
Hypothesis model_path_not_check : model_path ≠ "check"%string.

Local Abbreviation tmp := (String.append model_path ".zip").
Local Abbreviation inside :=
  (String.append model_path (String.append "/" (basename (String.append model_path ".zip")))).
Implicit Types (d : Disk C).

Lemma dbind_fail {A B} (m : dio A) (f : A → dio B) d e d1 :
  m d = (Raise e, d1) → dbind m f d = (Raise e, d1).
Proof. intros H. unfold dbind. by rewrite H. Qed.

Lemma write_chunks_now path (c : C) n k d :
  ∃ d', write_chunks path c k n d = (Ok tt, d')
        ∧ now d' = <[path := Zip c]> (now d).
Proof.
  revert k d. induction n as [|n IH]; intros k d; simpl.
  - eexists. split; reflexivity.
  - unfold dbind. simpl.
    destruct (IH (S k) (mk_Disk (<[path := PartialZip c k]> (now d)) (now d :: past d)))
      as (d' & Hrun & Hnow).
    exists d'. split; [done|]. rewrite Hnow. simpl. apply insert_insert_eq.
Qed.

(** One epoch when the model path is a directory and the checkpoint
    exists: the archive is moved into the directory, unless its name is
    taken there. *)
Lemma on_epoch_end_directory e d c0 c :
  now d !! model_path = Some (Dir c0) →
  is_dir (now d !! tmp) = false →
  match checkpoint e with
  | Some c' => c' = c
  | None => now d !! "check"%string = Some (Dir c)
  end →
  let fs1 := match checkpoint e with
             | Some c' => <["check"%string := Dir c']> (now d)
             | None => now d
             end in
  ∃ d', on_epoch_end zip_chunks model_path e d
        = (if bool_decide (is_Some (now d !! inside)) then Raise ShutilError else Ok tt, d')
        ∧ now d' = if bool_decide (is_Some (now d !! inside))
                   then <[tmp := Zip c]> fs1
                   else <[inside := Zip c]> (delete tmp (<[tmp := Zip c]> fs1)).
Proof.
  intros Hmp Htmp Hc fs1. unfold on_epoch_end.
  set (d1 := match checkpoint e with
             | Some c' => (update (<["check"%string := Dir c']>) d).2
             | None => d
             end).
  assert ((match checkpoint e with
           | Some c => update (<["check"%string := Dir c]>)
           | None => dret tt
           end) d = (Ok tt, d1)) as Hck by (subst d1; by destruct (checkpoint e)).
  assert (now d1 = fs1) as Hnow1 by (subst d1 fs1; by destruct (checkpoint e)).
  assert (fs1 !! "check"%string = Some (Dir c)) as Hc1.
  { subst fs1. destruct (checkpoint e); [subst; apply lookup_insert_eq | done]. }
  assert (∀ p, p ≠ "check"%string → fs1 !! p = now d !! p) as Hother.
  { intros p Hp. subst fs1.
    destruct (checkpoint e); [by rewrite lookup_insert_ne by done | done]. }
  assert (inside ≠ "check"%string) as Hi1.
  { simpl. apply no_slash_differs, check_has_no_slash. }
  assert (inside ≠ tmp) as Hi2 by (simpl; apply slash_name_not_zip).
  assert (inside ≠ model_path) as Hi3 by (simpl; apply slash_name_not_self).
  erewrite (dbind_ok _ _ _ _ _ Hck). unfold dbind at 1, exists_.
  rewrite Hnow1, Hc1. rewrite bool_decide_eq_true_2 by eauto.
  destruct (write_chunks_now tmp c (zip_chunks c) 0 d1) as (d2 & Hrun2 & Hnow2).
  rewrite Hnow1 in Hnow2.
  assert (make_archive zip_chunks model_path "check" d1 = (Ok tt, d2)) as Hmk.
  { unfold make_archive, dbind, stat. rewrite Hnow1, Hc1, Hnow1.
    rewrite (Hother tmp) by apply zip_name_not_check. rewrite Htmp. exact Hrun2. }
  unfold _create_archive. erewrite (dbind_ok _ _ _ _ _ Hmk).
  unfold move. unfold dbind at 1, stat. rewrite Hnow2.
  rewrite lookup_insert_ne by apply zip_name_not_self.
  rewrite (Hother model_path) by done. rewrite Hmp. cbn [is_dir].
  unfold dbind at 1, exists_. rewrite Hnow2.
  rewrite lookup_insert_ne by (by apply not_eq_sym).
  rewrite (Hother inside) by done.
  destruct (now d !! inside) as [n|] eqn:Hin.
  - rewrite !bool_decide_eq_true_2 by eauto. eexists. split; [reflexivity|]. done.
  - rewrite !bool_decide_eq_false_2 by (intros [? ?]; congruence).
    unfold rename, dbind, stat. rewrite Hnow2, lookup_insert_eq.
    eexists. split; [reflexivity|]. cbn [now]. by rewrite Hnow2.
Qed.
End DirectoryModelPath.

(** X19.  When the model path is an existing directory, the first epoch
    with a checkpoint moves its archive into that directory, under the name
    of the [.zip] sibling; at the next epoch the name is taken and the move
    raises [shutil.Error], which ends [fit]: the directory is still a
    directory, it holds the first archive, and the second archive is left
    at the [.zip] sibling. *)
Theorem X19_directory_model_path_breaks_second_archive :
  ∀ (C : Type) (zip_chunks : C → nat) (model_path : string)
    (e1 e2 : epoch (C:=C)) (rest : list (epoch (C:=C)))
    (fs0 : gmap string (node C)) (c0 c1 : C),
    let tmp := String.append model_path ".zip" in
    let inside := String.append model_path (String.append "/" (basename tmp)) in
    model_path ≠ "check"%string →
    fs0 !! model_path = Some (Dir c0) →
    is_dir (fs0 !! tmp) = false →
    fs0 !! inside = None →
    checkpoint e1 = Some c1 →
    ∃ d, fit zip_chunks model_path (e1 :: e2 :: rest) (mk_Disk fs0 [])
         = (Raise ShutilError, d)
         ∧ now d !! model_path = Some (Dir c0)
         ∧ now d !! inside = Some (Zip c1)
         ∧ now d !! tmp = Some (Zip (default c1 (checkpoint e2))).
Proof.
  intros C zip_chunks model_path e1 e2 rest fs0 c0 c1 tmp inside Hne Hmp Htmp Hin He1.
  assert (inside ≠ "check"%string) as Hi1.
  { subst inside. simpl. apply no_slash_differs, check_has_no_slash. }
  assert (inside ≠ tmp) as Hi2 by (subst inside tmp; simpl; apply slash_name_not_zip).
  assert (inside ≠ model_path) as Hi3 by (subst inside; simpl; apply slash_name_not_self).
  assert (tmp ≠ model_path) as Ht1 by apply zip_name_not_self.
  assert (tmp ≠ "check"%string) as Ht2 by apply zip_name_not_check.
  destruct (on_epoch_end_directory zip_chunks model_path Hne e1 (mk_Disk fs0 []) c0 c1)
    as (d1 & Hrun1 & Hnow1); [done | done | by rewrite He1 |].
  cbn [now] in Hrun1, Hnow1. fold tmp inside in Hrun1, Hnow1.
  rewrite Hin in Hrun1, Hnow1.
  rewrite bool_decide_eq_false_2 in Hrun1, Hnow1 by (intros [? ?]; congruence).
  rewrite He1 in Hnow1.
  assert (now d1 !! model_path = Some (Dir c0)) as Hmp1.
  { rewrite Hnow1, lookup_insert_ne, lookup_delete_ne, !lookup_insert_ne by done. done. }
  assert (now d1 !! tmp = None) as Htmp1.
  { rewrite Hnow1, lookup_insert_ne by done. apply lookup_delete_eq. }
  assert (now d1 !! inside = Some (Zip c1)) as Hin1.
  { rewrite Hnow1. apply lookup_insert_eq. }
  assert (now d1 !! "check"%string = Some (Dir c1)) as Hck1.
  { rewrite Hnow1, lookup_insert_ne, lookup_delete_ne, lookup_insert_ne by done.
    apply lookup_insert_eq. }
  destruct (on_epoch_end_directory zip_chunks model_path Hne e2 d1 c0 (default c1 (checkpoint e2)))
    as (d2 & Hrun2 & Hnow2);
    [done | by (fold tmp; rewrite Htmp1) | by destruct (checkpoint e2) |].
  fold tmp inside in Hrun2, Hnow2. rewrite Hin1 in Hrun2, Hnow2.
  rewrite bool_decide_eq_true_2 in Hrun2, Hnow2 by eauto.
  exists d2. split.
  - cbn [fit]. erewrite (dbind_ok _ _ _ _ _ Hrun1). by apply dbind_fail.
  - rewrite Hnow2. split; [|split].
    + rewrite lookup_insert_ne by done.
      destruct (checkpoint e2); [by rewrite lookup_insert_ne by (by apply not_eq_sym) | done].
    + rewrite lookup_insert_ne by (by apply not_eq_sym).
      destruct (checkpoint e2); [by rewrite lookup_insert_ne by (by apply not_eq_sym) | done].
    + apply lookup_insert_eq.
Qed.

(** X19 at the model path [out], a directory, and two improving epochs. *)
Lemma X19_model_directory_witness :
  ∃ d, fit (λ _ : nat, 2) "out" [mk_epoch (Some 7); mk_epoch (Some 9)]
         (mk_Disk {["out"%string := Dir 0]} [])
       = (Raise ShutilError, d)
       ∧ now d !! "out"%string = Some (Dir 0)
       ∧ now d !! "out/out.zip"%string = Some (Zip 7)
       ∧ now d !! "out.zip"%string = Some (Zip 9).
Proof.
  apply (X19_directory_model_path_breaks_second_archive nat (λ _, 2) "out"
           (mk_epoch (Some 7)) (mk_epoch (Some 9)) [] {["out"%string := Dir 0]} 0 7).
  - discriminate.
  - reflexivity.
  - reflexivity.
  - reflexivity.
  - reflexivity.
Defined.

(** X20.  The default [window_size], 100, is even: when no window size is
    given, [from_sys_args] fails on its assertion and [main] stops before
    reading any file. *)
Theorem X20_default_window_is_rejected :
  ∀ (V M : Type) (S : Scalar V)
    (IForest_fit : SubsequenceIF.IForestArgs → list (list Np.float) → result M)
    (predict : M → list (list Np.float) → list Z)
    (args : SubsequenceIF.JsonArgs) (w : World V M),
    match SubsequenceIF.json_customParameters args with
    | None => True
    | Some j => SubsequenceIF.json_window_size j = None
    end →
    SubsequenceIF.from_sys_args args = Raise AssertionError
    ∧ SubsequenceIF.main IForest_fit predict args w = (Raise AssertionError, w).
Proof.
  intros V M S IForest_fit predict args w Hdefault.
  assert (SubsequenceIF.from_sys_args args = Raise AssertionError) as Hargs.
  { unfold SubsequenceIF.from_sys_args, SubsequenceIF.make_CustomParameters.
    destruct (SubsequenceIF.json_customParameters args) as [j|]; [|done].
    cbn [SubsequenceIF.window_size]. by rewrite Hdefault. }
  split; [done|]. unfold SubsequenceIF.main. by rewrite Hargs.
Qed.

(** X20 at a configuration without custom parameters. *)
Lemma X20_no_parameters_witness :
  SubsequenceIF.main (V:=Z) toy_fit toy_predict
    (SubsequenceIF.mk_JsonArgs "train" "in.csv" "out.csv" "model" "model" None)
    (world_of series_table)
  = (Raise AssertionError, world_of series_table).
Proof.
  apply (X20_default_window_is_rejected Z Np.float _ toy_fit toy_predict
           (SubsequenceIF.mk_JsonArgs "train" "in.csv" "out.csv" "model" "model" None)).
  exact I.
Defined.

Lemma slice_to_neg_all {A} (xs : list A) : slice_to_neg xs (length xs) = [].
Proof. destruct xs as [|x xs]; [done|]. unfold slice_to_neg. by rewrite Nat.sub_diag. Qed.

Lemma filter_anomaly_none (l : list string) :
  Forall (λ x, is_anomaly_column x = false) l →
  filter (λ x, is_anomaly_column x) l = [].
Proof.
  induction 1 as [|x l Hx _ IH]; [done|].
  rewrite filter_cons_False by (rewrite Hx; exact id). exact IH.
Qed.

Lemma filter_anomaly_all (l : list string) :
  Forall (λ x, is_anomaly_column x = true) l →
  filter (λ x, is_anomaly_column x) l = l.
Proof.
  induction 1 as [|x l Hx _ IH]; [done|].
  rewrite filter_cons_True by (by rewrite Hx). by f_equal.
Qed.

(** X21.  On a table whose header has no label column at all (then
    [columns[:-0]] is empty) or nothing but label columns, the resolution
    selects no channel, the row maximum of the empty label matrix raises
    [ValueError], and so do [train] and [execute], with nothing written. *)
Theorem X21_forest_needs_a_labelled_channel :
  ∀ (V M : Type) (S : Scalar V)
    (IForest_fit : SubsequenceIF.IForestArgs → list (list Np.float) → result M)
    (predict : M → list (list Np.float) → list Z)
    (config : SubsequenceIF.AlgorithmArgs) (w : World V M) (df : DataFrame V),
    fs w !! SubsequenceIF.dataInput config = Some (Csv df) →
    Forall (λ x, is_anomaly_column x = false) (columns df)
    ∨ Forall (λ x, is_anomaly_column x = true) (columns df) →
    (∃ r, resolve (columns df) df
            (SubsequenceIF.target_channels (SubsequenceIF.customParameters config)) = Ok r
          ∧ target_channels r = []
          ∧ Np.shape1 (dataset r) = 0)
    ∧ ∃ w', SubsequenceIF.train IForest_fit config w = (Raise ValueError, w')
            ∧ SubsequenceIF.execute predict config w = (Raise ValueError, w')
            ∧ fs w' = fs w.
Proof.
  intros V M S IForest_fit predict config w df Hdf Hcols.
  assert (slice_to_neg (columns df)
            (length (filter (λ x, is_anomaly_column x) (columns df))) = []) as Hdc.
  { destruct Hcols as [Hnone|Hall].
    - by rewrite (filter_anomaly_none _ Hnone).
    - rewrite (filter_anomaly_all _ Hall). apply slice_to_neg_all. }
  pose proof (resolve_without_channels (columns df) df
                (SubsequenceIF.target_channels (SubsequenceIF.customParameters config)) Hdc)
    as Hr.
  split; [eexists; split; [exact Hr | done]|].
  assert (SubsequenceIF.load_data config w
          = (Raise ValueError,
             mk_World (fs w)
               (Read (SubsequenceIF.dataInput config)
                :: Read (SubsequenceIF.dataInput config) :: events w))) as Hload.
  { unfold SubsequenceIF.load_data.
    erewrite io_bind_ok; [|exact (read_csv_ok _ _ _ Hdf)].
    erewrite io_bind_ok; [|by apply read_csv_ok].
    erewrite io_bind_ok; [|unfold lift; rewrite Hr; reflexivity].
    apply io_bind_fail. reflexivity. }
  eexists. split; [|split].
  - unfold SubsequenceIF.train. apply io_bind_fail. exact Hload.
  - unfold SubsequenceIF.execute. apply io_bind_fail. exact Hload.
  - reflexivity.
Qed.

(** X21 at a table with two channels and no label column. *)
Lemma X21_unlabelled_table_witness :
  ∃ w', SubsequenceIF.train (V:=Z) toy_fit
          (SubsequenceIF.mk_AlgorithmArgs "train" "in.csv" "out.csv" "model" "model"
             (SubsequenceIF.mk_CustomParameters 3 100 None Np.one false 42 0 1 None None))
          (world_of (mk_DataFrame 2 [("a", [1; 2]%Z); ("b", [3; 4]%Z)]))
        = (Raise ValueError, w').
Proof.
  destruct (X21_forest_needs_a_labelled_channel Z Np.float _ toy_fit toy_predict
              (SubsequenceIF.mk_AlgorithmArgs "train" "in.csv" "out.csv" "model" "model"
                 (SubsequenceIF.mk_CustomParameters 3 100 None Np.one false 42 0 1 None None))
              (world_of (mk_DataFrame 2 [("a", [1; 2]%Z); ("b", [3; 4]%Z)]))
              (mk_DataFrame 2 [("a", [1; 2]%Z); ("b", [3; 4]%Z)]))
    as (_ & w' & Htrain & _).
  - reflexivity.
  - left. by repeat constructor.
  - exists w'. exact Htrain.
Defined.

(* ===================================================================== *)
(** * The detectors from input to output *)
(* ===================================================================== *)

(** *** The rows a mask selects, by their indices *)

Section MaskedRows.
Context {A : Type}.



End MaskedRows.




(** C4, amended.  With the input resolved and a baseline on disk that has
    one mean and one standard deviation per channel, [execute] returns and
    writes to [dataOutput] one flag per row and channel of the data: 1 when
    the value is above [mean + tol * std] or below [mean - tol * std], 0
    otherwise.  Both comparisons are strict: a value equal to a threshold
    does not pass that threshold's test, and it is not flagged when the
    lower threshold is at most the upper one.  [tol] is 3.0 unless it is
    given. *)
Theorem C4_execute_writes_band_flags :
  ∀ (V M : Type) (S : Scalar V) (np_mean np_std : list Np.float → Np.float)
    (config : Std.AlgorithmArgs) (w : World V M) (df : DataFrame V) (r : resolved)
    (train_means train_stds : list Np.float),
    let tol := Std.tol (Std.customParameters config) in
    let upper m sd := Np.add m (Np.mul tol sd) in
    let lower m sd := Np.sub m (Np.mul tol sd) in
    let flag x m sd : Z :=
      if Np.gtb x (upper m sd) || Np.ltb x (lower m sd) then 1%Z else 0%Z in
    Std.executionType config = "execute"%string →
    fs w !! Std.dataInput config = Some (Csv df) →
    resolve (columns df) df (Std.target_channels (Std.customParameters config)) = Ok r →
    fs w !! String.append (Std.modelOutput config) ".means.txt" = Some (FloatText train_means) →
    fs w !! String.append (Std.modelOutput config) ".stds.txt" = Some (FloatText train_stds) →
    length train_means = Np.shape1 (dataset r) →
    length train_stds = Np.shape1 (dataset r) →
    (∃ s w', Std.execute np_mean np_std config w = (Ok tt, w')
             ∧ fs w' = <[Std.dataOutput config := IntMatrixText s]> (fs w)
             ∧ Np.shape0 s = Np.shape0 (dataset r)
             ∧ Np.shape1 s = Np.shape1 (dataset r)
             ∧ ∀ c col m sd,
                 Np.cols (dataset r) !! c = Some col →
                 train_means !! c = Some m →
                 train_stds !! c = Some sd →
                 ∃ scol, Np.cols s !! c = Some scol
                         ∧ length scol = length col
                         ∧ ∀ i x, col !! i = Some x → scol !! i = Some (flag x m sd))
    ∧ (∀ x m sd, (flag x m sd = 1%Z ∧ (Np.gtb x (upper m sd) = true
                                        ∨ Np.ltb x (lower m sd) = true))
                 ∨ (flag x m sd = 0%Z ∧ Np.gtb x (upper m sd) = false
                                       ∧ Np.ltb x (lower m sd) = false))
    ∧ (∀ x m sd, Np.eqb x (upper m sd) = true → Np.gtb x (upper m sd) = false)
    ∧ (∀ x m sd, Np.eqb x (lower m sd) = true → Np.ltb x (lower m sd) = false)
    ∧ (∀ x m sd,
         Np.leb (lower m sd) (upper m sd) = true →
         Np.eqb x (upper m sd) = true ∨ Np.eqb x (lower m sd) = true →
         flag x m sd = 0%Z)
    ∧ Std.tol Std.default_CustomParameters = Np.of_int 3
    ∧ (∀ j, Std.json_tol j = None →
            Std.tol (Std.make_CustomParameters (Some j)) = Np.of_int 3)
    ∧ Std.tol (Std.make_CustomParameters None) = Np.of_int 3.
Proof.
  intros V M S np_mean np_std config w df r means stds tol upper lower flag
    Hexec Hdf Hr Hmf Hsf Hm Hs.
  split; [|split; [|split; [|split; [|split; [|split; [|split]]]]]].
  - destruct (std_load_data_execute np_mean np_std config w df r means stds
                Hexec Hdf Hr Hmf Hsf) as (c' & w1 & Hload & Hfs & Htol & Hdo).
    destruct (scores_ok tol (dataset r) means stds Hm Hs) as (s & Hsc & H0 & H1 & Hcols).
    exists s. eexists. split.
    { unfold Std.execute. erewrite io_bind_ok; [|exact Hload]. cbn beta iota.
      rewrite Htol, Hdo. fold tol.
      erewrite io_bind_ok; [|unfold lift; rewrite Hsc; reflexivity].
      unfold write. reflexivity. }
    cbn [fs]. rewrite Hfs. split; [done|]. split; [done|]. split; [done|].
    intros c col m sd Hc Hmc Hsc'. eexists. split; [by apply Hcols|].
    split; [by rewrite length_fmap|].
    intros i x Hx. by rewrite list_lookup_fmap, Hx.
  - intros x m sd. unfold flag.
    destruct (Np.gtb x (upper m sd)); [left; split; [done | by left]|].
    destruct (Np.ltb x (lower m sd)); [left; split; [done | by right]|].
    right. done.
  - intros x m sd. apply eqb_not_gtb.
  - intros x m sd. apply eqb_not_ltb.
  - intros x m sd Hle [Heq|Heq]; unfold flag.
    + by rewrite (eqb_not_gtb _ _ Heq), (eqb_upper_not_below _ _ _ Hle Heq).
    + by rewrite (eqb_not_ltb _ _ Heq), (eqb_lower_not_above _ _ _ Hle Heq).
  - reflexivity.
  - intros j Hj. simpl. by rewrite Hj.
  - reflexivity.
Qed.

(** C4, amended, at one channel with the values 1, 5 and 9 and a baseline
    of mean 2 and deviation 1: 5 sits on the upper threshold [2 + 3 * 1]. *)
Lemma C4_band_witness :
  ∃ w', Std.execute (V:=Z) (M:=unit) mean std
          (Std.mk_AlgorithmArgs "execute" "in.csv" "out.csv" "model" "model"
             Std.default_CustomParameters)
          (mk_World (<["model.stds.txt"%string := FloatText [Np.of_int 1]]>
                       (<["model.means.txt"%string := FloatText [Np.of_int 2]]>
                          {["in.csv"%string :=
                              Csv (mk_DataFrame 3 [("a", [1; 5; 9]%Z);
                                                   ("is_anomaly_a", [0; 0; 0]%Z)])]}))
             [])
        = (Ok tt, w')
        ∧ fs w' !! "out.csv"%string = Some (IntMatrixText (Np.mk_ndarray 3 [[0; 0; 1]%Z])).
Proof.
  edestruct (C4_execute_writes_band_flags Z unit _ mean std
              (Std.mk_AlgorithmArgs "execute" "in.csv" "out.csv" "model" "model"
                 Std.default_CustomParameters)
              (mk_World (<["model.stds.txt"%string := FloatText [Np.of_int 1]]>
                           (<["model.means.txt"%string := FloatText [Np.of_int 2]]>
                              {["in.csv"%string :=
                                  Csv (mk_DataFrame 3 [("a", [1; 5; 9]%Z);
                                                       ("is_anomaly_a", [0; 0; 0]%Z)])]}))
                 [])
              (mk_DataFrame 3 [("a", [1; 5; 9]%Z); ("is_anomaly_a", [0; 0; 0]%Z)]))
    as [(s & w' & Hrun & Hfs & _) _].
  - reflexivity.
  - reflexivity.
  - vm_compute. reflexivity.
  - reflexivity.
  - reflexivity.
  - reflexivity.
  - reflexivity.
  - exists w'. split; [exact Hrun|].
    vm_compute in Hrun. injection Hrun as <-. reflexivity.
Defined.

(** C4 fails: with the tolerance -1 the band is inverted (for mean 2 and
    deviation 1 the upper threshold is 1 and the lower one is 3), and the
    values 1 and 3, each exactly at a threshold, are flagged. *)
Lemma C4_counterexample :
  ∃ w', Std.execute (V:=Z) (M:=unit) mean std
          (Std.mk_AlgorithmArgs "execute" "in.csv" "out.csv" "model" "model"
             (Std.mk_CustomParameters (Np.of_int (-1)) 42 None None))
          (mk_World (<["model.stds.txt"%string := FloatText [Np.of_int 1]]>
                       (<["model.means.txt"%string := FloatText [Np.of_int 2]]>
                          {["in.csv"%string :=
                              Csv (mk_DataFrame 3 [("a", [1; 3; 2]%Z);
                                                   ("is_anomaly_a", [0; 0; 0]%Z)])]}))
             [])
        = (Ok tt, w')
        ∧ fs w' !! "out.csv"%string = Some (IntMatrixText (Np.mk_ndarray 3 [[1; 1; 1]%Z]))
        ∧ Np.eqb (Np.of_int 1)
            (Np.add (Np.of_int 2) (Np.mul (Np.of_int (-1)) (Np.of_int 1))) = true
        ∧ Np.eqb (Np.of_int 3)
            (Np.sub (Np.of_int 2) (Np.mul (Np.of_int (-1)) (Np.of_int 1))) = true.
Proof. eexists. split; [vm_compute; reflexivity|]. vm_compute. done. Qed.

Section UsedChannels.
Context {V : Type} `{!Scalar V}.


End UsedChannels.



Lemma filter_anomaly_nil_inv (l : list string) :
  filter (λ x, is_anomaly_column x) l = [] →
  Forall (λ x, is_anomaly_column x = false) l.
Proof.
  induction l as [|x l IH]; [constructor|].
  destruct (is_anomaly_column x) eqn:Hx.
  - rewrite filter_cons_True by (by rewrite Hx). discriminate.
  - rewrite filter_cons_False by (rewrite Hx; exact id).
    intros H. constructor; [done | by apply IH].
Qed.

Lemma filter_anomaly_length_inv (l : list string) :
  length (filter (λ x, is_anomaly_column x) l) = length l →
  Forall (λ x, is_anomaly_column x = true) l.
Proof.
  induction l as [|x l IH]; [constructor|].
  destruct (is_anomaly_column x) eqn:Hx.
  - rewrite filter_cons_True by (by rewrite Hx). simpl.
    intros H. constructor; [done | apply IH; lia].
  - rewrite filter_cons_False by (rewrite Hx; exact id). simpl.
    pose proof (length_filter (λ x, is_anomaly_column x) l). lia.
Qed.

(** The header without its trailing label columns is empty exactly when
    it has nothing but label columns, or no label column at all. *)
Lemma data_columns_nil (cols : list string) :
  slice_to_neg cols (length (filter (λ x, is_anomaly_column x) cols)) = []
  ↔ Forall (λ x, is_anomaly_column x = true) cols
    ∨ Forall (λ x, is_anomaly_column x = false) cols.
Proof.
  split.
  - unfold slice_to_neg.
    destruct (length (filter (λ x, is_anomaly_column x) cols)) as [|n] eqn:Hn.
    + intros _. right. apply filter_anomaly_nil_inv. by apply length_zero_iff_nil.
    + intros Htake. left. apply filter_anomaly_length_inv.
      pose proof (length_filter (λ x, is_anomaly_column x) cols) as Hle.
      apply (f_equal length) in Htake. rewrite length_take in Htake. simpl in Htake. lia.
  - intros [Hall|Hnone].
    + rewrite (filter_anomaly_all _ Hall). apply slice_to_neg_all.
    + by rewrite (filter_anomaly_none _ Hnone).
Qed.

(** C9, amended.  Neither detector checks for an empty selection.  A
    resolution that succeeds selects no channel exactly when the header
    without its trailing label columns is empty, which is when the header
    has nothing but label columns or no label column at all; on such a
    table the resolution does succeed, with a data matrix of no column.
    The baseline detector then goes on: training writes two empty baselines,
    and scoring against them writes a score matrix of no column.  The
    windowed detector fails in both modes, with the [ValueError] of the row
    maximum over a label matrix of no column, and writes nothing. *)
Theorem C9_empty_selection_is_not_checked :
  ∀ (V M : Type) (S : Scalar V) (np_mean np_std : list Np.float → Np.float)
    (IForest_fit : SubsequenceIF.IForestArgs → list (list Np.float) → result M)
    (predict : M → list (list Np.float) → list Z)
    (df : DataFrame V),
    let data_columns :=
      slice_to_neg (columns df)
        (length (filter (λ x, is_anomaly_column x) (columns df))) in
    (data_columns = []
     ↔ Forall (λ x, is_anomaly_column x = true) (columns df)
       ∨ Forall (λ x, is_anomaly_column x = false) (columns df))
    ∧ (∀ requested r, resolve (columns df) df requested = Ok r →
                      (target_channels r = [] ↔ data_columns = []))
    ∧ (data_columns = [] →
       (∀ requested, ∃ r, resolve (columns df) df requested = Ok r
                          ∧ target_channels r = []
                          ∧ Np.shape1 (dataset r) = 0)
       ∧ (∀ (args : Std.JsonArgs) (w : World V M),
            fs w !! Std.json_dataInput args = Some (Csv df) →
            Std.json_executionType args = "train"%string →
            ∃ w', Std.main np_mean np_std args w = (Ok tt, w')
                  ∧ fs w' =
                      <[String.append (Std.json_modelOutput args) ".stds.txt" := FloatText []]>
                        (<[String.append (Std.json_modelOutput args) ".means.txt"
                             := FloatText []]> (fs w)))
       ∧ (∀ (config : Std.AlgorithmArgs) (w : World V M),
            Std.executionType config = "execute"%string →
            fs w !! Std.dataInput config = Some (Csv df) →
            fs w !! String.append (Std.modelOutput config) ".means.txt"
              = Some (FloatText []) →
            fs w !! String.append (Std.modelOutput config) ".stds.txt"
              = Some (FloatText []) →
            ∃ w', Std.execute np_mean np_std config w = (Ok tt, w')
                  ∧ fs w' = <[Std.dataOutput config
                                := IntMatrixText (Np.mk_ndarray (index df) [])]> (fs w))
       ∧ (∀ (config : SubsequenceIF.AlgorithmArgs) (w : World V M),
            fs w !! SubsequenceIF.dataInput config = Some (Csv df) →
            ∃ w', SubsequenceIF.train IForest_fit config w = (Raise ValueError, w')
                  ∧ SubsequenceIF.execute predict config w = (Raise ValueError, w')
                  ∧ fs w' = fs w)).
Proof.
  intros V M S np_mean np_std IForest_fit predict df data_columns.
  split; [apply data_columns_nil|]. split.
  - intros requested r Hr. rewrite (resolve_target_channels _ _ _ _ Hr).
    fold data_columns.
    destruct requested as [tc|]; [|done]. simpl.
    destruct (no_common_channel tc data_columns) eqn:Hc; [done|].
    apply no_common_channel_false in Hc as [x [Hx Hd]]. split.
    + intros Hnil.
      assert (x ∈ filter (λ x, x ∈ data_columns) tc) as Hin
        by (by apply list_elem_of_filter).
      rewrite Hnil in Hin. by apply elem_of_nil in Hin.
    + intros Hnil. rewrite Hnil in Hd. by apply elem_of_nil in Hd.
  - intros Hdc.
    pose proof (λ requested, resolve_without_channels (columns df) df requested Hdc) as Hres.
    split; [|split; [|split]].
    + intros requested. eexists. split; [apply Hres | done].
    + intros args w Hfile Htrain. eexists.
      unfold Std.main, Std.from_sys_args.
      erewrite io_bind_ok by reflexivity. cbn [Std.executionType].
      rewrite decide_True by done.
      unfold Std.train, Std.load_data. cbn [Std.dataInput].
      erewrite io_bind_ok; [|erewrite io_bind_ok by (by apply read_csv_ok)].
      2:{ erewrite io_bind_ok by (by apply read_csv_ok).
          rewrite Hres.
          erewrite io_bind_ok by reflexivity.
          unfold Std.baseline. cbn [Std.executionType Std.modelOutput].
          rewrite decide_True by done. reflexivity. }
      split; reflexivity.
    + intros config w Hexec Hfile Hm Hs.
      destruct (std_load_data_execute np_mean np_std config w df _ [] []
                  Hexec Hfile (Hres _) Hm Hs) as (c' & w1 & Hload & Hfs & Htol & Hdo).
      eexists. split.
      * unfold Std.execute. erewrite io_bind_ok; [|exact Hload]. cbn beta iota.
        rewrite Hdo. cbn [dataset]. erewrite io_bind_ok; [|reflexivity].
        unfold write. reflexivity.
      * cbn [fs]. by rewrite Hfs.
    + intros config w Hfile.
      assert (SubsequenceIF.load_data config w
              = (Raise ValueError,
                 mk_World (fs w)
                   (Read (SubsequenceIF.dataInput config)
                    :: Read (SubsequenceIF.dataInput config) :: events w))) as Hload.
      { unfold SubsequenceIF.load_data.
        erewrite io_bind_ok; [|exact (read_csv_ok _ _ _ Hfile)].
        erewrite io_bind_ok; [|by apply read_csv_ok].
        erewrite io_bind_ok; [|unfold lift; rewrite Hres; reflexivity].
        apply io_bind_fail. reflexivity. }
      eexists. split; [|split].
      * unfold SubsequenceIF.train. apply io_bind_fail. exact Hload.
      * unfold SubsequenceIF.execute. apply io_bind_fail. exact Hload.
      * reflexivity.
Qed.

(** C9, amended, at the table that has a label column and no channel: the
    baseline detector trains, the windowed detector raises. *)
Lemma C9_no_channel_witness :
  (∃ w', Std.main (M:=Np.float) mean std (std_args "train" None) (world_of no_channel_table)
         = (Ok tt, w')
         ∧ fs w' = <["model.stds.txt"%string := FloatText []]>
                     (<["model.means.txt"%string := FloatText []]>
                        (fs (world_of no_channel_table))))
  ∧ ∃ w', SubsequenceIF.train (V:=Z) toy_fit
            (SubsequenceIF.mk_AlgorithmArgs "train" "in.csv" "out.csv" "model" "model"
               (SubsequenceIF.mk_CustomParameters 3 100 None Np.one false 42 0 1 None None))
            (world_of no_channel_table)
          = (Raise ValueError, w').
Proof.
  destruct (C9_empty_selection_is_not_checked Z Np.float _ mean std toy_fit toy_predict
              no_channel_table) as (_ & _ & Hrun).
  destruct (Hrun eq_refl) as (_ & Hstd & _ & Hsif). split.
  - apply (Hstd (std_args "train" None) (world_of no_channel_table)); reflexivity.
  - destruct (Hsif (SubsequenceIF.mk_AlgorithmArgs "train" "in.csv" "out.csv" "model" "model"
                      (SubsequenceIF.mk_CustomParameters 3 100 None Np.one false 42 0 1
                         None None))
                (world_of no_channel_table) eq_refl) as (w' & Htrain & _).
    exists w'. exact Htrain.
Defined.
